(** * painel-gerencial-agencias: scalar parsers, business-day projection,
      per-unit aggregation and the record-level default ordering.

    A shallow embedding of [src/utils/helpers.ts], of the data service (the
    row normaliser and the sheets of users, targets and calendar), of the
    [unitStats] aggregation of the managerial table, of the default sort of
    [DetailTable.tsx] and of the computations of [Dashboard.tsx] (date
    filter, date inputs, latest emission, unit list and unit metrics).

    Conventions of the embedding.
    - A JavaScript [number] is an IEEE-754 binary64 value: [spec_float] at
      precision 53 and maximal exponent 1024, with the arithmetic of
      [SpecFloat] (round to nearest, ties to even).
    - A JavaScript string is a [string]: one [ascii] per code unit, so the
      code units of the model range over U+0000..U+00FF.  The only characters
      the code tells apart are ASCII digits, separators and white space.
    - A [Date] is its time value (milliseconds since the epoch, UTC) or the
      invalid date.  Local time is UTC plus a constant offset [LocalTZA]:
      the statements hold for a time zone whose offset does not change.
      Module [Zoned] gives the date operations for a zone whose offset
      changes once, and [calculateBusinessDays_skipped_midnight] shows what
      the code does where the clocks skip midnight. *)

From Stdlib Require Import ZArith List String Ascii Bool Lia Permutation.
From Stdlib Require Import Sorting.Sorted.
From Stdlib Require Import Floats.SpecFloat Floats.PrimFloat Floats.FloatOps.
Import ListNotations.

#[local] Open Scope string_scope.
#[local] Open Scope list_scope.
#[local] Open Scope Z_scope.
#[local] Set Warnings "-inexact-float".

(** ** JavaScript numbers *)

Module JSNumber.

Definition number := spec_float.

Definition prec : Z := 53.
Definition emax : Z := 1024.

Definition zero : number := S754_zero false.
Definition NaN : number := S754_nan.
Definition Infinity : number := S754_infinity false.

(** The Number value of a mathematical integer. *)
Definition ofZ (z : Z) : number := binary_normalize prec emax z 0 false.

Definition add : number -> number -> number := SFadd prec emax.
Definition sub : number -> number -> number := SFsub prec emax.
Definition mul : number -> number -> number := SFmul prec emax.
Definition div : number -> number -> number := SFdiv prec emax.

Definition isNaN (x : number) : bool :=
  match x with S754_nan => true | _ => false end.

Definition isFinite (x : number) : bool :=
  match x with S754_zero _ | S754_finite _ _ _ => true | _ => false end.

(** ToBoolean: [+0], [-0] and [NaN] are falsy. *)
Definition truthy (x : number) : bool :=
  match x with S754_zero _ | S754_nan => false | _ => true end.

(** [x || d] on numbers. *)
Definition orElse (x d : number) : number := if truthy x then x else d.

(** [x < 0] *)
Definition isNegative (x : number) : bool :=
  match x with
  | S754_infinity true | S754_finite true _ _ => true
  | _ => false
  end.

(** ToIntegerOrInfinity of a finite number (truncation towards zero);
    [None] stands for NaN and the infinities. *)
Definition toInteger (x : number) : option Z :=
  match x with
  | S754_zero _ => Some 0
  | S754_finite s m e =>
      let mag := if 0 <=? e then Z.shiftl (Zpos m) e
                 else Z.shiftr (Zpos m) (- e) in
      Some (if s then - mag else mag)
  | _ => None
  end.

(** The Number value of the decimal [(-1)^s * m * 10^k], correctly rounded
    in one step. *)
Definition ofDecimal (s : bool) (m : Z) (k : Z) : number :=
  match m with
  | Zpos p =>
      if 0 <=? k
      then binary_normalize prec emax
             (if s then - (m * 10 ^ k) else m * 10 ^ k) 0 s
      else match 10 ^ (- k) with
           | Zpos q => div (S754_finite s p 0) (S754_finite false q 0)
           | _ => NaN
           end
  | _ => S754_zero s
  end.

End JSNumber.

Import JSNumber.

(** ** JavaScript strings and the built-ins the code calls *)

Module JSString.

Definition code (c : ascii) : Z := Z.of_N (N_of_ascii c).

Definition isDigit (c : ascii) : bool := (48 <=? code c) && (code c <=? 57).

Definition digitValue (c : ascii) : Z := code c - 48.

(** White space and line terminators (TAB, LF, VT, FF, CR, SP, NBSP). *)
Definition isWhiteSpace (c : ascii) : bool :=
  ((9 <=? code c) && (code c <=? 13)) || (code c =? 32) || (code c =? 160).

(** Value of a digit in radix 16, when it is one. *)
Definition hexValue (c : ascii) : option Z :=
  let n := code c in
  if (48 <=? n) && (n <=? 57) then Some (n - 48)
  else if (65 <=? n) && (n <=? 70) then Some (n - 55)
  else if (97 <=? n) && (n <=? 102) then Some (n - 87)
  else None.

(** [s.includes(c)] for a one-character needle. *)
Fixpoint includes (c : ascii) (s : string) : bool :=
  match s with
  | EmptyString => false
  | String a rest => Ascii.eqb a c || includes c rest
  end.

(** [s.split(c)] for a one-character separator. *)
Fixpoint split (sep : ascii) (s : string) : list string :=
  match s with
  | EmptyString => [EmptyString]
  | String a rest =>
      if Ascii.eqb a sep then EmptyString :: split sep rest
      else match split sep rest with
           | p :: ps => String a p :: ps
           | [] => [String a EmptyString]
           end
  end.

Fixpoint trimStart (s : string) : string :=
  match s with
  | String a rest => if isWhiteSpace a then trimStart rest else s
  | EmptyString => EmptyString
  end.

Fixpoint trimEnd (s : string) : string :=
  match s with
  | EmptyString => EmptyString
  | String a rest =>
      match trimEnd rest with
      | EmptyString => if isWhiteSpace a then EmptyString
                       else String a EmptyString
      | r => String a r
      end
  end.

Definition trim (s : string) : string := trimEnd (trimStart s).

(** [s.replace(/[c]/g, '')]: drop every code unit on which [p] holds. *)
Fixpoint removeAll (p : ascii -> bool) (s : string) : string :=
  match s with
  | EmptyString => EmptyString
  | String a rest =>
      if p a then removeAll p rest else String a (removeAll p rest)
  end.

(** [s.replace(c, d)] with a string pattern: the first occurrence only. *)
Fixpoint replaceFirst (c d : ascii) (s : string) : string :=
  match s with
  | EmptyString => EmptyString
  | String a rest =>
      if Ascii.eqb a c then String d rest
      else String a (replaceFirst c d rest)
  end.

(** Longest prefix of decimal digits, as (value, number of digits, rest). *)
Fixpoint takeDigits (acc : Z) (n : Z) (s : string) : Z * Z * string :=
  match s with
  | String a rest =>
      if isDigit a then takeDigits (10 * acc + digitValue a) (n + 1) rest
      else (acc, n, s)
  | EmptyString => (acc, n, s)
  end.

Fixpoint takeHexDigits (acc : Z) (n : Z) (s : string) : Z * Z * string :=
  match s with
  | String a rest =>
      match hexValue a with
      | Some v => takeHexDigits (16 * acc + v) (n + 1) rest
      | None => (acc, n, s)
      end
  | EmptyString => (acc, n, s)
  end.

(** Optional sign: ([true] when negative, rest). *)
Definition takeSign (s : string) : bool * string :=
  match s with
  | String "-" rest => (true, rest)
  | String "+" rest => (false, rest)
  | _ => (false, s)
  end.

(** [parseInt(s)] with the radix left out: leading white space, a sign,
    an optional [0x]/[0X] prefix, then the longest run of digits. *)
Definition parseInt (s : string) : number :=
  let '(neg, body) := takeSign (trimStart s) in
  let '(v, n, _) :=
    match body with
    | String "0" (String "x" rest) | String "0" (String "X" rest) =>
        takeHexDigits 0 0 rest
    | _ => takeDigits 0 0 body
    end in
  if n =? 0 then NaN
  else binary_normalize prec emax (if neg then - v else v) 0 neg.

Definition startsWith (pre s : string) : bool :=
  String.eqb (substring 0 (String.length pre) s) pre.

(** Exponent part of a decimal literal: [e] or [E], a sign, digits.  When
    no digit follows, there is no exponent part. *)
Definition takeExponent (s : string) : Z :=
  match s with
  | String "e" rest | String "E" rest =>
      let '(neg, body) := takeSign rest in
      let '(v, n, _) := takeDigits 0 0 body in
      if n =? 0 then 0 else if neg then - v else v
  | _ => 0
  end.

(** [parseFloat(s)]: the Number value of the longest prefix of the trimmed
    text that is a StrDecimalLiteral, NaN when there is none. *)
Definition parseFloat (s : string) : number :=
  let '(neg, body) := takeSign (trimStart s) in
  if startsWith "Infinity" body then S754_infinity neg
  else
    let '(i, ni, r1) := takeDigits 0 0 body in
    let '(m, nf, r2) :=
      match r1 with
      | String "." rest =>
          let '(m, nf, r2) := takeDigits i 0 rest in
          if (ni =? 0) && (nf =? 0) then (i, 0, r1) else (m, nf, r2)
      | _ => (i, 0, r1)
      end in
    if (ni =? 0) && (nf =? 0) then NaN
    else ofDecimal neg m (takeExponent r2 - nf).

End JSString.

Import JSString.

(** ** The Date object *)

Module JSDate.

Inductive Date :=
| InvalidDate
| TimeValue (tv : Z).

(** What [toDateString()] shows: the local calendar day, or the text
    "Invalid Date".  Two valid dates print alike exactly when they fall on
    the same local day, so the day number stands for the text. *)
Inductive DateString :=
| InvalidDateString
| DayString (day : Z).

Definition DateString_eqb (a b : DateString) : bool :=
  match a, b with
  | InvalidDateString, InvalidDateString => true
  | DayString x, DayString y => x =? y
  | _, _ => false
  end.

Definition msPerDay : Z := 86400000.
Definition maxTime : Z := 8640000000000000.

Definition Day (t : Z) : Z := t / msPerDay.
Definition TimeWithinDay (t : Z) : Z := t mod msPerDay.
Definition WeekDay (t : Z) : Z := (Day t + 4) mod 7.

Definition TimeClip (t : Z) : Date :=
  if Z.abs t <=? maxTime then TimeValue t else InvalidDate.

Definition InLeapYear (y : Z) : bool :=
  ((y mod 4 =? 0) && negb (y mod 100 =? 0)) || (y mod 400 =? 0).

Definition DayFromYear (y : Z) : Z :=
  365 * (y - 1970) + (y - 1969) / 4 - (y - 1901) / 100 + (y - 1601) / 400.

(** Days of the year before month [mn] (0 = January). *)
Definition daysBeforeMonth (leap : bool) (mn : Z) : Z :=
  let l := if leap then 1 else 0 in
  match mn with
  | 0 => 0
  | 1 => 31
  | 2 => 59 + l
  | 3 => 90 + l
  | 4 => 120 + l
  | 5 => 151 + l
  | 6 => 181 + l
  | 7 => 212 + l
  | 8 => 243 + l
  | 9 => 273 + l
  | 10 => 304 + l
  | _ => 334 + l
  end.

(** MakeDay on integral arguments: months and days out of range carry
    over into the neighbouring months and years. *)
Definition MakeDay (year month date : Z) : Z :=
  let ym := year + month / 12 in
  let mn := month mod 12 in
  DayFromYear ym + daysBeforeMonth (InLeapYear ym) mn + date - 1.

Section LocalTime.

(** Offset of local time from UTC, in milliseconds. *)
Variable LocalTZA : Z.

Definition LocalTime (t : Z) : Z := t + LocalTZA.
Definition UTC (t : Z) : Z := t - LocalTZA.

(** [new Date(year, month, date)]: with a constant offset, the local
    midnight of that day.  A year from 0 to 99 means 1900 + year. *)
Definition newDate (year month date : number) : Date :=
  match toInteger year, toInteger month, toInteger date with
  | Some y, Some m, Some dt =>
      let yr := if (0 <=? y) && (y <=? 99) then 1900 + y else y in
      TimeClip (UTC (MakeDay yr m dt * msPerDay))
  | _, _, _ => InvalidDate
  end.

(** [new Date(d.getTime())] *)
Definition copyDate (d : Date) : Date :=
  match d with
  | TimeValue t => TimeClip t
  | InvalidDate => InvalidDate
  end.

(** [d.getTime() || 0] as the sort comparators use it: NaN turns to 0. *)
Definition getTimeOrZero (d : option Date) : Z :=
  match d with
  | Some (TimeValue t) => t
  | _ => 0
  end.

(** [d.setHours(0,0,0,0)]: with a constant offset, the local midnight of
    the day of [d]. *)
Definition setHoursZero (d : Date) : Date :=
  match d with
  | TimeValue tv => TimeClip (UTC (Day (LocalTime tv) * msPerDay))
  | InvalidDate => InvalidDate
  end.

(** [d.getDay()]; [None] is NaN. *)
Definition getDay (d : Date) : option Z :=
  match d with
  | TimeValue tv => Some (WeekDay (LocalTime tv))
  | InvalidDate => None
  end.

Definition toDateString (d : Date) : DateString :=
  match d with
  | TimeValue tv => DayString (Day (LocalTime tv))
  | InvalidDate => InvalidDateString
  end.

(** [d.setDate(d.getDate() + 1)]: with a constant offset, the same local
    time on the next calendar day, since MakeDay (year, month,
    day-of-month + 1) of a day is the day after it. *)
Definition setDateNext (d : Date) : Date :=
  match d with
  | TimeValue tv =>
      let t := LocalTime tv in
      TimeClip (UTC ((Day t + 1) * msPerDay + TimeWithinDay t))
  | InvalidDate => InvalidDate
  end.

(** [a <= b] and [a < b] on dates: a comparison of time values, false as
    soon as one is NaN. *)
Definition dateLe (a b : Date) : bool :=
  match a, b with
  | TimeValue x, TimeValue y => x <=? y
  | _, _ => false
  end.

Definition dateLt (a b : Date) : bool :=
  match a, b with
  | TimeValue x, TimeValue y => x <? y
  | _, _ => false
  end.

End LocalTime.

End JSDate.

Import JSDate.

(** ** src/utils/helpers.ts *)

Section Helpers.

Variable LocalTZA : Z.

Definition nth_part (parts : list string) (i : nat) : string :=
  nth i parts EmptyString.

Definition parseDate (dateStr : string) : option Date :=
  if String.eqb dateStr "" then None
  else
    let bySlash := split "/" dateStr in
    if includes "/" dateStr && (List.length bySlash =? 3)%nat then
      Some (newDate LocalTZA
              (parseInt (nth_part bySlash 2))
              (sub (parseInt (nth_part bySlash 1)) (ofZ 1))
              (parseInt (nth_part bySlash 0)))
    else
      let byDash := split "-" dateStr in
      if includes "-" dateStr && (List.length byDash =? 3)%nat then
        Some (newDate LocalTZA
                (parseInt (nth_part byDash 0))
                (sub (parseInt (nth_part byDash 1)) (ofZ 1))
                (parseInt (nth_part byDash 2)))
      else None.

Definition parseInputDate (isoStr : string) : option Date :=
  if String.eqb isoStr "" then None
  else
    let parts := split "-" isoStr in
    if negb (List.length parts =? 3)%nat then None
    else Some (newDate LocalTZA
                 (parseInt (nth_part parts 0))
                 (sub (parseInt (nth_part parts 1)) (ofZ 1))
                 (parseInt (nth_part parts 2))).

(** The argument of [parseCurrency] is declared a string; the function
    itself also lets a number through unchanged. *)
Inductive CurrencyInput :=
| NumberInput (n : number)
| TextInput (s : string).

(** The class [[^\d.-]]: everything but digits, dot and minus. *)
Definition notNumeric (c : ascii) : bool :=
  negb (isDigit c || Ascii.eqb c "." || Ascii.eqb c "-").

Definition parseCurrency (val : CurrencyInput) : number :=
  match val with
  | NumberInput n => n
  | TextInput val =>
      if String.eqb val "" then zero
      else
        let strVal := trim val in
        if includes "," strVal then
          let clean :=
            removeAll notNumeric
              (replaceFirst "," "."
                 (removeAll (fun c => Ascii.eqb c ".") strVal)) in
          orElse (parseFloat clean) zero
        else
          let clean := removeAll notNumeric strVal in
          orElse (parseFloat clean) zero
  end.

(** The [while (curDate <= endDate)] loop of [calculateBusinessDays], one
    iteration per unit of fuel; it returns the count and the date on which
    it stopped. *)
Fixpoint businessDaysLoop (fuel : nat) (endDate : Date)
    (holidayStrings : list DateString) (curDate : Date) (count : Z)
    : Z * Date :=
  match fuel with
  | O => (count, curDate)
  | S fuel' =>
      if dateLe curDate endDate then
        let dayOfWeek := getDay LocalTZA curDate in
        let weekday :=
          match dayOfWeek with
          | Some n => negb (n =? 0) && negb (n =? 6)
          | None => true
          end in
        let count' :=
          if weekday then
            if negb (existsb (DateString_eqb (toDateString LocalTZA curDate))
                             holidayStrings)
            then count + 1 else count
          else count in
        businessDaysLoop fuel' endDate holidayStrings
          (setDateNext LocalTZA curDate) count'
      else (count, curDate)
  end.

(** Iterations that are enough for the loop to leave on its condition. *)
Definition loopFuel (curDate endDate : Date) : nat :=
  match curDate, endDate with
  | TimeValue a, TimeValue b => Z.to_nat ((b - a) / msPerDay + 2)
  | _, _ => 1%nat
  end.

Definition businessDaysRun (start end_ : Date) (holidays : list Date)
    : Z * Date :=
  let curDate := setHoursZero LocalTZA (copyDate start) in
  let endDate := setHoursZero LocalTZA (copyDate end_) in
  let holidayStrings :=
    map (fun h => toDateString LocalTZA (setHoursZero LocalTZA (copyDate h)))
        holidays in
  businessDaysLoop (loopFuel curDate endDate) endDate holidayStrings
    curDate 0.

Definition calculateBusinessDays (start end_ : Date) (holidays : list Date)
    : Z :=
  fst (businessDaysRun start end_ holidays).

Record DatasConfig := {
  dataInicial : string;
  dataFinal : string;
  feriados : list string;
  dataAtual : string
}.

(** [config.feriados.map(parseDate).filter(d => d !== null)] *)
Definition parseHolidays (fs : list string) : list Date :=
  flat_map (fun f => match parseDate f with
                     | Some d => [d]
                     | None => []
                     end) fs.

(** A string argument that may be left out; leaving it out and passing
    the empty string are both falsy. *)
Definition given (s : option string) : option string :=
  match s with
  | Some t => if String.eqb t "" then None else Some t
  | None => None
  end.

(** The period over which the daily average is taken. *)
Definition accumulationPeriod (startMonth current : Date)
    (filterStartDate filterEndDate : option string) : Date * Date :=
  match given filterStartDate, given filterEndDate with
  | Some fs, Some fe =>
      match parseInputDate fs, parseInputDate fe with
      | Some fStart, Some fEnd =>
          (fStart, if dateLt fEnd current then fEnd else current)
      | _, _ => (startMonth, current)
      end
  | _, _ => (startMonth, current)
  end.

Definition calculateProjection (currentSales : number)
    (config : DatasConfig) (filterStartDate filterEndDate : option string)
    : number :=
  match parseDate (dataInicial config), parseDate (dataFinal config),
        parseDate (dataAtual config) with
  | Some startMonth, Some endMonth, Some current =>
      let holidays := parseHolidays (feriados config) in
      let totalMonthBusinessDays :=
        calculateBusinessDays startMonth endMonth holidays in
      let '(periodStart, periodEnd) :=
        accumulationPeriod startMonth current
          filterStartDate filterEndDate in
      let passedBusinessDays :=
        calculateBusinessDays periodStart periodEnd holidays in
      if passedBusinessDays =? 0 then zero
      else
        let dailyAverage := div currentSales (ofZ passedBusinessDays) in
        mul dailyAverage (ofZ totalMonthBusinessDays)
  | _, _, _ => zero
  end.

End Helpers.

(** ** The data service: raw rows to shipment records *)

(** A parsed CSV row: its own keys in [Object.keys] order, each with its
    cell text. *)
Definition RawRow := list (string * string).

Record CteData := {
  cte : string;
  serie : string;
  data : string;
  dataBaixa : string;
  prazoParaBaixaDias : string;
  prazoBaixa : string;
  statusPrazo : string;
  coleta : string;
  entrega : string;
  numeroMdfe : string;
  statusMdfe : string;
  valorCte : number
}.

Section DataService.

(** [normalizeString]: canonical decomposition, combining marks removed,
    white space collapsed, trimmed, upper-cased.  The Unicode tables are not
    part of the repository; the function is taken as given. *)
Variable normalizeString : string -> string.

(** [row[key]] *)
Fixpoint rowGet (row : RawRow) (key : string) : option string :=
  match row with
  | [] => None
  | (k, v) :: rest => if String.eqb k key then Some v else rowGet rest key
  end.

Definition getKey (row : RawRow) (targetKey : string) : option string :=
  let keys := map fst row in
  let normalizedTarget := normalizeString targetKey in
  match find (fun k => String.eqb (normalizeString k) normalizedTarget) keys with
  | Some found => if String.eqb found "" then None else rowGet row found
  | None => None
  end.

(** The [getValue] helper of [fetchBaseData]: the explicit keys in order,
    then the column at [index], then the empty string. *)
Fixpoint getValueByKeys (row : RawRow) (keys : list string) : option string :=
  match keys with
  | [] => None
  | k :: rest =>
      match getKey row k with
      | Some val => if String.eqb val "" then getValueByKeys row rest
                    else Some val
      | None => getValueByKeys row rest
      end
  end.

Definition getValue (fields : list string) (row : RawRow)
    (keys : list string) (index : nat) : string :=
  match getValueByKeys row keys with
  | Some val => val
  | None =>
      match nth_error fields index with
      | Some f =>
          if String.eqb f "" then ""
          else match rowGet row f with
               | Some v => v
               | None => ""
               end
      | None => ""
      end
  end.

(** [s || '0'] *)
Definition orZeroText (s : string) : string :=
  if String.eqb s "" then "0" else s.

(** The body of [results.data.map] in [fetchBaseData]. *)
Definition toCteData (fields : list string) (row : RawRow) : CteData :=
  let getValue := getValue fields row in
  {| cte := getValue ["CTE"] 0%nat;
     serie := getValue ["SERIE"] 1%nat;
     data := getValue ["DATA EMISSAO"; "DATA_EMISSAO"; "DATA (dd/m/aaaa)";
                       "DATA (dd/mm/aaaa)"; "DATA"; "Data"; "data"] 2%nat;
     dataBaixa := getValue ["DATA_BAIXA"; "DATA BAIXA (dd/mm/aaaa)";
                            "DATA BAIXA"; "Data Baixa"; "data baixa"] 3%nat;
     prazoParaBaixaDias :=
       getValue ["PRAZO PARA BAIXA (DIAS)"; "PRAZO PARA BAIXA"] 4%nat;
     prazoBaixa := getValue ["PRAZO BAIXA"] 5%nat;
     statusPrazo := normalizeString (getValue ["STATUS PRAZO"] 6%nat);
     coleta := normalizeString (getValue ["COLETA"] 7%nat);
     entrega := normalizeString (getValue ["ENTREGA"] 8%nat);
     numeroMdfe := getValue ["NUMERO MDFE"] 9%nat;
     statusMdfe := normalizeString (getValue ["STATUS MDFE"] 10%nat);
     valorCte :=
       parseCurrency
         (TextInput
            (orZeroText (getValue ["VALOR_CTE"; "VALOR CTE"; "VALOR"] 11%nat)))
  |}.

Definition fetchBaseDataRows (fields : list string) (rows : list RawRow)
    : list CteData :=
  map (toCteData fields) rows.

End DataService.

(** ** The managerial table: per-unit statistics *)

Record MetaData := {
  agencia : string;
  meta : number
}.

Record UnitStat := {
  unit : string;
  vendasTotal : number;
  projected : number;
  metaVal : number;
  projectionPct : number;
  semMdfe : Z;
  semMdfePct : number;
  totalManifestos : Z;
  noPrazo : Z;
  noPrazoPct : number;
  foraPrazo : Z;
  foraPrazoPct : number;
  semBaixa : Z;
  semBaixaPct : number;
  totalBaixas : Z
}.

Section ManagerialTable.

Variable LocalTZA : Z.

(** [units.add(u)] on a [Set], kept in insertion order. *)
Definition setAdd (u : string) (units : list string) : list string :=
  if existsb (String.eqb u) units then units else units ++ [u].

(** The union of the pickup and delivery units, empty names left out. *)
Definition unitUniverse (data : list CteData) : list string :=
  fold_left
    (fun units d =>
       let units := if String.eqb (coleta d) "" then units
                    else setAdd (coleta d) units in
       if String.eqb (entrega d) "" then units
       else setAdd (entrega d) units)
    data [].

Definition vendasDocs (data : list CteData) (unit : string) : list CteData :=
  filter (fun d => String.eqb (coleta d) unit) data.

(** [docs.reduce((acc, curr) => acc + curr.valorCte, 0)] *)
Definition sumValorCte (docs : list CteData) : number :=
  fold_left (fun acc curr => add acc (valorCte curr)) docs zero.

Definition count (p : CteData -> bool) (docs : list CteData) : Z :=
  Z.of_nat (List.length (filter p docs)).

(** [total > 0 ? (n / total) * 100 : 0] on counts. *)
Definition pct (n total : Z) : number :=
  if 0 <? total then mul (div (ofZ n) (ofZ total)) (ofZ 100) else zero.

(** [x > 0] on numbers. *)
Definition isPositive (x : number) : bool :=
  match x with
  | S754_infinity false | S754_finite false _ _ => true
  | _ => false
  end.

Definition unitStat (data : list CteData) (meta : list MetaData)
    (datas : DatasConfig) (startDate endDate : option string)
    (unit : string) : UnitStat :=
  let vendasDocs := vendasDocs data unit in
  let vendasTotal := sumValorCte vendasDocs in
  let projected :=
    calculateProjection LocalTZA vendasTotal datas startDate endDate in
  let metaVal :=
    match find (fun m => String.eqb (agencia m) unit) meta with
    | Some {| meta := v |} => orElse v zero
    | None => zero
    end in
  let projectionPct :=
    if isPositive metaVal then mul (div projected metaVal) (ofZ 100)
    else zero in
  let totalManifestos := Z.of_nat (List.length vendasDocs) in
  let semMdfe :=
    count (fun d => String.eqb (statusMdfe d) "SEM MDFE") vendasDocs in
  let baixasDocs := filter (fun d => String.eqb (entrega d) unit) data in
  let totalBaixas := Z.of_nat (List.length baixasDocs) in
  let noPrazo :=
    count (fun d => String.eqb (statusPrazo d) "NO PRAZO") baixasDocs in
  let foraPrazo :=
    count (fun d => String.eqb (statusPrazo d) "FORA DO PRAZO") baixasDocs in
  let semBaixa :=
    count (fun d => String.eqb (statusPrazo d) "SEM BAIXA") baixasDocs in
  {| unit := unit;
     vendasTotal := vendasTotal;
     projected := projected;
     metaVal := metaVal;
     projectionPct := projectionPct;
     semMdfe := semMdfe;
     semMdfePct := pct semMdfe totalManifestos;
     totalManifestos := totalManifestos;
     noPrazo := noPrazo;
     noPrazoPct := pct noPrazo totalBaixas;
     foraPrazo := foraPrazo;
     foraPrazoPct := pct foraPrazo totalBaixas;
     semBaixa := semBaixa;
     semBaixaPct := pct semBaixa totalBaixas;
     totalBaixas := totalBaixas |}.

(** The [stats] array of [unitStats] as [units.forEach] fills it, one row per
    unit in the order of the unit universe; the closing [stats.sort] only
    reorders these rows. *)
Definition unitStats (data : list CteData) (meta : list MetaData)
    (datas : DatasConfig) (startDate endDate : option string)
    : list UnitStat :=
  map (unitStat data meta datas startDate endDate) (unitUniverse data).

End ManagerialTable.

(** ** The record-level table: filter and default order *)

Inductive TabView := NONE | VENDAS | BAIXAS | MANIFESTOS.

(** What a lookup [table[key] ?? fallback] on an object literal gives: the
    number stored under an own key, a member inherited from
    [Object.prototype], or the fallback. *)
Inductive Priority :=
| PNumber (n : Z)
| PInherited (name : string).

Definition objectPrototypeKeys : list string :=
  ["constructor"; "hasOwnProperty"; "isPrototypeOf"; "propertyIsEnumerable";
   "toLocaleString"; "toString"; "valueOf"; "__proto__";
   "__defineGetter__"; "__defineSetter__"; "__lookupGetter__";
   "__lookupSetter__"].

Definition isInherited (key : string) : bool :=
  existsb (String.eqb key) objectPrototypeKeys.

Fixpoint lookupOr (table : list (string * Z)) (fallback : Z) (key : string)
    : Priority :=
  match table with
  | (k, n) :: rest =>
      if String.eqb k key then PNumber n else lookupOr rest fallback key
  | [] => if isInherited key then PInherited key else PNumber fallback
  end.

(** Stable sorting under a comparator, as [Array.prototype.sort] does it: the
    comparator's number decides by its sign, and NaN ([None]) counts as 0. *)
Section ArraySort.

Variable A : Type.
Variable comparefn : A -> A -> option Z.

Definition sortCompare (a b : A) : Z :=
  match comparefn a b with
  | Some v => v
  | None => 0
  end.

Fixpoint sortInsert (x : A) (sorted : list A) : list A :=
  match sorted with
  | [] => [x]
  | y :: rest =>
      if sortCompare x y <=? 0 then x :: y :: rest
      else y :: sortInsert x rest
  end.

Fixpoint arraySort (l : list A) : list A :=
  match l with
  | [] => []
  | x :: rest => sortInsert x (arraySort rest)
  end.

End ArraySort.

Arguments sortCompare {A}.
Arguments sortInsert {A}.
Arguments arraySort {A}.

Section DetailTable.

Variable LocalTZA : Z.

(** [parseDate(r.data)?.getTime() || 0] *)
Definition emissionTime (r : CteData) : Z :=
  getTimeOrZero (parseDate LocalTZA (data r)).

Definition byEmission (a b : CteData) : option Z :=
  Some (emissionTime a - emissionTime b).

(** A comparator on a status priority, with the emission date as the
    tie-break.  Two priorities that are not both numbers subtract to NaN. *)
Definition byPriority (statusPriority : string -> Priority)
    (status : CteData -> string) (a b : CteData) : option Z :=
  match statusPriority (status a), statusPriority (status b) with
  | PNumber pa, PNumber pb =>
      if negb (pa =? pb) then Some (pa - pb) else byEmission a b
  | PInherited na, PInherited nb =>
      if negb (String.eqb na nb) then None else byEmission a b
  | _, _ => None
  end.

Definition prazoPriority : string -> Priority :=
  lookupOr [("SEM BAIXA", 0); ("FORA DO PRAZO", 1); ("NO PRAZO", 2)] 3.

Definition mdfePriority : string -> Priority :=
  lookupOr [("SEM MDFE", 0); ("COM MDFE", 1)] 2.

(** [processedData] while no column has been picked for a manual sort
    ([sortField] is null). *)
Definition processedData (data : list CteData) (type : TabView)
    (statusFilter : string) : list CteData :=
  let filtered :=
    match type with
    | BAIXAS =>
        if negb (String.eqb statusFilter "TODOS")
        then filter (fun d => String.eqb (statusPrazo d) statusFilter) data
        else data
    | MANIFESTOS =>
        if negb (String.eqb statusFilter "TODOS")
        then filter (fun d => String.eqb (statusMdfe d) statusFilter) data
        else data
    | _ => data
    end in
  match type with
  | VENDAS => arraySort byEmission filtered
  | BAIXAS => arraySort (byPriority prazoPriority statusPrazo) filtered
  | MANIFESTOS => arraySort (byPriority mdfePriority statusMdfe) filtered
  | NONE => filtered
  end.

End DetailTable.

(** ** The data service: users, targets and calendar *)

Record Usuario := {
  usuario : string;
  senha : string;
  unidade : string
}.

Section DataServiceSheets.

Variable normalizeString : string -> string.

(** [x || ''] on the result of a lookup. *)
Definition orEmpty (v : option string) : string :=
  match v with
  | Some t => t
  | None => ""
  end.

(** A lookup result that is truthy: defined and not the empty string. *)
Definition truthyText (v : option string) : bool :=
  match v with
  | Some t => negb (String.eqb t "")
  | None => false
  end.

(** The body of [data.map] in [fetchUsers]. *)
Definition toUsuario (row : RawRow) : Usuario :=
  {| usuario := trim (orEmpty (getKey normalizeString row "USUARIO"));
     senha := trim (orEmpty (getKey normalizeString row "SENHA"));
     unidade :=
       normalizeString (orEmpty (getKey normalizeString row "UNIDADE")) |}.

(** [fetchUsers] on the rows of the sheet: rows without a user name or
    without a password are left out. *)
Definition fetchUsersRows (data : list RawRow) : list Usuario :=
  filter (fun u => negb (String.eqb (usuario u) "") &&
                   negb (String.eqb (senha u) ""))
         (map toUsuario data).

(** [row[fields[i]]] when [fields[i]] is a non-empty name. *)
Definition columnAt (fields : list string) (row : RawRow) (i : nat)
    : option (option string) :=
  match nth_error fields i with
  | Some f => if String.eqb f "" then None else Some (rowGet row f)
  | None => None
  end.

(** The body of [results.data.map] in [fetchMeta]. *)
Definition toMetaData (fields : list string) (row : RawRow) : MetaData :=
  let agencia :=
    if truthyText (getKey normalizeString row "AGENCIA")
    then getKey normalizeString row "AGENCIA"
    else getKey normalizeString row "UNIDADE" in
  let agencia :=
    if negb (truthyText agencia) then
      match columnAt fields row 0 with
      | Some cell => cell
      | None => agencia
      end
    else agencia in
  let metaVal := getKey normalizeString row "META" in
  let metaVal :=
    if negb (truthyText metaVal) then
      match columnAt fields row 1 with
      | Some cell => cell
      | None => metaVal
      end
    else metaVal in
  {| agencia := normalizeString (orEmpty agencia);
     meta := parseCurrency (TextInput (orZeroText (orEmpty metaVal))) |}.

(** [fetchMeta] on the rows of the sheet: rows without a unit name are left
    out. *)
Definition fetchMetaRows (fields : list string) (rows : list RawRow)
    : list MetaData :=
  filter (fun m => negb (String.eqb (agencia m) ""))
         (map (toMetaData fields) rows).

(** The first truthy of three lookups, else the empty string. *)
Definition firstOf3 (a b c : option string) : string :=
  if truthyText a then orEmpty a
  else if truthyText b then orEmpty b
  else orEmpty c.

(** [fetchDatasConfig] on the rows of the sheet.  With no row the code
    builds a default calendar from the clock; it is taken as given. *)
Definition fetchDatasConfigRows (fallback : DatasConfig)
    (data : list RawRow) : DatasConfig :=
  match data with
  | [] => fallback
  | firstRow :: _ =>
      {| dataInicial := orEmpty (getKey normalizeString firstRow "DATA INICIAL");
         dataFinal := orEmpty (getKey normalizeString firstRow "DATA FINAL");
         feriados :=
           flat_map (fun row =>
                       let feriado := getKey normalizeString row "FERIADOS" in
                       if truthyText feriado then [orEmpty feriado] else [])
                    data;
         dataAtual :=
           firstOf3 (getKey normalizeString firstRow "DATA ONTEM")
                    (getKey normalizeString firstRow "DATA ATUAL")
                    (getKey normalizeString firstRow "DATAATUAL") |}
  end.

End DataServiceSheets.

(** ** The dashboard: date filter, latest emission, unit metrics *)

Record BaixasStats := {
  statsNoPrazo : Z;
  statsForaPrazo : Z;
  statsSemBaixa : Z;
  statsTotal : Z
}.

Record Metrics := {
  metricsVendasTotal : number;
  metricsProjectedTotal : number;
  metricsMetaValue : number;
  metricsBaixasData : list CteData;
  metricsManifestosData : list CteData;
  metricsVendasData : list CteData;
  metricsBaixasStats : BaixasStats;
  metricsManifestosCom : Z;
  metricsManifestosSem : Z;
  metricsManifestosTotal : Z
}.

Section Dashboard.

Variable LocalTZA : Z.

(** [d.setHours(23, 59, 59, 999)] *)
Definition setHoursEndOfDay (d : Date) : Date :=
  match d with
  | TimeValue tv =>
      TimeClip (UTC LocalTZA (Day (LocalTime LocalTZA tv) * msPerDay
                              + 86399999))
  | InvalidDate => InvalidDate
  end.

(** [filteredData]: the records emitted between the two filter dates, when
    both are set and parse. *)
Definition filteredData (base : list CteData) (startDate endDate : string)
    : list CteData :=
  if negb (String.eqb startDate "") && negb (String.eqb endDate "") then
    match parseInputDate LocalTZA startDate,
          parseInputDate LocalTZA endDate with
    | Some start, Some end_ =>
        let end_ := setHoursEndOfDay end_ in
        filter (fun d =>
                  match parseDate LocalTZA (data d) with
                  | None => false
                  | Some dDate => dateLe start dDate && dateLe dDate end_
                  end) base
    | _, _ => base
    end
  else base.

(** One step of the scan of [lastEmissionDate]: the state is the greatest
    time value met so far and the text it came from. *)
Definition lastEmissionStep (acc : Z * string) (d : CteData) : Z * string :=
  match parseDate LocalTZA (data d) with
  | Some (TimeValue ts) =>
      if fst acc <? ts then (ts, data d) else acc
  | _ => acc
  end.

(** [lastEmissionDate]: null without records, else the emission text of the
    latest record. *)
Definition lastEmissionDate (base : list CteData) : option string :=
  match base with
  | [] => None
  | _ => Some (snd (fold_left lastEmissionStep base (0, "")))
  end.

(** [metrics], for the unit in view; the empty unit is the global view. *)
Definition metrics (filtered : list CteData) (meta : list MetaData)
    (datas : DatasConfig) (startDate endDate : string)
    (selectedUnit : string) : Metrics :=
  let isGlobalContext := String.eqb selectedUnit "" in
  let vendasData :=
    filter (fun d => isGlobalContext || String.eqb (coleta d) selectedUnit)
           filtered in
  let vendasTotal := sumValorCte vendasData in
  let projectedTotal :=
    calculateProjection LocalTZA vendasTotal datas
      (Some startDate) (Some endDate) in
  let metaValue :=
    if isGlobalContext
    then fold_left (fun acc '{| meta := v |} => add acc v) meta zero
    else match find (fun m => String.eqb (agencia m) selectedUnit) meta with
         | Some {| meta := v |} => orElse v zero
         | None => zero
         end in
  let baixasData :=
    filter (fun d => isGlobalContext || String.eqb (entrega d) selectedUnit)
           filtered in
  let manifestosData :=
    filter (fun d => isGlobalContext || String.eqb (coleta d) selectedUnit)
           filtered in
  let manifestosCom :=
    count (fun d => String.eqb (statusMdfe d) "COM MDFE") manifestosData in
  let manifestosSem :=
    count (fun d => String.eqb (statusMdfe d) "SEM MDFE") manifestosData in
  {| metricsVendasTotal := vendasTotal;
     metricsProjectedTotal := projectedTotal;
     metricsMetaValue := metaValue;
     metricsBaixasData := baixasData;
     metricsManifestosData := manifestosData;
     metricsVendasData := vendasData;
     metricsBaixasStats :=
       {| statsNoPrazo :=
            count (fun d => String.eqb (statusPrazo d) "NO PRAZO") baixasData;
          statsForaPrazo :=
            count (fun d => String.eqb (statusPrazo d) "FORA DO PRAZO")
                  baixasData;
          statsSemBaixa :=
            count (fun d => String.eqb (statusPrazo d) "SEM BAIXA") baixasData;
          statsTotal := Z.of_nat (List.length baixasData) |};
     metricsManifestosCom := manifestosCom;
     metricsManifestosSem := manifestosSem;
     metricsManifestosTotal := manifestosCom + manifestosSem |}.

End Dashboard.

(** ** Vocabulary of the statements *)

(** Brasilia time, UTC-03:00, for the worked examples. *)
Definition BRT : Z := -10800000.

(** The calendar of the scenario: March 2024, as of 2 March, no holidays. *)
Definition march2024 : DatasConfig :=
  {| dataInicial := "01/03/2024";
     dataFinal := "31/03/2024";
     feriados := [];
     dataAtual := "02/03/2024" |}.

(** The projection from the two business-day counts. *)
Definition projectionOver (currentSales : number) (elapsed total : Z)
    : number :=
  if elapsed =? 0 then zero
  else mul (div currentSales (ofZ elapsed)) (ofZ total).

(** The local calendar day (days since 1 January 1970) of a time value. *)
Definition localDay (LocalTZA : Z) (tv : Z) : Z := Day (LocalTime LocalTZA tv).

(** Day of the week of a calendar day, 0 for Sunday to 6 for Saturday. *)
Definition weekdayOfDay (d : Z) : Z := (d + 4) mod 7.

Definition isWeekend (d : Z) : bool :=
  (weekdayOfDay d =? 0) || (weekdayOfDay d =? 6).

(** A date object holds a time value within the range of [TimeClip]. *)
Definition wfDate (d : Date) : Prop :=
  match d with
  | TimeValue t => Z.abs t <= maxTime
  | InvalidDate => True
  end.

(** The local midnight that opens day [d] is a time value a date can hold. *)
Definition representableDay (LocalTZA : Z) (d : Z) : Prop :=
  Z.abs (UTC LocalTZA (d * msPerDay)) <= maxTime.

(** The calendar days of the holidays that are dates. *)
Definition holidayDays (LocalTZA : Z) (holidays : list Date) : list Z :=
  flat_map (fun h => match h with
                     | TimeValue t => [localDay LocalTZA t]
                     | InvalidDate => []
                     end) holidays.

Definition isBusinessDay (LocalTZA : Z) (holidays : list Date) (d : Z)
    : bool :=
  negb (isWeekend d) && negb (existsb (Z.eqb d) (holidayDays LocalTZA holidays)).

(** The test of the loop body on the day [d], given the holiday strings. *)
Definition countedDay (holidayStrings : list DateString) (d : Z) : bool :=
  negb (isWeekend d) &&
  negb (existsb (DateString_eqb (DayString d)) holidayStrings).

(** The [n] calendar days from [first] on. *)
Fixpoint dayRange (first : Z) (n : nat) : list Z :=
  match n with
  | O => []
  | S n' => first :: dayRange (first + 1) n'
  end.

(** The text [parseCurrency] hands to [parseFloat], in either branch. *)
Definition currencyClean (val : string) : string :=
  let strVal := trim val in
  if includes "," strVal then
    removeAll notNumeric
      (replaceFirst "," "." (removeAll (fun c => Ascii.eqb c ".") strVal))
  else removeAll notNumeric strVal.

Fixpoint repeatChar (c : ascii) (n : nat) : string :=
  match n with
  | O => EmptyString
  | S n' => String c (repeatChar c n')
  end.

(** An amount of four hundred digits, beyond the largest binary64 number. *)
Definition hugeAmount : string := repeatChar "9" 400.

(** The JavaScript number written [1234.56]. *)
Definition js_1234_56 : number := Prim2SF 1234.56%float.

(** How often a character occurs in a text. *)
Fixpoint occurrences (c : ascii) (s : string) : nat :=
  match s with
  | EmptyString => O
  | String a rest =>
      if Ascii.eqb a c then S (occurrences c rest) else occurrences c rest
  end.

(** A text of exactly [n] decimal digits. *)
Fixpoint digitsOnly (s : string) : bool :=
  match s with
  | EmptyString => true
  | String a rest => isDigit a && digitsOnly rest
  end.

Definition isDigits (n : nat) (s : string) : bool :=
  (String.length s =? n)%nat && digitsOnly s.

Definition digitsValue (s : string) : Z := fst (fst (takeDigits 0 0 s)).

Definition daysInMonth (y m : Z) : Z :=
  match m with
  | 2 => if InLeapYear y then 29 else 28
  | 4 | 6 | 9 | 11 => 30
  | _ => 31
  end.

(** Day [d] of month [m] (1 to 12) of year [y] exists. *)
Definition isCalendarDay (y m d : Z) : bool :=
  (1 <=? m) && (m <=? 12) && (1 <=? d) && (d <=? daysInMonth y m).

(** A well-formed [dd/mm/yyyy] or [yyyy-mm-dd] rendering of a calendar
    day. *)
Definition isCalendarDateText (s : string) : bool :=
  match split "/" s, split "-" s with
  | [dd; mm; yyyy], _ | _, [yyyy; mm; dd] =>
      isDigits 2 dd && isDigits 2 mm && isDigits 4 yyyy &&
      isCalendarDay (digitsValue yyyy) (digitsValue mm) (digitsValue dd)
  | _, _ => false
  end.

(** [normalizeString] on ASCII text, where decomposition and the removal of
    combining marks change nothing: runs of white space become one space,
    the ends are trimmed, letters are upper-cased. *)
Definition asciiUpper (c : ascii) : ascii :=
  if (97 <=? code c) && (code c <=? 122)
  then ascii_of_N (Z.to_N (code c - 32)) else c.

Fixpoint collapseSpaces (inSpace : bool) (s : string) : string :=
  match s with
  | EmptyString => EmptyString
  | String a rest =>
      if isWhiteSpace a
      then if inSpace then collapseSpaces true rest
           else String " " (collapseSpaces true rest)
      else String a (collapseSpaces false rest)
  end.

Fixpoint mapString (f : ascii -> ascii) (s : string) : string :=
  match s with
  | EmptyString => EmptyString
  | String a rest => String (f a) (mapString f rest)
  end.

Definition asciiNormalize (s : string) : string :=
  mapString asciiUpper (trim (collapseSpaces false s)).

(** The columns of the shipment sheet, and a row whose value cell is a
    negative amount. *)
Definition baseFields : list string :=
  ["CTE"; "SERIE"; "DATA EMISSAO"; "DATA_BAIXA"; "PRAZO PARA BAIXA (DIAS)";
   "PRAZO BAIXA"; "STATUS PRAZO"; "COLETA"; "ENTREGA"; "NUMERO MDFE";
   "STATUS MDFE"; "VALOR_CTE"].

Definition creditNoteRow : RawRow :=
  [("CTE", "1001"); ("SERIE", "1"); ("DATA EMISSAO", "01/03/2024");
   ("DATA_BAIXA", ""); ("PRAZO PARA BAIXA (DIAS)", "5");
   ("PRAZO BAIXA", "06/03/2024"); ("STATUS PRAZO", "sem baixa");
   ("COLETA", "Sao Luis"); ("ENTREGA", "Imperatriz"); ("NUMERO MDFE", "");
   ("STATUS MDFE", "SEM MDFE"); ("VALOR_CTE", "-5,00")].

(** [l.reduce((acc, x) => acc + x, 0)] on numbers. *)
Definition sumNumbers (l : list number) : number := fold_left add l zero.

(** An exact sum, for integer amounts. *)
Definition sumZ (l : list Z) : Z := fold_right Z.add 0 l.

Definition hasPickup (d : CteData) : bool := negb (String.eqb (coleta d) "").

(** A shipment from [coleta] to [entrega] worth [valor]. *)
Definition shipment (coleta entrega : string) (valor : number) : CteData :=
  {| cte := ""; serie := ""; data := ""; dataBaixa := "";
     prazoParaBaixaDias := ""; prazoBaixa := ""; statusPrazo := "";
     coleta := coleta; entrega := entrega; numeroMdfe := "";
     statusMdfe := ""; valorCte := valor |}.

(** Four shipments picked up at two units, worth 0.10, 0.10, 0.70 and
    0.60. *)
Definition fourShipments : list CteData :=
  [shipment "ACAILANDIA" "BACABAL" (Prim2SF 0.1%float);
   shipment "ACAILANDIA" "BACABAL" (Prim2SF 0.1%float);
   shipment "BACABAL" "ACAILANDIA" (Prim2SF 0.7%float);
   shipment "BACABAL" "" (Prim2SF 0.6%float)].

(** The same number, bit for bit. *)
Definition number_eqb (a b : number) : bool :=
  match a, b with
  | S754_zero s, S754_zero s' => Bool.eqb s s'
  | S754_infinity s, S754_infinity s' => Bool.eqb s s'
  | S754_nan, S754_nan => true
  | S754_finite s m e, S754_finite s' m' e' =>
      Bool.eqb s s' && Pos.eqb m m' && (e =? e')
  | _, _ => false
  end.

(** Every order in which the elements of a list can be taken. *)
Fixpoint insertions {A : Type} (x : A) (l : list A) : list (list A) :=
  match l with
  | [] => [[x]]
  | y :: rest => (x :: l) :: map (cons y) (insertions x rest)
  end.

Fixpoint orders {A : Type} (l : list A) : list (list A) :=
  match l with
  | [] => [[]]
  | x :: rest => flat_map (insertions x) (orders rest)
  end.

(** The fixed priority of a deadline status: "SEM BAIXA" first, then "FORA
    DO PRAZO", then "NO PRAZO", then anything else. *)
Definition statusRank (s : string) : Z :=
  if String.eqb s "SEM BAIXA" then 0
  else if String.eqb s "FORA DO PRAZO" then 1
  else if String.eqb s "NO PRAZO" then 2
  else 3.

(** Ascending status priority, then ascending emission date. *)
Definition deadlineOrder (LocalTZA : Z) (a b : CteData) : Prop :=
  statusRank (statusPrazo a) < statusRank (statusPrazo b) \/
  (statusRank (statusPrazo a) = statusRank (statusPrazo b) /\
   emissionTime LocalTZA a <= emissionTime LocalTZA b).

(** The deadline comparator on the rank and the emission time. *)
Definition byRank (LocalTZA : Z) (a b : CteData) : option Z :=
  if negb (statusRank (statusPrazo a) =? statusRank (statusPrazo b))
  then Some (statusRank (statusPrazo a) - statusRank (statusPrazo b))
  else Some (emissionTime LocalTZA a - emissionTime LocalTZA b).

(** A record with the given deadline status and emission date. *)
Definition deadlineRecord (cte status emission : string) : CteData :=
  {| cte := cte; serie := "1"; data := emission; dataBaixa := "";
     prazoParaBaixaDias := ""; prazoBaixa := ""; statusPrazo := status;
     coleta := "BACABAL"; entrega := "CAXIAS"; numeroMdfe := "";
     statusMdfe := "SEM MDFE"; valorCte := zero |}.

Definition deadlineSample : list CteData :=
  [deadlineRecord "1" "NO PRAZO" "01/03/2024";
   deadlineRecord "2" "EXTRAVIADO" "01/03/2024";
   deadlineRecord "3" "FORA DO PRAZO" "01/03/2024";
   deadlineRecord "4" "SEM BAIXA" "05/03/2024";
   deadlineRecord "5" "SEM BAIXA" "01/03/2024"].

(** ** Vocabulary of the further properties *)

(** The year [new Date] takes a year number for: 0 to 99 mean 1900 to
    1999. *)
Definition fullYear (y : Z) : Z :=
  if (0 <=? y) && (y <=? 99) then 1900 + y else y.

(** The local midnight of the day that [MakeDay] gives for a year, a month
    (1 for January) and a day of the month as they are written. *)
Definition midnightOf (LocalTZA : Z) (y m d : Z) : Date :=
  TimeClip (UTC LocalTZA (MakeDay (fullYear y) (m - 1) d * msPerDay)).

(** The characters [parseCurrency] looks at: digits, dot, minus, comma. *)
Definition currencyChar (c : ascii) : bool :=
  isDigit c || Ascii.eqb c "." || Ascii.eqb c "-" || Ascii.eqb c ",".

(** A text with every other character taken out. *)
Definition currencyChars (s : string) : string :=
  removeAll (fun c => negb (currencyChar c)) s.

(** The integers from 0 to [n - 1]. *)
Definition upto (n : nat) : list Z := map Z.of_nat (seq 0 n).

(** The cleaned text of [parseCurrency] without the trimming step. *)
Definition cleanOf (s : string) : string :=
  if includes "," s then
    removeAll notNumeric
      (replaceFirst "," "." (removeAll (fun c => Ascii.eqb c ".") s))
  else removeAll notNumeric s.

(** The date at the local midnight that opens day [day]. *)
Definition midnight (LocalTZA : Z) (day : Z) : Date :=
  TimeValue (UTC LocalTZA (day * msPerDay)).

(** The days of [first .. last] that are business days. *)
Definition businessDaysIn (LocalTZA : Z) (holidays : list Date)
    (first last : Z) : Z :=
  Z.of_nat (List.length
    (filter (isBusinessDay LocalTZA holidays)
            (dayRange first (Z.to_nat (last - first + 1))))).

(** The record has a delivery unit. *)
Definition hasDelivery (d : CteData) : bool :=
  negb (String.eqb (entrega d) "").

(** Ascending emission date. *)
Definition emissionOrder (LocalTZA : Z) (a b : CteData) : Prop :=
  emissionTime LocalTZA a <= emissionTime LocalTZA b.

Definition mdfeRank (s : string) : Z :=
  if String.eqb s "SEM MDFE" then 0
  else if String.eqb s "COM MDFE" then 1
  else 2.

(** Ascending manifest priority, then ascending emission date. *)
Definition manifestOrder (LocalTZA : Z) (a b : CteData) : Prop :=
  mdfeRank (statusMdfe a) < mdfeRank (statusMdfe b) \/
  (mdfeRank (statusMdfe a) = mdfeRank (statusMdfe b) /\
   emissionTime LocalTZA a <= emissionTime LocalTZA b).

(** The manifest comparator on the rank and the emission time. *)
Definition byMdfeRank (LocalTZA : Z) (a b : CteData) : option Z :=
  if negb (mdfeRank (statusMdfe a) =? mdfeRank (statusMdfe b))
  then Some (mdfeRank (statusMdfe a) - mdfeRank (statusMdfe b))
  else Some (emissionTime LocalTZA a - emissionTime LocalTZA b).

(** A lower-case letter of ASCII; a text that holds one. *)
Definition isLower (c : ascii) : bool := (97 <=? code c) && (code c <=? 122).

Fixpoint hasLower (s : string) : bool :=
  match s with
  | EmptyString => false
  | String c rest => isLower c || hasLower rest
  end.

(** The record was emitted on a day from [first] to [last]. *)
Definition emittedWithin (LocalTZA : Z) (first last : Z) (d : CteData)
    : bool :=
  match parseDate LocalTZA (data d) with
  | Some (TimeValue t) =>
      (first <=? localDay LocalTZA t) && (localDay LocalTZA t <=? last)
  | _ => false
  end.

(** Three rows of the users sheet: the second has a blank password. *)
Definition userRows : list RawRow :=
  [[("USUARIO", " ana "); ("SENHA", "s3nha"); ("UNIDADE", "Sao Luis")];
   [("USUARIO", "rui"); ("SENHA", "   "); ("UNIDADE", "Bacabal")];
   [("Usuario", "gil"); ("Senha", " 42"); ("Unidade", "")]].

(** A calendar sheet whose first row lacks the first day of the period. *)
Definition calendarRows : list RawRow :=
  [[("DATA INICIAL", ""); ("DATA FINAL", "31/03/2024");
    ("DATA ONTEM", "02/03/2024"); ("FERIADOS", "29/03/2024")]].

(** ** The dashboard: the date inputs *)

(** YearFromTime on the day number: the year whose first day is the last
    one not after the day.  The year is estimated from the mean length of a
    year and corrected by one. *)
Definition YearFromDay (day : Z) : Z :=
  let y := 1970 + (400 * day) / 146097 in
  if day <? DayFromYear y then y - 1
  else if DayFromYear (y + 1) <=? day then y + 1
  else y.

Definition DayWithinYear (day : Z) : Z := day - DayFromYear (YearFromDay day).

(** MonthFromTime on the day number (0 = January). *)
Definition MonthFromDay (day : Z) : Z :=
  let d := DayWithinYear day in
  let l := if InLeapYear (YearFromDay day) then 1 else 0 in
  if d <? 31 then 0
  else if d <? 59 + l then 1
  else if d <? 90 + l then 2
  else if d <? 120 + l then 3
  else if d <? 151 + l then 4
  else if d <? 181 + l then 5
  else if d <? 212 + l then 6
  else if d <? 243 + l then 7
  else if d <? 273 + l then 8
  else if d <? 304 + l then 9
  else if d <? 334 + l then 10
  else 11.

(** DateFromTime on the day number. *)
Definition DateFromDay (day : Z) : Z :=
  DayWithinYear day
  - daysBeforeMonth (InLeapYear (YearFromDay day)) (MonthFromDay day) + 1.

(** The decimal digits of a natural number, most significant first, put
    before [tail]. *)
Fixpoint decimalDigits (fuel : nat) (n : Z) (tail : string) : string :=
  match fuel with
  | O => tail
  | S fuel' =>
      let tail' := String (ascii_of_N (Z.to_N (48 + n mod 10))) tail in
      if n <? 10 then tail' else decimalDigits fuel' (n / 10) tail'
  end.

(** [String(x)] on a number that is an integer or NaN ([None]). *)
Definition numberToString (x : option Z) : string :=
  match x with
  | None => "NaN"
  | Some n =>
      if n <? 0
      then String "-" (decimalDigits (S (Z.to_nat (Z.log2 (- n)))) (- n) "")
      else decimalDigits (S (Z.to_nat (Z.log2 n))) n ""
  end.

(** [s.padStart(n, c)] with a one-character filler. *)
Definition padStart (n : nat) (c : ascii) (s : string) : string :=
  repeatChar c (n - String.length s) ++ s.

Section DateInputs.

Variable LocalTZA : Z.

(** [getFullYear()], [getMonth()] and [getDate()]: NaN on the invalid
    date. *)
Definition getFullYear (d : Date) : option Z :=
  match d with
  | TimeValue t => Some (YearFromDay (Day (LocalTime LocalTZA t)))
  | InvalidDate => None
  end.

Definition getMonth (d : Date) : option Z :=
  match d with
  | TimeValue t => Some (MonthFromDay (Day (LocalTime LocalTZA t)))
  | InvalidDate => None
  end.

Definition getDate (d : Date) : option Z :=
  match d with
  | TimeValue t => Some (DateFromDay (Day (LocalTime LocalTZA t)))
  | InvalidDate => None
  end.

(** [formatDateForInput]: a date of the calendar sheet as the date inputs
    take it. *)
Definition formatDateForInput (dateStr : string) : string :=
  match parseDate LocalTZA dateStr with
  | None => ""
  | Some dateObj =>
      let year := getFullYear dateObj in
      let month :=
        padStart 2 "0"
          (numberToString (option_map (fun m => m + 1) (getMonth dateObj))) in
      let day := padStart 2 "0" (numberToString (getDate dateObj)) in
      numberToString year ++ "-" ++ month ++ "-" ++ day
  end.

End DateInputs.

(** ** The dashboard: the units of the search box *)

(** The default comparison of [Array.prototype.sort]: texts compare by
    their code units, a prefix before the longer text. *)
Definition defaultCompare (a b : string) : option Z :=
  Some (match String.compare a b with
        | Lt => -1
        | Eq => 0
        | Gt => 1
        end).

(** [allUnits]: the units of the records, sorted, for the search box. *)
Definition allUnits (base : list CteData) : list string :=
  arraySort defaultCompare (unitUniverse base).

(** The sign bit of a number is clear: [+0], a positive number, [+Infinity]
    (or NaN, which has none). *)
Definition signClear (x : number) : bool :=
  match x with
  | S754_zero s | S754_infinity s | S754_finite s _ _ => negb s
  | S754_nan => true
  end.

(** ** Local time in a zone whose offset changes *)

(** The definitions above take local time as UTC plus one constant.  Here
    the date operations, [parseDate] and [calculateBusinessDays] are given
    again, word for word, for a zone whose offset changes once, as at the
    start or at the end of daylight-saving time.  With the same offset
    before and after the change they are the definitions above. *)
Module Zoned.

(** The offsets before and after the change, and the instant (UTC) of the
    change. *)
Record Zone := {
  offsetBefore : Z;
  offsetAfter : Z;
  transition : Z
}.

(** LocalTZA(t, isUTC): the offset at the instant [t], or the offset by
    which the local time [t] is read.  A local time that the change skips,
    or that occurs twice, is read with the offset before the change. *)
Definition LocalTZA (zone : Zone) (t : Z) (isUTC : bool) : Z :=
  if isUTC then
    if t <? transition zone then offsetBefore zone else offsetAfter zone
  else
    if t <? transition zone + Z.max (offsetBefore zone) (offsetAfter zone)
    then offsetBefore zone else offsetAfter zone.

Section LocalTime.

Variable zone : Zone.

Definition LocalTime (t : Z) : Z := t + LocalTZA zone t true.
Definition UTC (t : Z) : Z := t - LocalTZA zone t false.

(** [new Date(year, month, date)] *)
Definition newDate (year month date : number) : Date :=
  match toInteger year, toInteger month, toInteger date with
  | Some y, Some m, Some dt =>
      let yr := if (0 <=? y) && (y <=? 99) then 1900 + y else y in
      TimeClip (UTC (MakeDay yr m dt * msPerDay))
  | _, _, _ => InvalidDate
  end.

(** [d.setHours(0,0,0,0)] *)
Definition setHoursZero (d : Date) : Date :=
  match d with
  | TimeValue tv => TimeClip (UTC (Day (LocalTime tv) * msPerDay))
  | InvalidDate => InvalidDate
  end.

(** [d.getDay()] *)
Definition getDay (d : Date) : option Z :=
  match d with
  | TimeValue tv => Some (WeekDay (LocalTime tv))
  | InvalidDate => None
  end.

Definition toDateString (d : Date) : DateString :=
  match d with
  | TimeValue tv => DayString (Day (LocalTime tv))
  | InvalidDate => InvalidDateString
  end.

(** [d.setDate(d.getDate() + 1)]: the local time of day of [d] on the next
    calendar day, read back in the zone. *)
Definition setDateNext (d : Date) : Date :=
  match d with
  | TimeValue tv =>
      let t := LocalTime tv in
      TimeClip (UTC ((Day t + 1) * msPerDay + TimeWithinDay t))
  | InvalidDate => InvalidDate
  end.

Definition parseDate (dateStr : string) : option Date :=
  if String.eqb dateStr "" then None
  else
    let bySlash := split "/" dateStr in
    if includes "/" dateStr && (List.length bySlash =? 3)%nat then
      Some (newDate
              (parseInt (nth_part bySlash 2))
              (sub (parseInt (nth_part bySlash 1)) (ofZ 1))
              (parseInt (nth_part bySlash 0)))
    else
      let byDash := split "-" dateStr in
      if includes "-" dateStr && (List.length byDash =? 3)%nat then
        Some (newDate
                (parseInt (nth_part byDash 0))
                (sub (parseInt (nth_part byDash 1)) (ofZ 1))
                (parseInt (nth_part byDash 2)))
      else None.

Fixpoint businessDaysLoop (fuel : nat) (endDate : Date)
    (holidayStrings : list DateString) (curDate : Date) (count : Z)
    : Z * Date :=
  match fuel with
  | O => (count, curDate)
  | S fuel' =>
      if dateLe curDate endDate then
        let dayOfWeek := getDay curDate in
        let weekday :=
          match dayOfWeek with
          | Some n => negb (n =? 0) && negb (n =? 6)
          | None => true
          end in
        let count' :=
          if weekday then
            if negb (existsb (DateString_eqb (toDateString curDate))
                             holidayStrings)
            then count + 1 else count
          else count in
        businessDaysLoop fuel' endDate holidayStrings
          (setDateNext curDate) count'
      else (count, curDate)
  end.

Definition businessDaysRun (start end_ : Date) (holidays : list Date)
    : Z * Date :=
  let curDate := setHoursZero (copyDate start) in
  let endDate := setHoursZero (copyDate end_) in
  let holidayStrings :=
    map (fun h => toDateString (setHoursZero (copyDate h))) holidays in
  businessDaysLoop (loopFuel curDate endDate) endDate holidayStrings
    curDate 0.

Definition calculateBusinessDays (start end_ : Date) (holidays : list Date)
    : Z :=
  fst (businessDaysRun start end_ holidays).

End LocalTime.

End Zoned.

(** A zone of constant offset. *)
Definition fixedZone (offset : Z) : Zoned.Zone :=
  {| Zoned.offsetBefore := offset; Zoned.offsetAfter := offset;
     Zoned.transition := 0 |}.

(** America/Sao_Paulo around 4 November 2018, when at local midnight
    (03:00 UTC) the clocks went from UTC-3 to UTC-2. *)
Definition saoPaulo2018 : Zoned.Zone :=
  {| Zoned.offsetBefore := -10800000; Zoned.offsetAfter := -7200000;
     Zoned.transition := 1541300400000 |}.

(** The mantissa of an integer below 2^53, scaled to 53 digits. *)
Definition fullMantissa (p : positive) : positive :=
  match (53 - Zpos (digits2_pos p))%Z with
  | Zpos j => Pos.iter xO p j
  | _ => p
  end.

(** Three shipments worth whole amounts, 100, 250 and 300, picked up at two
    units, and one without a pickup unit. *)
Definition wholeShipments : list CteData :=
  [shipment "ACAILANDIA" "BACABAL" (ofZ 100);
   shipment "BACABAL" "ACAILANDIA" (ofZ 250);
   shipment "" "BACABAL" (ofZ 7);
   shipment "ACAILANDIA" "" (ofZ 300)].

(** The whole amount of a record, when its value is a whole number. *)
Definition wholeAmount (d : CteData) : Z :=
  match toInteger (valorCte d) with
  | Some z => z
  | None => 0
  end.

(** * Properties *)

(** ** The scalar parsers *)

Lemma split_length (sep : ascii) (s : string) :
  List.length (split sep s) = S (occurrences sep s).
Proof.
  induction s as [|a rest IH]; [reflexivity|].
  cbn [split occurrences].
  destruct (Ascii.eqb a sep).
  - cbn [List.length]; rewrite IH; reflexivity.
  - destruct (split sep rest) as [|p ps]; [discriminate IH | exact IH].
Qed.

Lemma includes_occurrences (c : ascii) (s : string) :
  includes c s = negb (occurrences c s =? 0)%nat.
Proof.
  induction s as [|a rest IH]; [reflexivity|].
  cbn [includes occurrences].
  destruct (Ascii.eqb a c); [reflexivity | exact IH].
Qed.

Lemma three_parts_iff (c : ascii) (s : string) :
  includes c s && (List.length (split c s) =? 3)%nat = true <->
  occurrences c s = 2%nat.
Proof.
  rewrite split_length, includes_occurrences, andb_true_iff, negb_true_iff,
    Nat.eqb_neq, Nat.eqb_eq.
  lia.
Qed.

Lemma includes_app (c : ascii) (a b : string) :
  includes c (a ++ b) = includes c a || includes c b.
Proof.
  induction a as [|x a IH]; [reflexivity|].
  cbn [append includes]; rewrite IH, orb_assoc; reflexivity.
Qed.

Lemma split_without_separator (sep : ascii) (a : string) :
  includes sep a = false -> split sep a = [a].
Proof.
  induction a as [|x a IH]; [reflexivity|].
  cbn [includes split]; intros H; apply orb_false_iff in H as [Hx Ha].
  rewrite Hx, (IH Ha); reflexivity.
Qed.

Lemma split_at_separator (sep : ascii) (a rest : string) :
  includes sep a = false ->
  split sep (a ++ String sep rest) = a :: split sep rest.
Proof.
  induction a as [|x a IH]; cbn [append includes split].
  - intros _; rewrite Ascii.eqb_refl; reflexivity.
  - intros H; apply orb_false_iff in H as [Hx Ha].
    rewrite Hx, (IH Ha); reflexivity.
Qed.

(** A run of digits holds no character that is not a digit. *)
Lemma digitsOnly_excludes (c : ascii) (s : string) :
  isDigit c = false -> digitsOnly s = true -> includes c s = false.
Proof.
  intros Hc; induction s as [|x s IH]; [reflexivity|].
  cbn [digitsOnly includes]; intros H; apply andb_true_iff in H as [Hx Hs].
  rewrite (IH Hs), orb_false_r.
  destruct (Ascii.eqb_spec x c) as [->|]; [congruence | reflexivity].
Qed.

Lemma isDigits_digitsOnly (n : nat) (s : string) :
  isDigits n s = true -> digitsOnly s = true.
Proof. unfold isDigits; intros H; apply andb_true_iff in H; tauto. Qed.

Lemma includes_nonempty (c : ascii) (s : string) :
  includes c s = true -> String.eqb s "" = false.
Proof. destruct s; [discriminate | reflexivity]. Qed.

Lemma parseCurrency_text (val : string) :
  parseCurrency (TextInput val) =
    if String.eqb val "" then zero
    else orElse (parseFloat (currencyClean val)) zero.
Proof.
  unfold parseCurrency, currencyClean.
  destruct (String.eqb val ""); [reflexivity|].
  destruct (includes "," (trim val)); reflexivity.
Qed.

Lemma orElse_zero_not_NaN (x : number) : isNaN (orElse x zero) = false.
Proof. destruct x; reflexivity. Qed.

(** The result of [parseCurrency] on a text is never NaN. *)
Lemma parseCurrency_not_NaN (val : string) :
  isNaN (parseCurrency (TextInput val)) = false.
Proof.
  rewrite parseCurrency_text.
  destruct (String.eqb val ""); [reflexivity | apply orElse_zero_not_NaN].
Qed.

(** C5 (as the code has it).  Text with a decimal comma is read with the
    dot as thousands separator, so "1.234,56" is 1234.56; plain dot-decimal
    text is read directly, so "1234.56" is 1234.56; a text whose cleaned
    form [parseFloat] cannot read (NaN) gives 0; the function is total and
    its result is never NaN; and a cleaned text that overflows gives the
    infinity [parseFloat] returns, not 0. *)
Theorem parseCurrency_conventions :
  parseCurrency (TextInput "1.234,56") = js_1234_56 /\
  parseCurrency (TextInput "1234.56") = js_1234_56 /\
  (forall val : string,
      isNaN (parseFloat (currencyClean val)) = true ->
      parseCurrency (TextInput val) = zero) /\
  (forall val : string, isNaN (parseCurrency (TextInput val)) = false) /\
  (forall val : string,
      val <> "" ->
      isNaN (parseFloat (currencyClean val)) = false ->
      isFinite (parseFloat (currencyClean val)) = false ->
      parseCurrency (TextInput val) = parseFloat (currencyClean val)).
Proof.
  split; [vm_compute; reflexivity|].
  split; [vm_compute; reflexivity|].
  split; [|split].
  - intros val H; rewrite parseCurrency_text.
    destruct (String.eqb val ""); [reflexivity|].
    destruct (parseFloat (currencyClean val)); try discriminate H.
    reflexivity.
  - exact parseCurrency_not_NaN.
  - intros val Hne Hnan Hfin; rewrite parseCurrency_text.
    apply String.eqb_neq in Hne; rewrite Hne.
    destruct (parseFloat (currencyClean val)); try discriminate; reflexivity.
Qed.

Section ParserProperties.

Variable LocalTZA : Z.

(** The three cases of [parseDate], by the number of separators. *)
Lemma parseDate_cases (s : string) :
  (occurrences "/" s = 2%nat ->
   parseDate LocalTZA s =
     Some (newDate LocalTZA
             (parseInt (nth_part (split "/" s) 2))
             (sub (parseInt (nth_part (split "/" s) 1)) (ofZ 1))
             (parseInt (nth_part (split "/" s) 0)))) /\
  (occurrences "/" s <> 2%nat -> occurrences "-" s = 2%nat ->
   parseDate LocalTZA s =
     Some (newDate LocalTZA
             (parseInt (nth_part (split "-" s) 0))
             (sub (parseInt (nth_part (split "-" s) 1)) (ofZ 1))
             (parseInt (nth_part (split "-" s) 2)))) /\
  (occurrences "/" s <> 2%nat -> occurrences "-" s <> 2%nat ->
   parseDate LocalTZA s = None).
Proof.
  pose proof (three_parts_iff "/" s) as Hslash.
  pose proof (three_parts_iff "-" s) as Hdash.
  unfold parseDate.
  destruct (String.eqb_spec s "") as [->|Hne].
  - repeat split; intros; try reflexivity; discriminate.
  - destruct (includes "/" s && (List.length (split "/" s) =? 3)%nat).
    + repeat split; intros; try reflexivity.
      * exfalso; apply H, Hslash; reflexivity.
      * exfalso; apply H, Hslash; reflexivity.
    + destruct (includes "-" s && (List.length (split "-" s) =? 3)%nat).
      * repeat split; intros; try reflexivity.
        -- apply Hslash in H; discriminate.
        -- exfalso; apply H0, Hdash; reflexivity.
      * repeat split; intros; try reflexivity.
        -- apply Hslash in H; discriminate.
        -- apply Hdash in H0; discriminate.
Qed.

(** C6 (as the code has it).  [parseDate] answers null exactly for the empty
    text and for a text that holds neither exactly two slashes nor exactly
    two dashes; every other text gives a date object built from [parseInt]
    of its three parts, whatever they are: day, month, year between
    slashes, else year, month, day between dashes. *)
Theorem parseDate_null_iff :
  forall s : string,
    (parseDate LocalTZA s = None <->
     s = "" \/ (occurrences "/" s <> 2%nat /\ occurrences "-" s <> 2%nat)) /\
    (occurrences "/" s = 2%nat ->
     parseDate LocalTZA s =
       Some (newDate LocalTZA
               (parseInt (nth_part (split "/" s) 2))
               (sub (parseInt (nth_part (split "/" s) 1)) (ofZ 1))
               (parseInt (nth_part (split "/" s) 0)))) /\
    (occurrences "/" s <> 2%nat -> occurrences "-" s = 2%nat ->
     parseDate LocalTZA s =
       Some (newDate LocalTZA
               (parseInt (nth_part (split "-" s) 0))
               (sub (parseInt (nth_part (split "-" s) 1)) (ofZ 1))
               (parseInt (nth_part (split "-" s) 2)))).
Proof.
  intros s.
  destruct (parseDate_cases s) as [Hslash [Hdash Hnone]].
  split; [|split; assumption].
  split.
  - intros Hnull.
    destruct (String.eqb_spec s "") as [->|Hne]; [left; reflexivity|].
    right; split; intros H.
    + rewrite (Hslash H) in Hnull; discriminate.
    + destruct (Nat.eq_dec (occurrences "/" s) 2) as [H2|H2].
      * rewrite (Hslash H2) in Hnull; discriminate.
      * rewrite (Hdash H2 H) in Hnull; discriminate.
  - intros [->|[H H']]; [reflexivity | exact (Hnone H H')].
Qed.

(** The slash form and the dash form, on parts that hold no separator. *)
Lemma parseDate_dmy (dd mm yyyy : string) :
  includes "/" dd = false -> includes "/" mm = false ->
  includes "/" yyyy = false ->
  parseDate LocalTZA (dd ++ "/" ++ mm ++ "/" ++ yyyy) =
    Some (newDate LocalTZA (parseInt yyyy)
            (sub (parseInt mm) (ofZ 1)) (parseInt dd)).
Proof.
  intros Hd Hm Hy; unfold parseDate.
  assert (Hin : includes "/" (dd ++ "/" ++ mm ++ "/" ++ yyyy) = true).
  { rewrite includes_app; cbn [append includes Ascii.eqb Bool.eqb orb].
    apply orb_true_r. }
  rewrite (includes_nonempty _ _ Hin), Hin.
  cbn [append].
  rewrite (split_at_separator "/" dd _ Hd).
  rewrite (split_at_separator "/" mm _ Hm).
  rewrite (split_without_separator "/" yyyy Hy).
  reflexivity.
Qed.

Lemma parseDate_ymd (dd mm yyyy : string) :
  includes "/" dd = false -> includes "/" mm = false ->
  includes "/" yyyy = false ->
  includes "-" dd = false -> includes "-" mm = false ->
  includes "-" yyyy = false ->
  parseDate LocalTZA (yyyy ++ "-" ++ mm ++ "-" ++ dd) =
    Some (newDate LocalTZA (parseInt yyyy)
            (sub (parseInt mm) (ofZ 1)) (parseInt dd)).
Proof.
  intros Hd Hm Hy Hd' Hm' Hy'; unfold parseDate.
  assert (Hin : includes "-" (yyyy ++ "-" ++ mm ++ "-" ++ dd) = true).
  { rewrite includes_app; cbn [append includes Ascii.eqb Bool.eqb orb].
    apply orb_true_r. }
  assert (Hout : includes "/" (yyyy ++ "-" ++ mm ++ "-" ++ dd) = false).
  { rewrite includes_app; cbn [append includes].
    rewrite includes_app; cbn [append includes].
    rewrite Hy, Hm, Hd; reflexivity. }
  rewrite (includes_nonempty _ _ Hin), Hin, Hout.
  cbn [append andb].
  rewrite (split_at_separator "-" yyyy _ Hy').
  rewrite (split_at_separator "-" mm _ Hm').
  rewrite (split_without_separator "-" dd Hd').
  reflexivity.
Qed.

(** [new Date] on three numbers that are integers. *)
Lemma newDate_integers (year month date : number) (y m d : Z) :
  toInteger year = Some y -> toInteger month = Some m ->
  toInteger date = Some d ->
  newDate LocalTZA year month date =
    TimeClip (UTC LocalTZA
                (MakeDay (if (0 <=? y) && (y <=? 99) then 1900 + y else y)
                         m d * msPerDay)).
Proof. intros Hy Hm Hd; unfold newDate; rewrite Hy, Hm, Hd; reflexivity. Qed.

(** C8.  A calendar day written [dd/mm/yyyy] and the same day written
    [yyyy-mm-dd] parse to equal results: the date built from the same year,
    month and day numbers. *)
Theorem parseDate_conventions_agree :
  forall dd mm yyyy : string,
    isDigits 2 dd = true -> isDigits 2 mm = true -> isDigits 4 yyyy = true ->
    parseDate LocalTZA (dd ++ "/" ++ mm ++ "/" ++ yyyy) =
      parseDate LocalTZA (yyyy ++ "-" ++ mm ++ "-" ++ dd) /\
    parseDate LocalTZA (dd ++ "/" ++ mm ++ "/" ++ yyyy) =
      Some (newDate LocalTZA (parseInt yyyy)
              (sub (parseInt mm) (ofZ 1)) (parseInt dd)).
Proof.
  intros dd mm yyyy Hd Hm Hy.
  apply isDigits_digitsOnly in Hd, Hm, Hy.
  pose proof (fun s => digitsOnly_excludes "/" s eq_refl) as Hslash.
  pose proof (fun s => digitsOnly_excludes "-" s eq_refl) as Hdash.
  rewrite parseDate_dmy, parseDate_ymd; auto.
Qed.

End ParserProperties.

Lemma parseDate_null_iff_witness :
  parseDate BRT "2024-03" = None /\
  parseDate BRT "31/02/2024" =
    Some (newDate BRT (parseInt "2024") (sub (parseInt "02") (ofZ 1))
            (parseInt "31")).
Proof.
  split.
  - apply (proj1 (parseDate_null_iff BRT "2024-03")).
    right; split; vm_compute; discriminate.
  - apply (proj1 (proj2 (parseDate_null_iff BRT "31/02/2024"))).
    reflexivity.
Defined.

Lemma parseDate_malformed_counterexample :
  isCalendarDateText "31/02/2024" = false /\
  parseDate BRT "31/02/2024" = Some (TimeValue 1709348400000) /\
  parseDate BRT "02/03/2024" = Some (TimeValue 1709348400000) /\
  isCalendarDateText "hoje/amanha/depois" = false /\
  parseDate BRT "hoje/amanha/depois" = Some InvalidDate /\
  parseDate BRT "31/02/2024" <> None.
Proof.
  repeat split; try (vm_compute; reflexivity).
  vm_compute; discriminate.
Qed.

Lemma parseCurrency_overflow_counterexample :
  isFinite (parseFloat (currencyClean hugeAmount)) = false /\
  parseCurrency (TextInput hugeAmount) = Infinity /\
  parseCurrency (TextInput hugeAmount) <> zero.
Proof.
  split; [vm_compute; reflexivity|].
  split; [vm_compute; reflexivity|].
  vm_compute; discriminate.
Qed.

Lemma parseCurrency_conventions_witness :
  parseCurrency (TextInput "R$ --") = zero /\
  parseCurrency (TextInput hugeAmount) = parseFloat (currencyClean hugeAmount).
Proof.
  destruct parseCurrency_conventions as [_ [_ [Hnan [_ Hinf]]]].
  split.
  - apply Hnan; vm_compute; reflexivity.
  - apply Hinf; [discriminate | vm_compute; reflexivity
                | vm_compute; reflexivity].
Defined.

Lemma parseDate_conventions_agree_witness :
  parseDate BRT "01/03/2024" = parseDate BRT "2024-03-01" /\
  parseDate BRT "01/03/2024" = Some (TimeValue 1709262000000).
Proof.
  destruct (parseDate_conventions_agree BRT "01" "03" "2024"
              eq_refl eq_refl eq_refl) as [Hagree Hdate].
  split; [exact Hagree|].
  etransitivity; [exact Hdate | vm_compute; reflexivity].
Defined.

(** ** The business-day calculator *)

Section BusinessDayProperties.

Variable LocalTZA : Z.

Lemma midnight_local (d : Z) :
  LocalTime LocalTZA (UTC LocalTZA (d * msPerDay)) = d * msPerDay.
Proof. unfold LocalTime, UTC; lia. Qed.

Lemma Day_midnight (d : Z) : Day (d * msPerDay) = d.
Proof. unfold Day; apply Z.div_mul; discriminate. Qed.

Lemma TimeWithinDay_midnight (d : Z) : TimeWithinDay (d * msPerDay) = 0.
Proof. unfold TimeWithinDay; apply Z.mod_mul; discriminate. Qed.

Lemma TimeClip_in_range (t : Z) :
  Z.abs t <= maxTime -> TimeClip t = TimeValue t.
Proof.
  intros H; unfold TimeClip.
  destruct (Z.leb_spec (Z.abs t) maxTime); [reflexivity | lia].
Qed.

Lemma TimeClip_out_of_range (t : Z) :
  ~ Z.abs t <= maxTime -> TimeClip t = InvalidDate.
Proof.
  intros H; unfold TimeClip.
  destruct (Z.leb_spec (Z.abs t) maxTime); [contradiction | reflexivity].
Qed.

(** Days between two representable days are representable. *)
Lemma representableDay_between (a b d : Z) :
  representableDay LocalTZA a -> representableDay LocalTZA b ->
  a <= d <= b -> representableDay LocalTZA d.
Proof.
  unfold representableDay, UTC, msPerDay, maxTime; intros; lia.
Qed.

Lemma setHoursZero_wf (t : Z) :
  Z.abs t <= maxTime ->
  representableDay LocalTZA (localDay LocalTZA t) ->
  setHoursZero LocalTZA (copyDate (TimeValue t)) =
    TimeValue (UTC LocalTZA (localDay LocalTZA t * msPerDay)).
Proof.
  intros Ht Hr; cbn [copyDate].
  rewrite (TimeClip_in_range t Ht); cbn [setHoursZero].
  apply TimeClip_in_range, Hr.
Qed.

(** What the normalised holiday strings say about a representable day. *)
Lemma holidayStrings_spec (holidays : list Date) (c : Z) :
  Forall wfDate holidays ->
  representableDay LocalTZA c ->
  existsb (DateString_eqb (DayString c))
    (map (fun h => toDateString LocalTZA (setHoursZero LocalTZA (copyDate h)))
         holidays) =
  existsb (Z.eqb c) (holidayDays LocalTZA holidays).
Proof.
  intros Hwf Hc; induction Hwf as [|h hs Hh Hhs IH]; [reflexivity|].
  cbn [map existsb holidayDays flat_map]; fold (holidayDays LocalTZA hs).
  destruct h as [|t]; cbn [app].
  - rewrite IH; reflexivity.
  - cbn [wfDate] in Hh; cbn [copyDate existsb app].
    rewrite (TimeClip_in_range t Hh), IH; cbn [setHoursZero].
    f_equal.
    fold (localDay LocalTZA t); set (dh := localDay LocalTZA t).
    destruct (Z_le_dec (Z.abs (UTC LocalTZA (dh * msPerDay))) maxTime)
      as [Hin|Hout].
    + rewrite (TimeClip_in_range _ Hin); cbn [toDateString].
      rewrite midnight_local, Day_midnight; reflexivity.
    + rewrite (TimeClip_out_of_range _ Hout); cbn [toDateString DateString_eqb].
      symmetry; apply Z.eqb_neq; intros ->; exact (Hout Hc).
Qed.

(** Once the condition is false the loop returns at once. *)
Lemma businessDaysLoop_done (fuel : nat) (endDate cur : Date)
    (hs : list DateString) (count : Z) :
  dateLe cur endDate = false ->
  businessDaysLoop LocalTZA fuel endDate hs cur count = (count, cur).
Proof.
  intros H; destruct fuel; cbn [businessDaysLoop]; [|rewrite H]; reflexivity.
Qed.

Lemma getDay_midnight (c : Z) :
  getDay LocalTZA (TimeValue (UTC LocalTZA (c * msPerDay))) =
    Some (weekdayOfDay c).
Proof.
  cbn [getDay]; unfold WeekDay.
  rewrite midnight_local, Day_midnight; reflexivity.
Qed.

(** The loop from the midnight of day [c] to the midnight of day [e]: it
    counts the days of [c..e] that pass the test of its body and leaves on
    its condition. *)
Lemma businessDaysLoop_spec (hs : list DateString) (e : Z) :
  representableDay LocalTZA e ->
  let endDate := TimeValue (UTC LocalTZA (e * msPerDay)) in
  forall (n : nat) (c count : Z) (fuel : nat),
    representableDay LocalTZA c ->
    Z.of_nat n = e - c + 1 ->
    (n < fuel)%nat ->
    exists stop,
      businessDaysLoop LocalTZA fuel endDate hs
        (TimeValue (UTC LocalTZA (c * msPerDay))) count =
      (count + Z.of_nat (List.length (filter (countedDay hs) (dayRange c n))),
       stop) /\
      dateLe stop endDate = false.
Proof.
  intros He endDate n.
  induction n as [|n IH]; intros c count fuel Hc Hn Hfuel.
  - exists (TimeValue (UTC LocalTZA (c * msPerDay))).
    assert (Hdone : dateLe (TimeValue (UTC LocalTZA (c * msPerDay))) endDate
                    = false).
    { cbn [dateLe endDate]; apply Z.leb_gt.
      unfold UTC, msPerDay; lia. }
    rewrite (businessDaysLoop_done _ _ _ _ _ Hdone).
    cbn [dayRange filter List.length]; rewrite Z.add_0_r; auto.
  - destruct fuel as [|fuel]; [lia|].
    cbn [businessDaysLoop].
    assert (Hle : dateLe (TimeValue (UTC LocalTZA (c * msPerDay))) endDate
                  = true).
    { cbn [dateLe endDate]; apply Z.leb_le.
      unfold UTC, msPerDay; lia. }
    rewrite Hle, getDay_midnight.
    cbn [toDateString setDateNext].
    rewrite midnight_local, Day_midnight, TimeWithinDay_midnight, Z.add_0_r.
    cbn [dayRange filter].
    set (count' := if negb (weekdayOfDay c =? 0) && negb (weekdayOfDay c =? 6)
                   then if negb (existsb (DateString_eqb (DayString c)) hs)
                        then count + 1 else count
                   else count).
    assert (Hcount : count' = count + (if countedDay hs c then 1 else 0)).
    { unfold count', countedDay, isWeekend.
      rewrite negb_orb.
      destruct (negb (weekdayOfDay c =? 0) && negb (weekdayOfDay c =? 6));
        cbn [andb];
        [destruct (negb (existsb (DateString_eqb (DayString c)) hs))|];
        lia. }
    destruct (Z.eq_dec c e) as [Heq|Hne].
    + (* the last day: the next date is past the end, or no date at all *)
      assert (n = 0%nat) by lia; subst n.
      exists (TimeClip (UTC LocalTZA ((c + 1) * msPerDay))).
      assert (Hdone : dateLe (TimeClip (UTC LocalTZA ((c + 1) * msPerDay)))
                        endDate = false).
      { unfold TimeClip.
        destruct (Z.abs (UTC LocalTZA ((c + 1) * msPerDay)) <=? maxTime);
          [|reflexivity].
        cbn [dateLe endDate]; apply Z.leb_gt.
        unfold UTC, msPerDay; lia. }
      rewrite (businessDaysLoop_done _ _ _ _ _ Hdone).
      split; [|exact Hdone].
      f_equal. rewrite Hcount.
      destruct (countedDay hs c); cbn; lia.
    + assert (Hnext : representableDay LocalTZA (c + 1)).
      { apply (representableDay_between c e); auto; lia. }
      rewrite (TimeClip_in_range _ Hnext).
      destruct (IH (c + 1) count' fuel Hnext ltac:(lia) ltac:(lia))
        as [stop [Hrun Hstop]].
      exists stop; split; [|exact Hstop].
      rewrite Hrun; f_equal. rewrite Hcount.
      destruct (countedDay hs c); cbn [List.length]; lia.
Qed.

(** A date normalised to midnight is the local midnight of a representable
    day. *)
Lemma setHoursZero_midnight (d : Date) (a : Z) :
  setHoursZero LocalTZA (copyDate d) = TimeValue a ->
  exists day, a = UTC LocalTZA (day * msPerDay) /\
              representableDay LocalTZA day.
Proof.
  destruct d as [|t]; cbn [copyDate]; [discriminate|].
  unfold TimeClip at 1.
  destruct (Z.abs t <=? maxTime); cbn [setHoursZero]; [|discriminate].
  unfold TimeClip.
  destruct (Z.leb_spec (Z.abs (UTC LocalTZA (Day (LocalTime LocalTZA t)
                                              * msPerDay))) maxTime)
    as [Hin|]; [|discriminate].
  intros H; injection H as <-.
  exists (Day (LocalTime LocalTZA t)); split; [reflexivity | exact Hin].
Qed.

Lemma loopFuel_midnights (sday eday : Z) :
  loopFuel (TimeValue (UTC LocalTZA (sday * msPerDay)))
           (TimeValue (UTC LocalTZA (eday * msPerDay))) =
  Z.to_nat (eday - sday + 2).
Proof.
  cbn [loopFuel]. f_equal. f_equal.
  replace (UTC LocalTZA (eday * msPerDay) - UTC LocalTZA (sday * msPerDay))
    with ((eday - sday) * msPerDay) by (unfold UTC; lia).
  apply Z.div_mul; discriminate.
Qed.

(** The fuel of [calculateBusinessDays] is enough on every input: the run
    ends on a date that fails the loop condition. *)
Lemma businessDaysRun_leaves_on_condition (start end_ : Date)
    (holidays : list Date) :
  dateLe (snd (businessDaysRun LocalTZA start end_ holidays))
         (setHoursZero LocalTZA (copyDate end_)) = false.
Proof.
  unfold businessDaysRun.
  destruct (setHoursZero LocalTZA (copyDate start)) as [|a] eqn:Hs.
  { rewrite businessDaysLoop_done; reflexivity. }
  destruct (setHoursZero LocalTZA (copyDate end_)) as [|b] eqn:He.
  { rewrite businessDaysLoop_done; reflexivity. }
  apply setHoursZero_midnight in Hs as [sday [-> Hrs]].
  apply setHoursZero_midnight in He as [eday [-> Hre]].
  rewrite loopFuel_midnights.
  destruct (Z_le_dec sday eday) as [Hle|Hgt].
  - destruct (businessDaysLoop_spec
                (map (fun h => toDateString LocalTZA
                                 (setHoursZero LocalTZA (copyDate h)))
                     holidays)
                eday Hre (Z.to_nat (eday - sday + 1)) sday 0
                (Z.to_nat (eday - sday + 2)) Hrs ltac:(lia) ltac:(lia))
      as [stop [Hrun Hstop]].
    rewrite Hrun; exact Hstop.
  - assert (Hdone : dateLe (TimeValue (UTC LocalTZA (sday * msPerDay)))
                      (TimeValue (UTC LocalTZA (eday * msPerDay))) = false).
    { cbn [dateLe]; apply Z.leb_gt; unfold UTC, msPerDay; lia. }
    rewrite (businessDaysLoop_done _ _ _ _ _ Hdone); exact Hdone.
Qed.

Lemma dayRange_In (n : nat) : forall c d,
  In d (dayRange c n) <-> c <= d < c + Z.of_nat n.
Proof.
  induction n as [|n IH]; intros c d; cbn [dayRange In].
  - lia.
  - rewrite IH; lia.
Qed.

Lemma dayRange_NoDup (n : nat) : forall c, NoDup (dayRange c n).
Proof.
  induction n as [|n IH]; intros c; cbn [dayRange]; constructor.
  - rewrite dayRange_In; lia.
  - apply IH.
Qed.

Lemma isBusinessDay_iff (holidays : list Date) (d : Z) :
  isBusinessDay LocalTZA holidays d = true <->
  isWeekend d = false /\ ~ In d (holidayDays LocalTZA holidays).
Proof.
  unfold isBusinessDay.
  rewrite andb_true_iff, !negb_true_iff.
  assert (Hex : existsb (Z.eqb d) (holidayDays LocalTZA holidays) = false <->
                ~ In d (holidayDays LocalTZA holidays)).
  { rewrite <- not_true_iff_false, existsb_exists.
    split; intros H.
    - intros Hin; apply H; exists d; split; [exact Hin | apply Z.eqb_refl].
    - intros [x [Hin Hx]]; apply Z.eqb_eq in Hx; subst x; exact (H Hin). }
  rewrite Hex; reflexivity.
Qed.

(** The run of [calculateBusinessDays] on two dates whose days have a
    representable midnight. *)
Lemma businessDaysRun_spec (start end_ : Z) (holidays : list Date) :
  Z.abs start <= maxTime -> Z.abs end_ <= maxTime ->
  representableDay LocalTZA (localDay LocalTZA start) ->
  representableDay LocalTZA (localDay LocalTZA end_) ->
  Forall wfDate holidays ->
  let sday := localDay LocalTZA start in
  let eday := localDay LocalTZA end_ in
  fst (businessDaysRun LocalTZA (TimeValue start) (TimeValue end_) holidays) =
    Z.of_nat (List.length
      (filter (isBusinessDay LocalTZA holidays)
              (dayRange sday (Z.to_nat (eday - sday + 1))))).
Proof.
  intros Hs He Hrs Hre Hwf sday eday.
  unfold businessDaysRun.
  rewrite (setHoursZero_wf start Hs Hrs), (setHoursZero_wf end_ He Hre).
  fold sday eday.
  rewrite loopFuel_midnights.
  set (hs := map (fun h => toDateString LocalTZA
                             (setHoursZero LocalTZA (copyDate h))) holidays).
  destruct (Z_le_dec sday eday) as [Hle|Hgt].
  - destruct (businessDaysLoop_spec hs eday Hre
                (Z.to_nat (eday - sday + 1)) sday 0
                (Z.to_nat (eday - sday + 2)) Hrs ltac:(lia) ltac:(lia))
      as [stop [Hrun _]].
    rewrite Hrun; cbn [fst].
    rewrite Z.add_0_l; do 2 f_equal.
    apply filter_ext_in; intros d Hd.
    apply dayRange_In in Hd.
    unfold countedDay, isBusinessDay, hs.
    rewrite (holidayStrings_spec holidays d Hwf); [reflexivity|].
    apply (representableDay_between sday eday); auto; lia.
  - assert (Hdone : dateLe (TimeValue (UTC LocalTZA (sday * msPerDay)))
                      (TimeValue (UTC LocalTZA (eday * msPerDay))) = false).
    { cbn [dateLe]; apply Z.leb_gt; unfold UTC, msPerDay; lia. }
    rewrite (businessDaysLoop_done _ _ _ _ _ Hdone).
    replace (Z.to_nat (eday - sday + 1)) with 0%nat by lia.
    reflexivity.
Qed.

(** The count between the local midnights of two representable days. *)
Lemma calculateBusinessDays_midnights (sday eday : Z) (holidays : list Date) :
  representableDay LocalTZA sday -> representableDay LocalTZA eday ->
  Forall wfDate holidays ->
  calculateBusinessDays LocalTZA
    (TimeValue (UTC LocalTZA (sday * msPerDay)))
    (TimeValue (UTC LocalTZA (eday * msPerDay))) holidays =
  Z.of_nat (List.length
    (filter (isBusinessDay LocalTZA holidays)
            (dayRange sday (Z.to_nat (eday - sday + 1))))).
Proof.
  intros Hs He Hwf; unfold calculateBusinessDays.
  assert (Hday : forall d, localDay LocalTZA (UTC LocalTZA (d * msPerDay)) = d).
  { intros d; unfold localDay; rewrite midnight_local; apply Day_midnight. }
  rewrite businessDaysRun_spec; rewrite ?Hday; auto.
Qed.

(** Without a start date or an end date no day is counted. *)
Lemma calculateBusinessDays_invalid (d : Date) (holidays : list Date) :
  calculateBusinessDays LocalTZA InvalidDate d holidays = 0 /\
  calculateBusinessDays LocalTZA d InvalidDate holidays = 0.
Proof.
  split; unfold calculateBusinessDays, businessDaysRun; cbn [copyDate].
  - cbn [setHoursZero loopFuel businessDaysLoop dateLe]; reflexivity.
  - cbn [setHoursZero].
    rewrite businessDaysLoop_done; [reflexivity|].
    destruct (setHoursZero LocalTZA (copyDate d)); reflexivity.
Qed.

(** C2 (as the code has it).  In a time zone of constant offset, on two
    dates (whose days open with a representable local midnight),
    [calculateBusinessDays] is the number of calendar days from the day of
    [start] to the day of [end], both included and the time of day ignored,
    that fall neither on a Saturday or Sunday nor on the day of a holiday.
    Hence a single day without holidays counts 1 on a weekday and 0 on a
    weekend, and the count is 0 when the day of [start] is after the day of
    [end]; a start later than the end on the same day still counts that
    day. *)
Theorem calculateBusinessDays_counts_business_days :
  forall (start end_ : Z) (holidays : list Date),
    Z.abs start <= maxTime -> Z.abs end_ <= maxTime ->
    representableDay LocalTZA (localDay LocalTZA start) ->
    representableDay LocalTZA (localDay LocalTZA end_) ->
    Forall wfDate holidays ->
    let sday := localDay LocalTZA start in
    let eday := localDay LocalTZA end_ in
    let result :=
      calculateBusinessDays LocalTZA (TimeValue start) (TimeValue end_)
        holidays in
    (exists days : list Z,
        NoDup days /\
        (forall d, In d days <->
                   sday <= d <= eday /\ isWeekend d = false /\
                   ~ In d (holidayDays LocalTZA holidays)) /\
        result = Z.of_nat (List.length days)) /\
    (sday = eday -> holidays = [] ->
     result = if isWeekend sday then 0 else 1) /\
    (eday < sday -> result = 0).
Proof.
  intros start end_ holidays Hs He Hrs Hre Hwf sday eday result.
  assert (Hres : result =
            Z.of_nat (List.length
              (filter (isBusinessDay LocalTZA holidays)
                      (dayRange sday (Z.to_nat (eday - sday + 1)))))).
  { exact (businessDaysRun_spec start end_ holidays Hs He Hrs Hre Hwf). }
  split; [|split].
  - exists (filter (isBusinessDay LocalTZA holidays)
                   (dayRange sday (Z.to_nat (eday - sday + 1)))).
    split; [apply NoDup_filter, dayRange_NoDup|].
    split; [|exact Hres].
    intros d; rewrite filter_In, dayRange_In, isBusinessDay_iff.
    split.
    + intros [Hin Hb]; split; [lia | exact Hb].
    + intros [Hin Hb]; split; [lia | exact Hb].
  - intros Heq Hnil; rewrite Hres, <- Heq, Hnil.
    replace (Z.to_nat (sday - sday + 1)) with 1%nat by lia.
    cbn [dayRange filter].
    unfold isBusinessDay; cbn [holidayDays flat_map existsb negb].
    rewrite andb_true_r.
    destruct (isWeekend sday); reflexivity.
  - intros Hlt; rewrite Hres.
    replace (Z.to_nat (eday - sday + 1)) with 0%nat by lia.
    reflexivity.
Qed.

End BusinessDayProperties.

(** 1 March 2024 at 15:00 to 8 March at 09:00 with a holiday on Monday the
    4th: Friday, Tuesday, Wednesday, Thursday and Friday are counted. *)
Lemma calculateBusinessDays_counts_business_days_witness :
  calculateBusinessDays BRT (TimeValue 1709316000000)
    (TimeValue 1709899200000) [TimeValue 1709521200000] = 5 /\
  calculateBusinessDays BRT (TimeValue 1709316000000)
    (TimeValue 1709269200000) [] = 1 /\
  calculateBusinessDays BRT (TimeValue 1709899200000)
    (TimeValue 1709316000000) [] = 0.
Proof.
  assert (Hwf : forall t, Z.abs t <= 2000000000000 ->
                 Z.abs t <= maxTime /\
                 representableDay BRT (localDay BRT t)).
  { intros t Ht; unfold representableDay, localDay, UTC, LocalTime, Day, BRT.
    split; [unfold maxTime; lia|].
    assert (H := Z.mul_div_le (t + -10800000) msPerDay eq_refl).
    assert (H' := Z.mul_succ_div_gt (t + -10800000) msPerDay eq_refl).
    unfold msPerDay, maxTime in *; lia. }
  destruct (Hwf 1709316000000 ltac:(lia)) as [Ha Hra].
  destruct (Hwf 1709899200000 ltac:(lia)) as [Hb Hrb].
  destruct (Hwf 1709269200000 ltac:(lia)) as [Hc Hrc].
  split; [|split].
  - destruct (calculateBusinessDays_counts_business_days BRT
                1709316000000 1709899200000 [TimeValue 1709521200000]
                Ha Hb Hra Hrb) as [[days [_ [_ Hres]]] _].
    { repeat constructor. cbn; unfold maxTime; lia. }
    vm_compute; reflexivity.
  - destruct (calculateBusinessDays_counts_business_days BRT
                1709316000000 1709269200000 [] Ha Hc Hra Hrc
                (Forall_nil _)) as [_ [Hone _]].
    exact (Hone eq_refl eq_refl).
  - destruct (calculateBusinessDays_counts_business_days BRT
                1709899200000 1709316000000 [] Hb Ha Hrb Hra
                (Forall_nil _)) as [_ [_ Hzero]].
    apply Hzero. vm_compute; reflexivity.
Defined.

(** ** The projection engine *)

Section ProjectionProperties.

Variable LocalTZA : Z.

(** C10 (as the code has it).  When [parseDate] answers null for one of the
    three dates of the calendar configuration (an empty text, or a text not
    in three parts), the projection is 0 whatever the sales value, the
    holidays and the filter dates are.  A text in three parts that are not
    numbers is not null: it is an invalid date and passes the guard.  With
    an invalid reference date the projection is still 0.  With an invalid
    first or last day of the period the count of the whole period is 0, and
    the projection is 0 when no business day has elapsed and
    [(currentSales / elapsed) * 0] otherwise. *)
Theorem calculateProjection_unparsed_config :
  forall (inicial final atual : string) (currentSales : number)
         (holidays : list string)
         (filterStartDate filterEndDate : option string),
    let config := {| dataInicial := inicial; dataFinal := final;
                     feriados := holidays; dataAtual := atual |} in
    let result := calculateProjection LocalTZA currentSales config
                    filterStartDate filterEndDate in
    (parseDate LocalTZA inicial = None \/ parseDate LocalTZA final = None \/
     parseDate LocalTZA atual = None -> result = zero) /\
    (parseDate LocalTZA atual = Some InvalidDate -> result = zero) /\
    (forall startMonth endMonth current : Date,
       parseDate LocalTZA inicial = Some startMonth ->
       parseDate LocalTZA final = Some endMonth ->
       parseDate LocalTZA atual = Some current ->
       startMonth = InvalidDate \/ endMonth = InvalidDate ->
       let period := accumulationPeriod LocalTZA startMonth current
                       filterStartDate filterEndDate in
       result =
       projectionOver currentSales
         (calculateBusinessDays LocalTZA (fst period) (snd period)
            (parseHolidays LocalTZA holidays))
         0).
Proof.
  intros inicial final atual sales hol fs fe config result.
  unfold result, calculateProjection, config.
  cbn [dataInicial dataFinal dataAtual feriados].
  split; [|split].
  - intros H.
    destruct (parseDate LocalTZA inicial) as [s|]; [|reflexivity].
    destruct (parseDate LocalTZA final) as [e|]; [|reflexivity].
    destruct (parseDate LocalTZA atual) as [c|]; [|reflexivity].
    destruct H as [H|[H|H]]; discriminate H.
  - intros ->.
    destruct (parseDate LocalTZA inicial) as [s|]; [|reflexivity].
    destruct (parseDate LocalTZA final) as [e|]; [|reflexivity].
    assert (Hend : snd (accumulationPeriod LocalTZA s InvalidDate fs fe) =
                   InvalidDate).
    { unfold accumulationPeriod.
      destruct (given fs); [|reflexivity].
      destruct (given fe); [|reflexivity].
      destruct (parseInputDate LocalTZA _); [|reflexivity].
      destruct (parseInputDate LocalTZA _) as [[|t]|]; reflexivity. }
    destruct (accumulationPeriod LocalTZA s InvalidDate fs fe) as [ps pe].
    cbn [snd] in Hend; subst pe; cbv zeta.
    rewrite (proj2 (calculateBusinessDays_invalid LocalTZA _ _)).
    reflexivity.
  - intros s e c -> -> -> Hinv.
    destruct (accumulationPeriod LocalTZA s c fs fe) as [ps pe].
    cbv zeta; cbn [fst snd]; unfold projectionOver.
    replace (calculateBusinessDays LocalTZA s e (parseHolidays LocalTZA hol))
      with 0; [reflexivity|].
    destruct Hinv as [-> | ->]; symmetry;
      apply (calculateBusinessDays_invalid LocalTZA).
Qed.

(** With the three configuration dates parsed, the projection is computed
    from two business-day counts: that of the accumulation period and that
    of the whole period. *)
Lemma calculateProjection_from_counts :
  forall (currentSales : number) (config : DatasConfig)
         (filterStartDate filterEndDate : option string)
         (startMonth endMonth current : Date),
    parseDate LocalTZA (dataInicial config) = Some startMonth ->
    parseDate LocalTZA (dataFinal config) = Some endMonth ->
    parseDate LocalTZA (dataAtual config) = Some current ->
    let holidays := parseHolidays LocalTZA (feriados config) in
    let totalBusinessDays :=
      calculateBusinessDays LocalTZA startMonth endMonth holidays in
    let period :=
      accumulationPeriod LocalTZA startMonth current
        filterStartDate filterEndDate in
    let elapsedBusinessDays :=
      calculateBusinessDays LocalTZA (fst period) (snd period) holidays in
    calculateProjection LocalTZA currentSales config filterStartDate filterEndDate =
      if elapsedBusinessDays =? 0 then zero
      else mul (div currentSales (ofZ elapsedBusinessDays))
               (ofZ totalBusinessDays).
Proof.
  intros sales config fs fe s e c Hs He Hc; cbv zeta.
  unfold calculateProjection.
  rewrite Hs, He, Hc.
  destruct (accumulationPeriod LocalTZA s c fs fe) as [ps pe].
  reflexivity.
Qed.

(** C4.  With the configuration dates parsed: when both filter dates are
    supplied and parse, the elapsed business days are counted from the filter
    start itself, wherever it lies with respect to the period start, up to
    the earlier of the filter end and the reference date; when a filter date
    is left out, they are counted from the period start to the reference
    date. *)
Theorem calculateProjection_accumulation_window :
  forall (currentSales : number) (config : DatasConfig)
         (startMonth endMonth : Date) (reference : Z),
    parseDate LocalTZA (dataInicial config) = Some startMonth ->
    parseDate LocalTZA (dataFinal config) = Some endMonth ->
    parseDate LocalTZA (dataAtual config) = Some (TimeValue reference) ->
    let holidays := parseHolidays LocalTZA (feriados config) in
    let total := calculateBusinessDays LocalTZA startMonth endMonth holidays in
    (forall (filterStart filterEnd : string) (fStart : Date) (fEnd : Z),
        filterStart <> "" -> filterEnd <> "" ->
        parseInputDate LocalTZA filterStart = Some fStart ->
        parseInputDate LocalTZA filterEnd = Some (TimeValue fEnd) ->
        calculateProjection LocalTZA currentSales config
          (Some filterStart) (Some filterEnd) =
        projectionOver currentSales
          (calculateBusinessDays LocalTZA fStart
             (TimeValue (Z.min fEnd reference)) holidays)
          total) /\
    (forall (filterStartDate filterEndDate : option string),
        given filterStartDate = None \/ given filterEndDate = None ->
        calculateProjection LocalTZA currentSales config
          filterStartDate filterEndDate =
        projectionOver currentSales
          (calculateBusinessDays LocalTZA startMonth (TimeValue reference)
             holidays)
          total).
Proof.
  intros sales config s e ref Hs He Hc; cbv zeta.
  split.
  - intros fs fe fStart fEnd Hfs Hfe Hps Hpe.
    rewrite (calculateProjection_from_counts sales config (Some fs) (Some fe)
               s e (TimeValue ref) Hs He Hc); cbv zeta.
    unfold accumulationPeriod, given.
    apply String.eqb_neq in Hfs, Hfe.
    rewrite Hfs, Hfe, Hps, Hpe; cbn [fst snd dateLt].
    unfold projectionOver.
    destruct (Z.ltb_spec fEnd ref) as [Hlt|Hge].
    + rewrite Z.min_l by lia. reflexivity.
    + rewrite Z.min_r by lia. reflexivity.
  - intros fs fe Habs.
    rewrite (calculateProjection_from_counts sales config fs fe
               s e (TimeValue ref) Hs He Hc); cbv zeta.
    unfold accumulationPeriod.
    destruct Habs as [H|H]; rewrite H.
    + reflexivity.
    + destruct (given fs); reflexivity.
Qed.

End ProjectionProperties.

Lemma calculateProjection_unparsed_config_witness :
  calculateProjection BRT (ofZ 300)
    {| dataInicial := "01/03/2024"; dataFinal := "March";
       feriados := ["29/03/2024"]; dataAtual := "02/03/2024" |}
    (Some "2024-03-01") (Some "2024-03-15") = zero /\
  calculateProjection BRT (ofZ 300)
    {| dataInicial := "01/03/2024"; dataFinal := "31/03/2024";
       feriados := []; dataAtual := "a/b/c" |} None None = zero /\
  calculateProjection BRT (ofZ 300)
    {| dataInicial := "01/03/2024"; dataFinal := "a/b/c";
       feriados := []; dataAtual := "04/03/2024" |} None None =
  projectionOver (ofZ 300)
    (calculateBusinessDays BRT (TimeValue 1709262000000)
       (TimeValue 1709521200000) [])
    0.
Proof.
  split; [|split].
  - apply (proj1 (calculateProjection_unparsed_config BRT "01/03/2024"
                    "March" "02/03/2024" (ofZ 300) ["29/03/2024"]
                    (Some "2024-03-01") (Some "2024-03-15"))).
    right; left; reflexivity.
  - apply (proj1 (proj2 (calculateProjection_unparsed_config BRT "01/03/2024"
                    "31/03/2024" "a/b/c" (ofZ 300) [] None None))).
    reflexivity.
  - apply (proj2 (proj2 (calculateProjection_unparsed_config BRT "01/03/2024"
                    "a/b/c" "04/03/2024" (ofZ 300) [] None None))
             (TimeValue 1709262000000) InvalidDate
             (TimeValue 1709521200000));
      [reflexivity | reflexivity | reflexivity | right; reflexivity].
Defined.

(** A last day of the period written [a/b/c] is no date, yet it is not
    null: the guard is passed, and infinite sales project to NaN, negative
    sales to minus zero. *)
Lemma calculateProjection_invalid_date_counterexample :
  let config := {| dataInicial := "01/03/2024"; dataFinal := "a/b/c";
                   feriados := []; dataAtual := "04/03/2024" |} in
  parseDate BRT "a/b/c" = Some InvalidDate /\
  calculateProjection BRT Infinity config None None = NaN /\
  calculateProjection BRT Infinity config None None <> zero /\
  calculateProjection BRT (ofZ (-300)) config None None = S754_zero true.
Proof.
  cbv zeta; split; [vm_compute; reflexivity|].
  split; [vm_compute; reflexivity|].
  split; [vm_compute; discriminate | vm_compute; reflexivity].
Qed.

(** The three dates of the March 2024 calendar, in any zone whose offset
    is within a day. *)
Lemma march2024_dates (LocalTZA : Z) :
  Z.abs LocalTZA <= msPerDay ->
  parseDate LocalTZA (dataInicial march2024) =
    Some (TimeValue (UTC LocalTZA (19783 * msPerDay))) /\
  parseDate LocalTZA (dataFinal march2024) =
    Some (TimeValue (UTC LocalTZA (19813 * msPerDay))) /\
  parseDate LocalTZA (dataAtual march2024) =
    Some (TimeValue (UTC LocalTZA (19784 * msPerDay))).
Proof.
  intros Htz.
  assert (Hdate : forall (dd : string) (d day : Z),
            toInteger (parseInt dd) = Some d ->
            includes "/" dd = false ->
            MakeDay 2024 2 d = day -> 0 <= day <= 30000 ->
            parseDate LocalTZA (dd ++ "/" ++ "03" ++ "/" ++ "2024") =
            Some (TimeValue (UTC LocalTZA (day * msPerDay)))).
  { intros dd d day Hd Hdd Hday Hrange.
    rewrite (parseDate_dmy LocalTZA dd "03" "2024" Hdd eq_refl eq_refl).
    assert (Hy : toInteger (parseInt "2024") = Some 2024)
      by (vm_compute; reflexivity).
    assert (Hm : toInteger (sub (parseInt "03") (ofZ 1)) = Some 2)
      by (vm_compute; reflexivity).
    rewrite (newDate_integers LocalTZA _ _ _ 2024 2 d Hy Hm Hd).
    change (if (0 <=? 2024) && (2024 <=? 99) then 1900 + 2024 else 2024)
      with 2024.
    rewrite Hday.
    f_equal; apply TimeClip_in_range.
    unfold UTC, msPerDay, maxTime in *; lia. }
  repeat split.
  - apply (Hdate "01" 1 19783); [vm_compute | | vm_compute | lia]; reflexivity.
  - apply (Hdate "31" 31 19813); [vm_compute | | vm_compute | lia]; reflexivity.
  - apply (Hdate "02" 2 19784); [vm_compute | | vm_compute | lia]; reflexivity.
Qed.

(** C1 (as the code has it).  With the three configuration dates parsed,
    the projection is 0 when the accumulation period holds no business day,
    and otherwise the sales divided by the elapsed business days, times the
    business days of the whole period.  In the March 2024 scenario (period 1
    to 31 March, reference date 2 March, no holidays) the period has 21
    business days and one has elapsed, 2 March 2024 being a Saturday, so the
    projection of 300 is 6300. *)
Theorem calculateProjection_formula :
  forall LocalTZA : Z,
    (forall (currentSales : number) (config : DatasConfig)
            (filterStartDate filterEndDate : option string)
            (startMonth endMonth current : Date),
        parseDate LocalTZA (dataInicial config) = Some startMonth ->
        parseDate LocalTZA (dataFinal config) = Some endMonth ->
        parseDate LocalTZA (dataAtual config) = Some current ->
        let holidays := parseHolidays LocalTZA (feriados config) in
        let totalBusinessDays :=
          calculateBusinessDays LocalTZA startMonth endMonth holidays in
        let period :=
          accumulationPeriod LocalTZA startMonth current
            filterStartDate filterEndDate in
        let elapsedBusinessDays :=
          calculateBusinessDays LocalTZA (fst period) (snd period) holidays in
        calculateProjection LocalTZA currentSales config
          filterStartDate filterEndDate =
          if elapsedBusinessDays =? 0 then zero
          else mul (div currentSales (ofZ elapsedBusinessDays))
                   (ofZ totalBusinessDays)) /\
    (Z.abs LocalTZA <= msPerDay ->
     forall startMonth endMonth current : Date,
       parseDate LocalTZA (dataInicial march2024) = Some startMonth ->
       parseDate LocalTZA (dataFinal march2024) = Some endMonth ->
       parseDate LocalTZA (dataAtual march2024) = Some current ->
       toDateString LocalTZA current = DayString 19784 /\
       weekdayOfDay 19784 = 6 /\
       calculateBusinessDays LocalTZA startMonth endMonth [] = 21 /\
       calculateBusinessDays LocalTZA startMonth current [] = 1 /\
       calculateProjection LocalTZA (ofZ 300) march2024 None None =
         ofZ 6300).
Proof.
  intros tz; split.
  - intros sales config fs fe s e c Hs He Hc.
    exact (calculateProjection_from_counts tz sales config fs fe s e c
             Hs He Hc).
  - intros Htz s e c Hs He Hc.
    destruct (march2024_dates tz Htz) as [Hs' [He' Hc']].
    assert (Es : s = TimeValue (UTC tz (19783 * msPerDay))) by congruence.
    assert (Ee : e = TimeValue (UTC tz (19813 * msPerDay))) by congruence.
    assert (Ec : c = TimeValue (UTC tz (19784 * msPerDay))) by congruence.
    assert (Hrep : forall d, 0 <= d <= 30000 -> representableDay tz d).
    { intros d Hd; unfold representableDay, UTC, msPerDay, maxTime in *; lia. }
    assert (Htotal : calculateBusinessDays tz s e [] = 21).
    { rewrite Es, Ee, calculateBusinessDays_midnights;
        [vm_compute; reflexivity | apply Hrep; lia | apply Hrep; lia
        | constructor]. }
    assert (Helapsed : calculateBusinessDays tz s c [] = 1).
    { rewrite Es, Ec, calculateBusinessDays_midnights;
        [vm_compute; reflexivity | apply Hrep; lia | apply Hrep; lia
        | constructor]. }
    split; [|split; [reflexivity|split; [exact Htotal|split;
                                         [exact Helapsed|]]]].
    + rewrite Ec; cbn [toDateString].
      rewrite midnight_local, Day_midnight; reflexivity.
    + rewrite (calculateProjection_from_counts tz (ofZ 300) march2024
                 None None s e c Hs He Hc); cbv zeta.
      cbn [accumulationPeriod given fst snd feriados march2024
           parseHolidays flat_map].
      rewrite Htotal, Helapsed; vm_compute; reflexivity.
Qed.

Lemma calculateProjection_formula_witness :
  calculateProjection BRT (ofZ 300) march2024 None None = ofZ 6300.
Proof.
  assert (Htz : Z.abs BRT <= msPerDay) by (vm_compute; discriminate).
  apply (proj2 (calculateProjection_formula BRT) Htz
           (TimeValue 1709262000000) (TimeValue 1711854000000)
           (TimeValue 1709348400000)); reflexivity.
Defined.

Lemma calculateProjection_march2024_counterexample :
  calculateBusinessDays BRT (TimeValue 1709262000000)
    (TimeValue 1711854000000) [] = 21 /\
  calculateBusinessDays BRT (TimeValue 1709262000000)
    (TimeValue 1709348400000) [] = 1 /\
  calculateProjection BRT (ofZ 300) march2024 None None = ofZ 6300 /\
  calculateProjection BRT (ofZ 300) march2024 None None <> ofZ 3150.
Proof.
  repeat split; try (vm_compute; reflexivity).
  vm_compute; discriminate.
Qed.

(** A filter that starts in February, before the period start, and ends
    after the reference date: the window runs from 26 February to 2 March. *)
Lemma calculateProjection_accumulation_window_witness :
  calculateProjection BRT (ofZ 300) march2024
    (Some "2024-02-26") (Some "2024-03-15") =
  projectionOver (ofZ 300)
    (calculateBusinessDays BRT (TimeValue 1708916400000)
       (TimeValue (Z.min 1710471600000 1709348400000)) [])
    21 /\
  calculateProjection BRT (ofZ 300) march2024 None (Some "2024-03-15") =
  projectionOver (ofZ 300)
    (calculateBusinessDays BRT (TimeValue 1709262000000)
       (TimeValue 1709348400000) [])
    21.
Proof.
  pose proof (calculateProjection_accumulation_window BRT (ofZ 300) march2024
                (TimeValue 1709262000000) (TimeValue 1711854000000)
                1709348400000 eq_refl eq_refl eq_refl) as [Hwin Hdef].
  split.
  - apply (Hwin "2024-02-26" "2024-03-15" (TimeValue 1708916400000)
             1710471600000); [discriminate | discriminate | reflexivity
                             | reflexivity].
  - apply (Hdef None (Some "2024-03-15")). left; reflexivity.
Defined.

(** ** The row normaliser *)

Lemma binary_round_aux_not_negative (m e : Z) (l : location) :
  isNegative (binary_round_aux prec emax false m e l) = false.
Proof.
  unfold binary_round_aux.
  destruct (shr_fexp prec emax m e l) as [mrs e'].
  destruct (shr_fexp prec emax _ e' loc_Exact) as [mrs' e''].
  destruct (shr_m mrs'); [reflexivity| |reflexivity].
  destruct (e'' <=? emax - prec); reflexivity.
Qed.

Lemma ofDecimal_not_negative (m k : Z) :
  isNegative (ofDecimal false m k) = false.
Proof.
  unfold ofDecimal.
  destruct m as [|p|p]; try reflexivity.
  destruct (0 <=? k) eqn:Hk.
  - apply Z.leb_le in Hk.
    pose proof (Z.pow_nonneg 10 k ltac:(lia)) as Hpow.
    unfold binary_normalize.
    destruct (Z.pos p * 10 ^ k) as [|q|q] eqn:Hq; [reflexivity| |lia].
    unfold binary_round.
    destruct (shl_align q 0 _) as [mz ez].
    apply binary_round_aux_not_negative.
  - destruct (10 ^ (- k)) as [|q|q]; try reflexivity.
    unfold div, SFdiv.
    destruct (SFdiv_core_binary prec emax (Z.pos p) 0 (Z.pos q) 0)
      as [[mz ez] lz].
    apply binary_round_aux_not_negative.
Qed.

Lemma takeSign_without_minus (s : string) :
  includes "-" s = false -> fst (takeSign s) = false.
Proof.
  destruct s as [|a rest]; [reflexivity|].
  cbn [includes]; intros H; apply orb_false_iff in H as [Ha _].
  destruct a as [[] [] [] [] [] [] [] []]; try reflexivity; discriminate Ha.
Qed.

Lemma parseFloat_without_minus (s : string) :
  includes "-" (trimStart s) = false -> isNegative (parseFloat s) = false.
Proof.
  intros H; unfold parseFloat.
  pose proof (takeSign_without_minus _ H) as Hsign.
  destruct (takeSign (trimStart s)) as [neg body]; cbn [fst] in Hsign.
  subst neg.
  destruct (startsWith "Infinity" body); [reflexivity|].
  destruct (takeDigits 0 0 body) as [[i ni] r1].
  match goal with
  | |- context [match ?X with (_, _) => _ end] => destruct X as [[m nf] r2]
  end.
  destruct ((ni =? 0) && (nf =? 0)); [reflexivity|].
  apply ofDecimal_not_negative.
Qed.

Lemma trimStart_excludes (c : ascii) (s : string) :
  includes c s = false -> includes c (trimStart s) = false.
Proof.
  induction s as [|a rest IH]; [reflexivity|].
  cbn [trimStart]; intros H.
  destruct (isWhiteSpace a); [|exact H].
  cbn [includes] in H; apply orb_false_iff in H as [_ H]; exact (IH H).
Qed.

Lemma trimEnd_excludes (c : ascii) (s : string) :
  includes c s = false -> includes c (trimEnd s) = false.
Proof.
  induction s as [|a rest IH]; [reflexivity|].
  cbn [trimEnd includes]; intros H; apply orb_false_iff in H as [Ha H].
  specialize (IH H).
  destruct (trimEnd rest) as [|b r].
  - destruct (isWhiteSpace a); [reflexivity|].
    cbn [includes]; rewrite Ha; reflexivity.
  - cbn [includes] in *; rewrite Ha; exact IH.
Qed.

Lemma removeAll_excludes (c : ascii) (p : ascii -> bool) (s : string) :
  includes c s = false -> includes c (removeAll p s) = false.
Proof.
  induction s as [|a rest IH]; [reflexivity|].
  cbn [removeAll includes]; intros H; apply orb_false_iff in H as [Ha H].
  destruct (p a); [exact (IH H)|].
  cbn [includes]; rewrite Ha; exact (IH H).
Qed.

Lemma replaceFirst_excludes (c x y : ascii) (s : string) :
  Ascii.eqb y c = false ->
  includes c s = false -> includes c (replaceFirst x y s) = false.
Proof.
  intros Hy; induction s as [|a rest IH]; [reflexivity|].
  cbn [replaceFirst includes]; intros H; apply orb_false_iff in H as [Ha H].
  destruct (Ascii.eqb a x); cbn [includes].
  - rewrite Hy; exact H.
  - rewrite Ha; exact (IH H).
Qed.

Lemma currencyClean_excludes_minus (val : string) :
  includes "-" val = false -> includes "-" (currencyClean val) = false.
Proof.
  intros H; unfold currencyClean.
  assert (Ht : includes "-" (trim val) = false).
  { unfold trim; apply trimEnd_excludes, trimStart_excludes, H. }
  destruct (includes "," (trim val)).
  - apply removeAll_excludes, replaceFirst_excludes; [reflexivity|].
    apply removeAll_excludes, Ht.
  - apply removeAll_excludes, Ht.
Qed.

(** A text without a minus sign is never read as a negative amount. *)
Lemma parseCurrency_without_minus (val : string) :
  includes "-" val = false ->
  isNegative (parseCurrency (TextInput val)) = false.
Proof.
  intros H; rewrite parseCurrency_text.
  destruct (String.eqb val ""); [reflexivity|].
  pose proof (parseFloat_without_minus (currencyClean val)
                (trimStart_excludes _ _ (currencyClean_excludes_minus _ H)))
    as Hpos.
  destruct (parseFloat (currencyClean val)) as [sg|sg| |sg m e];
    try reflexivity; exact Hpos.
Qed.

Section NormaliserProperties.

Variable normalizeString : string -> string.

(** C9 (as the code has it).  The value of a shipment record is
    [parseCurrency] of the resolved value text (of "0" when that text is
    empty); it is never NaN, and it is not negative as long as the value text
    holds no minus sign.  The minus sign is kept by the parser, so a value
    text with one can give a negative amount. *)
Theorem valorCte_of_row :
  forall (fields : list string) (row : RawRow),
    let text :=
      getValue normalizeString fields row
        ["VALOR_CTE"; "VALOR CTE"; "VALOR"] 11%nat in
    let record := toCteData normalizeString fields row in
    valorCte record = parseCurrency (TextInput (orZeroText text)) /\
    isNaN (valorCte record) = false /\
    (includes "-" text = false -> isNegative (valorCte record) = false).
Proof.
  intros fields row text record.
  assert (Hval : valorCte record = parseCurrency (TextInput (orZeroText text)))
    by reflexivity.
  split; [exact Hval|]; rewrite Hval.
  split.
  - apply parseCurrency_not_NaN.
  - intros Hminus; apply parseCurrency_without_minus.
    unfold orZeroText; destruct (String.eqb text ""); [reflexivity|].
    exact Hminus.
Qed.

End NormaliserProperties.

Lemma valorCte_negative_counterexample :
  In (toCteData asciiNormalize baseFields creditNoteRow)
     (fetchBaseDataRows asciiNormalize baseFields [creditNoteRow]) /\
  valorCte (toCteData asciiNormalize baseFields creditNoteRow) = ofZ (-5) /\
  isNegative (valorCte (toCteData asciiNormalize baseFields creditNoteRow))
    = true.
Proof.
  split; [left; reflexivity|].
  split; vm_compute; reflexivity.
Qed.

Lemma valorCte_of_row_witness :
  isNegative
    (valorCte (toCteData asciiNormalize baseFields
                 [("CTE", "1002"); ("VALOR_CTE", "R$ 1.234,56")])) = false.
Proof.
  apply (valorCte_of_row asciiNormalize baseFields
           [("CTE", "1002"); ("VALOR_CTE", "R$ 1.234,56")]).
  vm_compute; reflexivity.
Defined.

(** ** The per-unit aggregation *)

Lemma setAdd_In (u x : string) (units : list string) :
  In x (setAdd u units) <-> x = u \/ In x units.
Proof.
  unfold setAdd.
  destruct (existsb (String.eqb u) units) eqn:Hex.
  - apply existsb_exists in Hex as [y [Hin Hy]].
    apply String.eqb_eq in Hy; subst y.
    split; [auto | intros [->|H]; auto].
  - rewrite in_app_iff; cbn [In]; intuition auto.
Qed.

Lemma setAdd_NoDup (u : string) (units : list string) :
  NoDup units -> NoDup (setAdd u units).
Proof.
  intros Hnd; unfold setAdd.
  destruct (existsb (String.eqb u) units) eqn:Hex; [exact Hnd|].
  apply (Permutation_NoDup (Permutation_cons_append units u)).
  constructor; [|exact Hnd].
  intros Hin.
  assert (Htrue : existsb (String.eqb u) units = true).
  { apply existsb_exists; exists u; split; [exact Hin | apply String.eqb_refl]. }
  congruence.
Qed.

(** The units collected from [data], starting from the units [acc]. *)
Lemma unitUniverse_from (data : list CteData) : forall acc : list string,
  let step := fun (units : list string) (d : CteData) =>
    let units := if String.eqb (coleta d) "" then units
                 else setAdd (coleta d) units in
    if String.eqb (entrega d) "" then units else setAdd (entrega d) units in
  (NoDup acc -> NoDup (fold_left step data acc)) /\
  (forall u, In u (fold_left step data acc) <->
             In u acc \/
             (u <> "" /\ exists d, In d data /\
                                   (coleta d = u \/ entrega d = u))).
Proof.
  induction data as [|d data IH]; intros acc step.
  - cbn [fold_left]; split; [auto|].
    intros u; split; [auto|].
    intros [H|[_ [d [[] _]]]]; exact H.
  - cbn [fold_left].
    destruct (IH (step acc d)) as [IHnd IHin]; fold step in IHnd, IHin.
    assert (Hstep : forall u, In u (step acc d) <->
              In u acc \/ (u <> "" /\ (coleta d = u \/ entrega d = u))).
    { intros u; unfold step.
      destruct (String.eqb_spec (coleta d) "") as [Hc|Hc];
        destruct (String.eqb_spec (entrega d) "") as [He|He];
        rewrite ?setAdd_In; split; intros H.
      - auto.
      - destruct H as [H|[Hu [H|H]]]; [auto|congruence|congruence].
      - destruct H as [->|H]; [right; auto | auto].
      - destruct H as [H|[Hu [H|H]]]; auto; congruence.
      - destruct H as [->|H]; [right; auto | auto].
      - destruct H as [H|[Hu [H|H]]]; auto; congruence.
      - destruct H as [->|[->|H]]; [right; auto | right; auto | auto].
      - destruct H as [H|[Hu [H|H]]]; auto. }
    split.
    + intros Hnd; apply IHnd; unfold step.
      destruct (String.eqb (coleta d) "");
        destruct (String.eqb (entrega d) "");
        repeat apply setAdd_NoDup; exact Hnd.
    + intros u; rewrite IHin, Hstep; cbn [In]; split.
      * intros [[H|[Hu H]]|[Hu [x [Hx H]]]]; auto.
        -- right; split; [exact Hu|]; exists d; auto.
        -- right; split; [exact Hu|]; exists x; auto.
      * intros [H|[Hu [x [[->|Hx] H]]]]; auto.
        right; split; [exact Hu|]; exists x; auto.
Qed.

Lemma unitUniverse_NoDup (data : list CteData) : NoDup (unitUniverse data).
Proof. apply (unitUniverse_from data []); constructor. Qed.

Lemma unitUniverse_In (data : list CteData) (u : string) :
  In u (unitUniverse data) <->
  u <> "" /\ exists d, In d data /\ (coleta d = u \/ entrega d = u).
Proof.
  unfold unitUniverse; rewrite (proj2 (unitUniverse_from data [])).
  cbn [In]; tauto.
Qed.

(** Two filters that never hold together split a list between them. *)
Lemma filter_disjoint_app {A : Type} (f g : A -> bool) (l : list A) :
  (forall x, In x l -> f x = true -> g x = true -> False) ->
  Permutation (filter f l ++ filter g l) (filter (fun x => f x || g x) l).
Proof.
  induction l as [|x l IH]; intros Hdis; [constructor|].
  assert (IH' := IH (fun y Hy => Hdis y (or_intror Hy))).
  cbn [filter].
  destruct (f x) eqn:Hf, (g x) eqn:Hg; cbn [orb app].
  - exfalso; apply (Hdis x); auto; left; reflexivity.
  - constructor; exact IH'.
  - apply Permutation_sym, Permutation_cons_app, Permutation_sym, IH'.
  - exact IH'.
Qed.

(** The groups of the units of a duplicate-free list share the records whose
    pickup unit is in the list. *)
Lemma vendasDocs_partition (data : list CteData) (units : list string) :
  NoDup units ->
  Permutation (flat_map (vendasDocs data) units)
    (filter (fun d => existsb (String.eqb (coleta d)) units) data).
Proof.
  induction 1 as [|u units Hnotin Hnd IH]; cbn [flat_map existsb].
  - induction data; [constructor | assumption].
  - eapply Permutation_trans;
      [apply Permutation_app_head, IH | apply filter_disjoint_app].
    intros d _ Hu Hex.
    apply String.eqb_eq in Hu.
    apply existsb_exists in Hex as [y [Hin Hy]].
    apply String.eqb_eq in Hy; subst; contradiction.
Qed.

Lemma sumZ_app (l l' : list Z) : sumZ (l ++ l') = sumZ l + sumZ l'.
Proof.
  induction l as [|x l IH]; [reflexivity|].
  cbn [app]; unfold sumZ in *; cbn [fold_right]; rewrite IH; lia.
Qed.

Lemma sumZ_Permutation (l l' : list Z) :
  Permutation l l' -> sumZ l = sumZ l'.
Proof.
  unfold sumZ; induction 1; cbn [fold_right]; lia.
Qed.

Lemma number_eqb_eq (a b : number) : number_eqb a b = true -> a = b.
Proof.
  destruct a as [s|s| |s m e], b as [s'|s'| |s' m' e']; cbn [number_eqb];
    try discriminate; try reflexivity.
  - intros H; apply Bool.eqb_prop in H; congruence.
  - intros H; apply Bool.eqb_prop in H; congruence.
  - intros H; apply andb_true_iff in H as [H He].
    apply andb_true_iff in H as [Hs Hm].
    apply Bool.eqb_prop in Hs; apply Pos.eqb_eq in Hm; apply Z.eqb_eq in He.
    congruence.
Qed.

Lemma all_sums_equal (x : number) (ls : list (list number)) :
  forallb (fun l => number_eqb (sumNumbers l) x) ls = true ->
  Forall (fun l => sumNumbers l = x) ls.
Proof.
  intros H; apply Forall_forall; intros l Hl.
  apply number_eqb_eq.
  exact (proj1 (forallb_forall _ ls) H l Hl).
Qed.

(** In binary64 the per-unit totals are 0.2 and 1.2999999999999998 and add
    up to 1.4999999999999998, while the four amounts add up to 1.5, in
    whatever order either sum is taken. *)
Lemma unitStats_rounding_counterexample :
  map (fun s => (unit s, vendasTotal s))
      (unitStats BRT fourShipments [] march2024 None None) =
    [("ACAILANDIA", Prim2SF 0.2%float);
     ("BACABAL", Prim2SF 1.2999999999999998%float)] /\
  sumNumbers (map vendasTotal
                (unitStats BRT fourShipments [] march2024 None None)) =
    Prim2SF 1.4999999999999998%float /\
  sumValorCte (filter hasPickup fourShipments) = Prim2SF 1.5%float /\
  sumNumbers (map vendasTotal
                (unitStats BRT fourShipments [] march2024 None None)) <>
  sumValorCte (filter hasPickup fourShipments) /\
  Forall (fun amounts => sumNumbers amounts = Prim2SF 1.5%float)
         (orders (map valorCte (filter hasPickup fourShipments))) /\
  Forall (fun totals => sumNumbers totals = Prim2SF 1.4999999999999998%float)
         (orders (map vendasTotal
                    (unitStats BRT fourShipments [] march2024 None None))).
Proof.
  split; [vm_compute; reflexivity|].
  split; [vm_compute; reflexivity|].
  split; [vm_compute; reflexivity|].
  split; [vm_compute; discriminate|].
  split; apply all_sums_equal; vm_compute; reflexivity.
Qed.

(** ** The default order of the record-level table *)

Section ArraySortProperties.

Variable A : Type.
Variable comparefn : A -> A -> option Z.
Variable le : A -> A -> Prop.

Hypothesis le_trans : forall a b c, le a b -> le b c -> le a c.
Hypothesis compare_le : forall a b, sortCompare comparefn a b <= 0 -> le a b.
Hypothesis compare_gt : forall a b, 0 < sortCompare comparefn a b -> le b a.

Lemma sortInsert_Permutation (x : A) (l : list A) :
  Permutation (sortInsert comparefn x l) (x :: l).
Proof.
  induction l as [|y l IH]; cbn [sortInsert]; [apply Permutation_refl|].
  destruct (sortCompare comparefn x y <=? 0); [apply Permutation_refl|].
  eapply Permutation_trans; [apply perm_skip, IH | apply perm_swap].
Qed.

Lemma arraySort_Permutation (l : list A) :
  Permutation (arraySort comparefn l) l.
Proof.
  induction l as [|x l IH]; cbn [arraySort]; [constructor|].
  eapply Permutation_trans; [apply sortInsert_Permutation|].
  apply perm_skip, IH.
Qed.

Lemma sortInsert_sorted (x : A) (l : list A) :
  StronglySorted le l -> StronglySorted le (sortInsert comparefn x l).
Proof.
  induction 1 as [|y l Hsorted IH Hall]; cbn [sortInsert].
  - repeat constructor.
  - destruct (Z.leb_spec (sortCompare comparefn x y) 0) as [Hle|Hgt].
    + constructor; [constructor; assumption|].
      constructor; [apply compare_le, Hle|].
      eapply Forall_impl; [|exact Hall].
      intros z Hz; exact (le_trans _ _ _ (compare_le _ _ Hle) Hz).
    + constructor; [exact IH|].
      eapply Permutation_Forall;
        [apply Permutation_sym, sortInsert_Permutation|].
      constructor; [apply compare_gt, Hgt | exact Hall].
Qed.

Lemma arraySort_sorted (l : list A) :
  StronglySorted le (arraySort comparefn l).
Proof.
  induction l as [|x l IH]; cbn [arraySort];
    [constructor | apply sortInsert_sorted, IH].
Qed.

End ArraySortProperties.

(** Two comparators that agree on the elements of a list sort it alike. *)
Lemma sortInsert_ext {A : Type} (f g : A -> A -> option Z) (x : A)
    (l : list A) :
  (forall y, In y l -> f x y = g x y) ->
  sortInsert f x l = sortInsert g x l.
Proof.
  induction l as [|y l IH]; intros Heq; [reflexivity|].
  cbn [sortInsert]; unfold sortCompare.
  rewrite (Heq y (or_introl eq_refl)).
  destruct (match g x y with Some v => v | None => 0 end <=? 0);
    [reflexivity|].
  rewrite IH; [reflexivity|].
  intros z Hz; apply Heq; right; exact Hz.
Qed.

Lemma arraySort_ext {A : Type} (f g : A -> A -> option Z) (l : list A) :
  (forall x y, In x l -> In y l -> f x y = g x y) ->
  arraySort f l = arraySort g l.
Proof.
  induction l as [|x l IH]; intros Heq; [reflexivity|].
  cbn [arraySort].
  rewrite IH by (intros; apply Heq; right; assumption).
  apply sortInsert_ext.
  intros y Hy; apply Heq; [left; reflexivity|].
  right; exact (Permutation_in _ (arraySort_Permutation _ g l) Hy).
Qed.

Lemma prazoPriority_rank (s : string) :
  isInherited s = false -> prazoPriority s = PNumber (statusRank s).
Proof.
  intros H; unfold prazoPriority, statusRank; cbn [lookupOr].
  rewrite (String.eqb_sym "SEM BAIXA"), (String.eqb_sym "FORA DO PRAZO"),
    (String.eqb_sym "NO PRAZO"), H.
  destruct (String.eqb s "SEM BAIXA"); [reflexivity|].
  destruct (String.eqb s "FORA DO PRAZO"); [reflexivity|].
  destruct (String.eqb s "NO PRAZO"); reflexivity.
Qed.

Section DetailTableProperties.

Variable LocalTZA : Z.

Lemma byPriority_byRank (a b : CteData) :
  isInherited (statusPrazo a) = false ->
  isInherited (statusPrazo b) = false ->
  byPriority LocalTZA prazoPriority statusPrazo a b = byRank LocalTZA a b.
Proof.
  intros Ha Hb; unfold byPriority, byRank, byEmission.
  rewrite (prazoPriority_rank _ Ha), (prazoPriority_rank _ Hb); reflexivity.
Qed.

Lemma byRank_le (a b : CteData) :
  sortCompare (byRank LocalTZA) a b <= 0 -> deadlineOrder LocalTZA a b.
Proof.
  unfold sortCompare, byRank, deadlineOrder.
  destruct (Z.eqb_spec (statusRank (statusPrazo a))
                       (statusRank (statusPrazo b))); cbn [negb]; lia.
Qed.

Lemma byRank_gt (a b : CteData) :
  0 < sortCompare (byRank LocalTZA) a b -> deadlineOrder LocalTZA b a.
Proof.
  unfold sortCompare, byRank, deadlineOrder.
  destruct (Z.eqb_spec (statusRank (statusPrazo a))
                       (statusRank (statusPrazo b))); cbn [negb]; lia.
Qed.

Lemma deadlineOrder_trans (a b c : CteData) :
  deadlineOrder LocalTZA a b -> deadlineOrder LocalTZA b c ->
  deadlineOrder LocalTZA a c.
Proof. unfold deadlineOrder; lia. Qed.

(** C7.  In the deadline view without a manual sort, the records shown (all
    of them, or those whose deadline status is the selected filter) come out
    ordered by ascending status priority, "SEM BAIXA" before "FORA DO PRAZO"
    before "NO PRAZO" before any other status, and by ascending emission
    date among records of equal priority.  The statuses are those of the
    normaliser, upper-cased, so none of them names a member of
    [Object.prototype]. *)
Theorem processedData_deadline_order :
  forall (data : list CteData) (statusFilter : string),
    Forall (fun r => isInherited (statusPrazo r) = false) data ->
    let shown :=
      if String.eqb statusFilter "TODOS" then data
      else filter (fun d => String.eqb (statusPrazo d) statusFilter) data in
    let rows := processedData LocalTZA data BAIXAS statusFilter in
    Permutation rows shown /\
    StronglySorted (deadlineOrder LocalTZA) rows.
Proof.
  intros data statusFilter Hdata shown rows.
  assert (Hshown : Forall (fun r => isInherited (statusPrazo r) = false)
                     shown).
  { unfold shown; destruct (String.eqb statusFilter "TODOS"); [exact Hdata|].
    apply Forall_forall; intros r Hr; apply filter_In in Hr as [Hr _].
    exact (proj1 (Forall_forall _ _) Hdata r Hr). }
  assert (Hrows : rows = arraySort (byRank LocalTZA) shown).
  { assert (Hsort : arraySort (byPriority LocalTZA prazoPriority statusPrazo)
                      shown = arraySort (byRank LocalTZA) shown).
    { apply arraySort_ext; intros x y Hx Hy.
      rewrite Forall_forall in Hshown.
      apply byPriority_byRank; auto. }
    rewrite <- Hsort; unfold rows, processedData, shown.
    destruct (String.eqb statusFilter "TODOS"); reflexivity. }
  rewrite Hrows; split.
  - apply arraySort_Permutation.
  - apply arraySort_sorted;
      [exact deadlineOrder_trans | exact byRank_le | exact byRank_gt].
Qed.

End DetailTableProperties.

Lemma processedData_deadline_order_witness :
  StronglySorted (deadlineOrder BRT)
    (processedData BRT deadlineSample BAIXAS "TODOS") /\
  map cte (processedData BRT deadlineSample BAIXAS "TODOS") =
    ["5"; "4"; "3"; "1"; "2"].
Proof.
  split; [|vm_compute; reflexivity].
  apply (processedData_deadline_order BRT deadlineSample "TODOS").
  repeat constructor.
Defined.

(** * Further properties *)

(** ** Numbers: what rounding never does *)

Lemma iter_pos_invariant {A : Type} (P : A -> Prop) (f : A -> A) :
  (forall x, P x -> P (f x)) -> forall n x, P x -> P (iter_pos f n x).
Proof.
  intros Hf n; induction n as [n IH|n IH|]; intros x Hx; cbn [iter_pos]; auto.
Qed.

Lemma shr_1_nonneg (mrs : shr_record) :
  0 <= shr_m mrs -> 0 <= shr_m (shr_1 mrs).
Proof.
  destruct mrs as [m r s]; cbn [shr_m]; intros H; unfold shr_1.
  destruct m as [|[p|p|]|p]; cbn [shr_m]; lia.
Qed.

Lemma shr_fexp_nonneg (m e : Z) (l : location) :
  0 <= m -> 0 <= shr_m (fst (shr_fexp prec emax m e l)).
Proof.
  intros Hm; unfold shr_fexp, shr.
  assert (H0 : 0 <= shr_m (shr_record_of_loc m l)).
  { destruct l as [|[]]; exact Hm. }
  destruct (fexp prec emax (Zdigits2 m + e) - e); cbn [fst]; auto.
  apply iter_pos_invariant; [exact shr_1_nonneg | exact H0].
Qed.

(** Rounding a mantissa that is not negative gives a number, not NaN. *)
Lemma binary_round_aux_not_NaN (s : bool) (m e : Z) (l : location) :
  0 <= m -> isNaN (binary_round_aux prec emax s m e l) = false.
Proof.
  intros Hm; unfold binary_round_aux.
  pose proof (shr_fexp_nonneg m e l Hm) as H1.
  destruct (shr_fexp prec emax m e l) as [mrs e']; cbn [fst] in H1.
  assert (H2 : 0 <= round_nearest_even (shr_m mrs) (loc_of_shr_record mrs)).
  { unfold round_nearest_even.
    destruct (loc_of_shr_record mrs) as [|[]]; try lia.
    destruct (Z.even (shr_m mrs)); lia. }
  pose proof (shr_fexp_nonneg _ e' loc_Exact H2) as H3.
  destruct (shr_fexp prec emax _ e' loc_Exact) as [mrs' e''].
  cbn [fst] in H3.
  destruct (shr_m mrs'); [reflexivity| |lia].
  destruct (e'' <=? emax - prec); reflexivity.
Qed.

Lemma digits2_pos_lower (p : positive) :
  2 ^ (Zpos (digits2_pos p) - 1) <= Zpos p.
Proof.
  induction p as [p IH|p IH|]; cbn [digits2_pos]; [| |cbn; lia].
  - rewrite Pos2Z.inj_succ.
    replace (Z.succ (Zpos (digits2_pos p)) - 1)
      with (Z.succ (Zpos (digits2_pos p) - 1)) by lia.
    rewrite Z.pow_succ_r by lia. lia.
  - rewrite Pos2Z.inj_succ.
    replace (Z.succ (Zpos (digits2_pos p)) - 1)
      with (Z.succ (Zpos (digits2_pos p) - 1)) by lia.
    rewrite Z.pow_succ_r by lia. lia.
Qed.

Lemma digits2_pos_shift (p : positive) (k : positive) :
  digits2_pos (Pos.iter xO p k) = (digits2_pos p + k)%positive.
Proof.
  revert p. induction k using Pos.peano_ind; intros p.
  - cbn. lia.
  - rewrite Pos.iter_succ. cbn [digits2_pos]. rewrite IHk. lia.
Qed.

Lemma Zpos_shift (p k : positive) :
  Zpos (Pos.iter xO p k) = Zpos p * 2 ^ Zpos k.
Proof.
  induction k using Pos.peano_ind.
  - cbn. lia.
  - rewrite Pos.iter_succ, Pos2Z.inj_succ, Z.pow_succ_r by lia.
    rewrite Pos2Z.inj_xO, IHk. lia.
Qed.

(** An integer below 2^53 is a number as it stands: no rounding. *)
Lemma binary_round_small (s : bool) (p : positive) :
  Zpos p < 2 ^ 53 ->
  exists m e, binary_round prec emax s p 0 = S754_finite s m e /\ e <= 0 /\
              Zpos m = Zpos p * 2 ^ (- e).
Proof.
  intros Hp.
  pose proof (digits2_pos_lower p) as Hlow.
  set (d := Zpos (digits2_pos p)) in *.
  assert (Hd : 1 <= d <= 53).
  { split; [unfold d; lia|].
    destruct (Z_le_dec d 53); auto.
    assert (2 ^ 53 <= 2 ^ (d - 1)) by (apply Z.pow_le_mono_r; lia). lia. }
  unfold binary_round.
  fold d.
  assert (Hfexp : fexp prec emax (d + 0) = d - 53).
  { unfold fexp, emin, prec, emax. lia. }
  rewrite Hfexp.
  unfold shl_align.
  destruct (d - 53 - 0) as [|k|k] eqn:Hk; try lia.
  - exists p, 0.
    unfold binary_round_aux, shr_fexp.
    cbn [Zdigits2]; fold d.
    rewrite Hfexp. replace (d - 53 - 0) with 0 by lia.
    cbn [shr shr_record_of_loc loc_of_shr_record shr_m round_nearest_even].
    cbn [Zdigits2]; fold d. rewrite Hfexp. replace (d - 53 - 0) with 0 by lia.
    cbn [shr shr_m]. cbn. split; [reflexivity|]. lia.
  - exists (Pos.iter xO p k), (d - 53).
    assert (Hdig : Zpos (digits2_pos (Pos.iter xO p k)) + (d - 53) = d).
    { rewrite digits2_pos_shift, Pos2Z.inj_add. fold d. lia. }
    unfold binary_round_aux, shr_fexp.
    cbn [Zdigits2]. rewrite Hdig.
    replace (fexp prec emax d) with (d - 53)
      by (rewrite <- Hfexp; f_equal; lia).
    rewrite Z.sub_diag.
    cbn [shr shr_record_of_loc loc_of_shr_record shr_m round_nearest_even].
    cbn [Zdigits2]. rewrite Hdig.
    replace (fexp prec emax d) with (d - 53)
      by (rewrite <- Hfexp; f_equal; lia).
    rewrite Z.sub_diag. cbn [shr shr_m].
    assert (Hle : (d - 53 <=? emax - prec) = true)
      by (apply Z.leb_le; unfold emax, prec; lia).
    rewrite Hle. split; [reflexivity|]. split; [lia|].
    rewrite Zpos_shift. f_equal. f_equal. lia.
Qed.

Lemma toInteger_ofZ (z : Z) :
  Z.abs z < 2 ^ 53 -> toInteger (ofZ z) = Some z.
Proof.
  intros Hz; unfold ofZ, binary_normalize.
  destruct z as [|p|p]; [reflexivity| |].
  - destruct (binary_round_small false p Hz) as [m [e [-> [He Hm]]]].
    cbn [toInteger]. f_equal.
    destruct (Z.leb_spec 0 e).
    + assert (e = 0) by lia; subst e. rewrite Z.shiftl_0_r. cbn in Hm. lia.
    + rewrite Z.shiftr_div_pow2, Hm by lia.
      apply Z.div_mul. apply Z.pow_nonzero; lia.
  - destruct (binary_round_small true p Hz) as [m [e [-> [He Hm]]]].
    cbn [toInteger]. f_equal.
    destruct (Z.leb_spec 0 e).
    + assert (e = 0) by lia; subst e. rewrite Z.shiftl_0_r. cbn in Hm. lia.
    + rewrite Z.shiftr_div_pow2, Hm by lia.
      rewrite Z.div_mul by (apply Z.pow_nonzero; lia). reflexivity.
Qed.

(** A positive integer below 2^53 is a positive finite number. *)
Lemma ofZ_positive (z : Z) :
  0 < z < 2 ^ 53 -> exists m e, ofZ z = S754_finite false m e.
Proof.
  intros Hz; destruct z as [|p|p]; try lia.
  destruct (binary_round_small false p (proj2 Hz)) as [m [e [H _]]].
  exists m, e; exact H.
Qed.

(** ** The date parsers, further *)

Lemma upto_forallb (f : Z -> bool) (n : nat) :
  forallb f (upto n) = true ->
  forall z, 0 <= z < Z.of_nat n -> f z = true.
Proof.
  intros H z Hz.
  apply (proj1 (forallb_forall f (upto n)) H).
  unfold upto; apply in_map_iff; exists (Z.to_nat z).
  split; [lia | apply in_seq; lia].
Qed.

(** What [takeDigits] does on a run of digits. *)
Lemma takeDigits_digitsOnly (s : string) : forall acc n,
  digitsOnly s = true ->
  takeDigits acc n s =
    (acc * 10 ^ Z.of_nat (String.length s) + digitsValue s,
     n + Z.of_nat (String.length s), "").
Proof.
  unfold digitsValue.
  induction s as [|a r IH]; intros acc n Hs.
  - cbn [takeDigits String.length fst]; f_equal; f_equal; cbn; lia.
  - cbn [digitsOnly] in Hs; apply andb_true_iff in Hs as [Ha Hr].
    cbn [takeDigits]; rewrite Ha.
    rewrite (IH (10 * acc + digitValue a) (n + 1) Hr).
    rewrite (IH (10 * 0 + digitValue a) (0 + 1) Hr); cbn [fst].
    cbn [String.length]; rewrite Nat2Z.inj_succ, Z.pow_succ_r by lia.
    f_equal; f_equal; lia.
Qed.

Lemma digitValue_range (a : ascii) :
  isDigit a = true -> 0 <= digitValue a <= 9.
Proof.
  unfold isDigit, digitValue; intros H.
  apply andb_true_iff in H as [H1 H2]; lia.
Qed.

Lemma digitsValue_range (s : string) :
  digitsOnly s = true ->
  0 <= digitsValue s < 10 ^ Z.of_nat (String.length s).
Proof.
  induction s as [|a r IH]; intros Hs; [cbn; lia|].
  pose proof Hs as Hs'.
  cbn [digitsOnly] in Hs; apply andb_true_iff in Hs as [Ha Hr].
  specialize (IH Hr).
  pose proof (digitValue_range a Ha) as Hd.
  unfold digitsValue at 1 2; cbn [takeDigits]; rewrite Ha.
  rewrite (takeDigits_digitsOnly r _ _ Hr); cbn [fst].
  cbn [String.length]; rewrite Nat2Z.inj_succ, Z.pow_succ_r by lia.
  nia.
Qed.

Lemma trimStart_digit (a : ascii) (r : string) :
  isDigit a = true -> trimStart (String a r) = String a r.
Proof.
  intros Ha; cbn [trimStart].
  replace (isWhiteSpace a) with false; [reflexivity|].
  unfold isDigit, isWhiteSpace in *.
  apply andb_true_iff in Ha as [H1 H2].
  symmetry; apply orb_false_iff; split; [apply orb_false_iff; split|].
  - apply andb_false_iff; right; lia.
  - lia.
  - lia.
Qed.

(** [parseInt] on a run of digits reads its decimal value. *)
Lemma parseInt_digits (s : string) :
  digitsOnly s = true -> s <> "" -> parseInt s = ofZ (digitsValue s).
Proof.
  intros Hs Hne; destruct s as [|a r]; [contradiction|].
  pose proof Hs as Hs'.
  cbn [digitsOnly] in Hs; apply andb_true_iff in Hs as [Ha Hr].
  unfold parseInt; rewrite (trimStart_digit a r Ha).
  assert (Hsign : takeSign (String a r) = (false, String a r)).
  { destruct a as [[] [] [] [] [] [] [] []]; try reflexivity; discriminate Ha. }
  rewrite Hsign.
  assert (Hbody :
    match String a r with
    | String "0" (String "x" rest) | String "0" (String "X" rest) =>
        takeHexDigits 0 0 rest
    | _ => takeDigits 0 0 (String a r)
    end = takeDigits 0 0 (String a r)).
  { destruct r as [|b r']; [destruct a as [[] [] [] [] [] [] [] []];
                            reflexivity|].
    cbn [digitsOnly] in Hr; apply andb_true_iff in Hr as [Hb _].
    destruct a as [[] [] [] [] [] [] [] []]; try reflexivity;
      destruct b as [[] [] [] [] [] [] [] []]; try reflexivity;
      discriminate Hb. }
  rewrite Hbody, (takeDigits_digitsOnly _ 0 0 Hs').
  cbn [String.length]; rewrite Nat2Z.inj_succ.
  destruct (Z.eqb_spec (0 + Z.succ (Z.of_nat (String.length r))) 0); [lia|].
  rewrite Z.mul_0_l, Z.add_0_l; reflexivity.
Qed.

Lemma isDigits_length (n : nat) (s : string) :
  isDigits n s = true -> String.length s = n.
Proof.
  unfold isDigits; intros H; apply andb_true_iff in H as [H _].
  apply Nat.eqb_eq, H.
Qed.

Lemma isDigits_nonempty (n : nat) (s : string) :
  isDigits (S n) s = true -> s <> "".
Proof. intros H ->; discriminate H. Qed.

(** The month number less one, for the months 0 to 99. *)
Lemma month_index (m : Z) :
  0 <= m < 100 -> toInteger (sub (ofZ m) (ofZ 1)) = Some (m - 1).
Proof.
  intros Hm.
  pose (f := fun m => match toInteger (sub (ofZ m) (ofZ 1)) with
                      | Some k => k =? m - 1
                      | None => false
                      end).
  assert (H : f m = true).
  { apply (upto_forallb f 100); [vm_compute; reflexivity | exact Hm]. }
  unfold f in H.
  destruct (toInteger (sub (ofZ m) (ofZ 1))); [|discriminate].
  apply Z.eqb_eq in H; congruence.
Qed.

Section DateParserProperties.

Variable LocalTZA : Z.

(** The date built from the three parts of a well-formed text. *)
Lemma newDate_digits (dd mm yyyy : string) :
  isDigits 2 dd = true -> isDigits 2 mm = true -> isDigits 4 yyyy = true ->
  newDate LocalTZA (parseInt yyyy) (sub (parseInt mm) (ofZ 1)) (parseInt dd) =
    midnightOf LocalTZA (digitsValue yyyy) (digitsValue mm) (digitsValue dd).
Proof.
  intros Hd Hm Hy.
  pose proof (isDigits_digitsOnly _ _ Hd) as Hd'.
  pose proof (isDigits_digitsOnly _ _ Hm) as Hm'.
  pose proof (isDigits_digitsOnly _ _ Hy) as Hy'.
  pose proof (digitsValue_range dd Hd') as Rd.
  pose proof (digitsValue_range mm Hm') as Rm.
  pose proof (digitsValue_range yyyy Hy') as Ry.
  rewrite (isDigits_length _ _ Hd) in Rd.
  rewrite (isDigits_length _ _ Hm) in Rm.
  rewrite (isDigits_length _ _ Hy) in Ry.
  change (10 ^ Z.of_nat 2) with 100 in Rd, Rm.
  change (10 ^ Z.of_nat 4) with 10000 in Ry.
  rewrite (parseInt_digits dd Hd' (isDigits_nonempty _ _ Hd)).
  rewrite (parseInt_digits mm Hm' (isDigits_nonempty _ _ Hm)).
  rewrite (parseInt_digits yyyy Hy' (isDigits_nonempty _ _ Hy)).
  assert (H53 : 10000 < 2 ^ 53) by reflexivity.
  rewrite (newDate_integers LocalTZA _ _ _ (digitsValue yyyy)
             (digitsValue mm - 1) (digitsValue dd)).
  - reflexivity.
  - apply toInteger_ofZ; lia.
  - apply month_index; lia.
  - apply toInteger_ofZ; lia.
Qed.

(** X1.  In a time zone of constant offset, on a well-formed text, in
    either convention, [parseDate] gives the local midnight of the day that
    the written year, month and day number stand for: a year below 100 is
    taken as 1900 plus the year, and a day or month out of range carries
    over into the neighbouring month or year. *)
Theorem parseDate_calendar_day :
  forall dd mm yyyy : string,
    isDigits 2 dd = true -> isDigits 2 mm = true -> isDigits 4 yyyy = true ->
    parseDate LocalTZA (dd ++ "/" ++ mm ++ "/" ++ yyyy) =
      Some (midnightOf LocalTZA (digitsValue yyyy) (digitsValue mm)
              (digitsValue dd)) /\
    parseDate LocalTZA (yyyy ++ "-" ++ mm ++ "-" ++ dd) =
      Some (midnightOf LocalTZA (digitsValue yyyy) (digitsValue mm)
              (digitsValue dd)).
Proof.
  intros dd mm yyyy Hd Hm Hy.
  pose proof (isDigits_digitsOnly _ _ Hd) as Hd'.
  pose proof (isDigits_digitsOnly _ _ Hm) as Hm'.
  pose proof (isDigits_digitsOnly _ _ Hy) as Hy'.
  pose proof (fun s => digitsOnly_excludes "/" s eq_refl) as Hslash.
  pose proof (fun s => digitsOnly_excludes "-" s eq_refl) as Hdash.
  rewrite parseDate_dmy, parseDate_ymd by auto.
  rewrite (newDate_digits dd mm yyyy Hd Hm Hy); split; reflexivity.
Qed.

End DateParserProperties.

Lemma parseDate_calendar_day_witness :
  parseDate BRT "00/03/0024" = parseDate BRT "29/02/1924" /\
  parseDate BRT "2024-13-01" = parseDate BRT "2025-01-01".
Proof.
  destruct (parseDate_calendar_day BRT "00" "03" "0024" eq_refl eq_refl
              eq_refl) as [H1 _].
  destruct (parseDate_calendar_day BRT "29" "02" "1924" eq_refl eq_refl
              eq_refl) as [H2 _].
  destruct (parseDate_calendar_day BRT "01" "13" "2024" eq_refl eq_refl
              eq_refl) as [_ H3].
  destruct (parseDate_calendar_day BRT "01" "01" "2025" eq_refl eq_refl
              eq_refl) as [_ H4].
  split.
  - etransitivity; [exact H1 | etransitivity; [|symmetry; exact H2]].
    vm_compute; reflexivity.
  - etransitivity; [exact H3 | etransitivity; [|symmetry; exact H4]].
    vm_compute; reflexivity.
Defined.

Section InputDateProperties.

Variable LocalTZA : Z.

(** X2.  [parseInputDate] answers null exactly for the empty text and for a
    text that does not hold exactly two dashes; any other text gives the
    date built from [parseInt] of its three parts, read as year, month and
    day. *)
Theorem parseInputDate_null_iff :
  forall s : string,
    (parseInputDate LocalTZA s = None <->
     s = "" \/ occurrences "-" s <> 2%nat) /\
    (occurrences "-" s = 2%nat ->
     parseInputDate LocalTZA s =
       Some (newDate LocalTZA
               (parseInt (nth_part (split "-" s) 0))
               (sub (parseInt (nth_part (split "-" s) 1)) (ofZ 1))
               (parseInt (nth_part (split "-" s) 2)))).
Proof.
  intros s; unfold parseInputDate.
  rewrite split_length.
  destruct (String.eqb_spec s "") as [->|Hne].
  - split; [split; auto | intros H; discriminate H].
  - destruct (Nat.eqb_spec (S (occurrences "-" s)) 3) as [H3|H3];
      cbn [negb].
    + split; [split; [discriminate|] | reflexivity].
      intros [H|H]; [contradiction | lia].
    + split; [split; [right; lia | reflexivity] | lia].
Qed.

(** X3.  On a text without a slash, the parser of the filter dates and the
    parser of the sheet dates agree, null results included. *)
Theorem parseInputDate_agrees_with_parseDate :
  forall s : string,
    includes "/" s = false ->
    parseInputDate LocalTZA s = parseDate LocalTZA s.
Proof.
  intros s Hslash; unfold parseInputDate, parseDate.
  destruct (String.eqb s ""); [reflexivity|].
  rewrite Hslash; cbn [andb].
  rewrite includes_occurrences, !split_length.
  destruct (Nat.eqb_spec (S (occurrences "-" s)) 3) as [H3|H3];
    cbn [negb].
  - replace (occurrences "-" s =? 0)%nat with false
      by (symmetry; apply Nat.eqb_neq; lia).
    reflexivity.
  - rewrite andb_false_r; reflexivity.
Qed.

(** A date that [new Date(y, m, d)] builds is a local midnight. *)
Lemma newDate_midnight (year month date : number) (t : Z) :
  newDate LocalTZA year month date = TimeValue t ->
  exists day, t = UTC LocalTZA (day * msPerDay) /\
              representableDay LocalTZA day.
Proof.
  unfold newDate.
  destruct (toInteger year) as [y|]; [|discriminate].
  destruct (toInteger month) as [m|]; [|discriminate].
  destruct (toInteger date) as [d|]; [|discriminate].
  set (day := MakeDay _ m d).
  unfold TimeClip.
  destruct (Z.leb_spec (Z.abs (UTC LocalTZA (day * msPerDay))) maxTime)
    as [Hin|]; [|discriminate].
  intros H; injection H as <-.
  exists day; split; [reflexivity | exact Hin].
Qed.

Lemma parseDate_midnight (s : string) (t : Z) :
  parseDate LocalTZA s = Some (TimeValue t) ->
  exists day, t = UTC LocalTZA (day * msPerDay) /\
              representableDay LocalTZA day.
Proof.
  destruct (parseDate_cases LocalTZA s) as [Hslash [Hdash Hnone]].
  destruct (Nat.eq_dec (occurrences "/" s) 2) as [H2|H2].
  - rewrite (Hslash H2); intros H; injection H as H.
    exact (newDate_midnight _ _ _ _ H).
  - destruct (Nat.eq_dec (occurrences "-" s) 2) as [H2'|H2'].
    + rewrite (Hdash H2 H2'); intros H; injection H as H.
      exact (newDate_midnight _ _ _ _ H).
    + rewrite (Hnone H2 H2'); discriminate.
Qed.

Lemma localDay_midnight (day : Z) :
  localDay LocalTZA (UTC LocalTZA (day * msPerDay)) = day.
Proof. unfold localDay; rewrite midnight_local; apply Day_midnight. Qed.

(** X4.  In a time zone of constant offset, a date that [parseDate]
    returns carries no time of day: it is the invalid date or the local
    midnight of its day.  So two parsed dates compare as their calendar days
    do, and are equal exactly when they fall on the same day. *)
Theorem parseDate_is_midnight :
  forall (s1 s2 : string) (t1 t2 : Z),
    parseDate LocalTZA s1 = Some (TimeValue t1) ->
    parseDate LocalTZA s2 = Some (TimeValue t2) ->
    TimeWithinDay (LocalTime LocalTZA t1) = 0 /\
    (t1 <= t2 <-> localDay LocalTZA t1 <= localDay LocalTZA t2) /\
    (t1 = t2 <-> localDay LocalTZA t1 = localDay LocalTZA t2).
Proof.
  intros s1 s2 t1 t2 H1 H2.
  apply parseDate_midnight in H1 as [d1 [-> _]].
  apply parseDate_midnight in H2 as [d2 [-> _]].
  rewrite !localDay_midnight, midnight_local, TimeWithinDay_midnight.
  unfold UTC, msPerDay; repeat split; intros; lia.
Qed.

End InputDateProperties.

Lemma parseInputDate_null_iff_witness :
  parseInputDate BRT "01/03/2024" = None /\
  parseInputDate BRT "2024-03-01" = Some (TimeValue 1709262000000).
Proof.
  split.
  - apply (proj1 (parseInputDate_null_iff BRT "01/03/2024")).
    right; vm_compute; discriminate.
  - etransitivity.
    + apply (proj2 (parseInputDate_null_iff BRT "2024-03-01")); reflexivity.
    + vm_compute; reflexivity.
Defined.

Lemma parseInputDate_agrees_with_parseDate_witness :
  parseInputDate BRT "2024-03-01" = parseDate BRT "2024-03-01" /\
  parseInputDate BRT "marco" = parseDate BRT "marco".
Proof.
  split; apply parseInputDate_agrees_with_parseDate; reflexivity.
Defined.

Lemma parseDate_is_midnight_witness :
  1709262000000 <= 1709348400000 <->
  localDay BRT 1709262000000 <= localDay BRT 1709348400000.
Proof.
  apply (parseDate_is_midnight BRT "01/03/2024" "2024-03-02");
    vm_compute; reflexivity.
Defined.

(** ** The currency parser, further *)

Lemma removeAll_removeAll (p q : ascii -> bool) (s : string) :
  (forall c, q c = true -> p c = true) ->
  removeAll p (removeAll q s) = removeAll p s.
Proof.
  intros Hsub; induction s as [|a r IH]; [reflexivity|].
  cbn [removeAll]; destruct (q a) eqn:Hq.
  - rewrite (Hsub a Hq); exact IH.
  - cbn [removeAll]; rewrite IH; reflexivity.
Qed.

Lemma removeAll_comm (p q : ascii -> bool) (s : string) :
  removeAll p (removeAll q s) = removeAll q (removeAll p s).
Proof.
  induction s as [|a r IH]; [reflexivity|].
  cbn [removeAll]; destruct (q a) eqn:Hq, (p a) eqn:Hp; cbn [removeAll];
    rewrite ?Hq, ?Hp, IH; reflexivity.
Qed.

Lemma removeAll_trimStart (p : ascii -> bool) (s : string) :
  (forall c, isWhiteSpace c = true -> p c = true) ->
  removeAll p (trimStart s) = removeAll p s.
Proof.
  intros Hws; induction s as [|a r IH]; [reflexivity|].
  cbn [trimStart]; destruct (isWhiteSpace a) eqn:Ha; [|reflexivity].
  cbn [removeAll]; rewrite (Hws a Ha); exact IH.
Qed.

Lemma removeAll_trimEnd (p : ascii -> bool) (s : string) :
  (forall c, isWhiteSpace c = true -> p c = true) ->
  removeAll p (trimEnd s) = removeAll p s.
Proof.
  intros Hws; induction s as [|a r IH]; [reflexivity|].
  cbn [trimEnd removeAll].
  destruct (trimEnd r) as [|b r'] eqn:Hr.
  - cbn [removeAll] in IH.
    destruct (isWhiteSpace a) eqn:Ha.
    + rewrite (Hws a Ha); exact IH.
    + cbn [removeAll]; rewrite <- IH; reflexivity.
  - cbn [removeAll]; rewrite <- IH; reflexivity.
Qed.

Lemma includes_removeAll (c : ascii) (q : ascii -> bool) (s : string) :
  q c = false -> includes c (removeAll q s) = includes c s.
Proof.
  intros Hc; induction s as [|a r IH]; [reflexivity|].
  cbn [removeAll includes]; destruct (q a) eqn:Hq.
  - rewrite IH.
    destruct (Ascii.eqb_spec a c) as [->|]; [congruence | reflexivity].
  - cbn [includes]; rewrite IH; reflexivity.
Qed.

Lemma whitespace_is_not_currency (c : ascii) :
  isWhiteSpace c = true -> negb (currencyChar c) = true.
Proof.
  destruct c as [[] [] [] [] [] [] [] []]; try discriminate; reflexivity.
Qed.

Lemma currencyChars_trim (s : string) :
  currencyChars (trim s) = currencyChars s.
Proof.
  unfold currencyChars, trim.
  rewrite removeAll_trimEnd, removeAll_trimStart;
    auto using whitespace_is_not_currency.
Qed.

Lemma notNumeric_of_not_currency (c : ascii) :
  negb (currencyChar c) = true -> notNumeric c = true.
Proof.
  unfold currencyChar, notNumeric; rewrite !negb_true_iff, !orb_false_iff.
  tauto.
Qed.

(** The comma branch sees the same text with or without the characters that
    are not part of an amount. *)
Lemma comma_branch_currencyChars (s : string) :
  removeAll notNumeric
    (replaceFirst "," "."
       (removeAll (fun c => Ascii.eqb c ".") (currencyChars s))) =
  removeAll notNumeric
    (replaceFirst "," "." (removeAll (fun c => Ascii.eqb c ".") s)).
Proof.
  unfold currencyChars.
  set (junk := fun c => negb (currencyChar c)).
  set (dot := fun c => Ascii.eqb c ".").
  induction s as [|a r IH]; [reflexivity|].
  cbn [removeAll].
  destruct (junk a) eqn:Hj.
  - assert (Hd : dot a = false)
      by (unfold junk, currencyChar, dot in *;
          destruct (Ascii.eqb a "."); [rewrite !orb_true_r in Hj;
                                       discriminate | reflexivity]).
    assert (Hc : Ascii.eqb a "," = false)
      by (unfold junk, currencyChar in Hj;
          destruct (Ascii.eqb a ","); [rewrite !orb_true_r in Hj;
                                       discriminate | reflexivity]).
    rewrite Hd; cbn [replaceFirst]; rewrite Hc; cbn [removeAll].
    rewrite (notNumeric_of_not_currency a Hj); exact IH.
  - cbn [removeAll]; destruct (dot a) eqn:Hd; [exact IH|].
    cbn [replaceFirst]; destruct (Ascii.eqb a ",") eqn:Hc.
    + cbn [removeAll]; change (notNumeric ".") with false; cbn iota.
      f_equal; rewrite (removeAll_comm dot junk).
      apply removeAll_removeAll, notNumeric_of_not_currency.
    + cbn [removeAll]; rewrite IH; reflexivity.
Qed.

Lemma cleanOf_currencyChars (s : string) :
  cleanOf (currencyChars s) = cleanOf s.
Proof.
  unfold cleanOf.
  assert (Hinc : includes "," (currencyChars s) = includes "," s)
    by (apply includes_removeAll; reflexivity).
  rewrite Hinc; destruct (includes "," s).
  - apply comma_branch_currencyChars.
  - apply removeAll_removeAll, notNumeric_of_not_currency.
Qed.

(** Trimming changes nothing of what [parseCurrency] reads. *)
Lemma currencyClean_cleanOf (s : string) : currencyClean s = cleanOf s.
Proof.
  change (currencyClean s) with (cleanOf (trim s)).
  rewrite <- (cleanOf_currencyChars (trim s)), currencyChars_trim.
  apply cleanOf_currencyChars.
Qed.

Lemma parseCurrency_cleanOf (val : string) :
  parseCurrency (TextInput val) = orElse (parseFloat (cleanOf val)) zero.
Proof.
  rewrite parseCurrency_text, currencyClean_cleanOf.
  destruct (String.eqb_spec val "") as [->|]; reflexivity.
Qed.

(** X5.  Whatever is not a digit, a dot, a comma or a minus sign (currency
    symbols, spaces, letters) has no effect on the amount read, wherever it
    stands in the text. *)
Theorem parseCurrency_ignores_other_characters :
  forall val : string,
    parseCurrency (TextInput (currencyChars val)) =
    parseCurrency (TextInput val).
Proof.
  intros val; rewrite !parseCurrency_cleanOf, cleanOf_currencyChars.
  reflexivity.
Qed.

(** X6.  In a text with a comma every dot is a thousands separator and is
    dropped, wherever it stands: the amount is that of the text without its
    dots. *)
Theorem parseCurrency_ignores_dots_with_comma :
  forall val : string,
    includes "," val = true ->
    parseCurrency (TextInput (removeAll (fun c => Ascii.eqb c ".") val)) =
    parseCurrency (TextInput val).
Proof.
  intros val Hc; rewrite !parseCurrency_cleanOf; unfold cleanOf.
  rewrite (includes_removeAll "," _ val eq_refl), Hc.
  rewrite (removeAll_removeAll _ _ val (fun c H => H)); reflexivity.
Qed.

Lemma parseCurrency_ignores_dots_with_comma_witness :
  parseCurrency (TextInput "1234,5.6") = parseCurrency (TextInput "1.234,56").
Proof.
  etransitivity;
    [|apply (parseCurrency_ignores_dots_with_comma "1.234,56"); reflexivity].
  etransitivity;
    [symmetry; apply (parseCurrency_ignores_dots_with_comma "1234,5.6");
     reflexivity|].
  reflexivity.
Defined.

(** ** The business-day calculator, further *)

Lemma dayRange_length (n : nat) : forall c, List.length (dayRange c n) = n.
Proof.
  induction n as [|n IH]; intros c; cbn [dayRange List.length];
    [reflexivity | rewrite IH; reflexivity].
Qed.

Lemma dayRange_app (n m : nat) : forall c,
  dayRange c (n + m) = dayRange c n ++ dayRange (c + Z.of_nat n) m.
Proof.
  induction n as [|n IH]; intros c.
  - cbn [dayRange app Nat.add]; rewrite Z.add_0_r; reflexivity.
  - cbn [dayRange app Nat.add]; rewrite IH.
    do 3 f_equal; lia.
Qed.

Lemma filter_length_le {A : Type} (f : A -> bool) (l : list A) :
  (List.length (filter f l) <= List.length l)%nat.
Proof.
  induction l as [|x l IH]; cbn [filter List.length]; [lia|].
  destruct (f x); cbn [List.length]; lia.
Qed.

(** Seven days in a row hold five week days, whatever the first one is. *)
Lemma week_has_five_weekdays (c : Z) :
  List.length (filter (fun d => negb (isWeekend d)) (dayRange c 7)) = 5%nat.
Proof.
  cbn [dayRange].
  replace (c + 1 + 1) with (c + 2) by lia.
  replace (c + 2 + 1) with (c + 3) by lia.
  replace (c + 3 + 1) with (c + 4) by lia.
  replace (c + 4 + 1) with (c + 5) by lia.
  replace (c + 5 + 1) with (c + 6) by lia.
  replace c with (c + 0) at 1 by lia.
  pose proof (Z.div_mod (c + 4) 7 ltac:(lia)) as Hdiv.
  pose proof (Z.mod_pos_bound (c + 4) 7 ltac:(lia)) as Hr.
  set (q := (c + 4) / 7) in *; set (r := (c + 4) mod 7) in *.
  assert (Hshift : forall i, isWeekend (c + i) =
                             ((r + i) mod 7 =? 0) || ((r + i) mod 7 =? 6)).
  { intros i; unfold isWeekend, weekdayOfDay.
    replace (c + i + 4) with (r + i + q * 7) by lia.
    rewrite Z.mod_add by lia; reflexivity. }
  cbn [filter]; rewrite !Hshift.
  assert (Hcases : r = 0 \/ r = 1 \/ r = 2 \/ r = 3 \/ r = 4 \/ r = 5 \/ r = 6)
    by lia.
  clearbody r; clear Hshift Hdiv Hr.
  destruct Hcases as [->|[->|[->|[->|[->|[->| ->]]]]]]; reflexivity.
Qed.

Lemma weeks_have_five_weekdays (n : nat) : forall c,
  List.length (filter (fun d => negb (isWeekend d)) (dayRange c (7 * n))) =
  (5 * n)%nat.
Proof.
  induction n as [|n IH]; intros c; [reflexivity|].
  replace (7 * S n)%nat with (7 + 7 * n)%nat by lia.
  rewrite dayRange_app, filter_app, length_app, week_has_five_weekdays, IH.
  lia.
Qed.

(** Taking one value out of a duplicate-free list. *)
Lemma filter_without (f : Z -> bool) (x : Z) (l : list Z) :
  NoDup l ->
  Z.of_nat (List.length (filter (fun d => f d && negb (d =? x)) l)) =
  Z.of_nat (List.length (filter f l)) -
  (if existsb (Z.eqb x) l && f x then 1 else 0).
Proof.
  induction 1 as [|y l Hnotin Hnd IH]; [reflexivity|].
  cbn [filter existsb].
  destruct (Z.eqb_spec x y) as [<-|Hne].
  - rewrite Z.eqb_refl; cbn [negb orb]; rewrite andb_false_r.
    assert (Hex : existsb (Z.eqb x) l = false).
    { apply not_true_iff_false; intros H.
      apply existsb_exists in H as [z [Hz Hxz]].
      apply Z.eqb_eq in Hxz; subst z; contradiction. }
    rewrite Hex in IH; cbn [andb] in IH.
    destruct (f x); cbn [List.length andb]; lia.
  - replace (y =? x) with false by (symmetry; apply Z.eqb_neq; congruence).
    cbn [negb orb]; rewrite andb_true_r.
    destruct (f y); cbn [List.length]; lia.
Qed.

Section BusinessDayFurther.

Variable LocalTZA : Z.

Lemma calculateBusinessDays_days (sday eday : Z) (holidays : list Date) :
  representableDay LocalTZA sday -> representableDay LocalTZA eday ->
  Forall wfDate holidays ->
  calculateBusinessDays LocalTZA (midnight LocalTZA sday)
    (midnight LocalTZA eday) holidays =
  businessDaysIn LocalTZA holidays sday eday.
Proof. apply calculateBusinessDays_midnights. Qed.

(** X7.  [calculateBusinessDays] is never negative and never more than the
    number of calendar days from the day of [start] to the day of [end]. *)
Theorem calculateBusinessDays_bounds :
  forall (start end_ : Z) (holidays : list Date),
    Z.abs start <= maxTime -> Z.abs end_ <= maxTime ->
    representableDay LocalTZA (localDay LocalTZA start) ->
    representableDay LocalTZA (localDay LocalTZA end_) ->
    Forall wfDate holidays ->
    0 <= calculateBusinessDays LocalTZA (TimeValue start) (TimeValue end_)
           holidays
      <= Z.max 0 (localDay LocalTZA end_ - localDay LocalTZA start + 1).
Proof.
  intros start end_ holidays Hs He Hrs Hre Hwf.
  unfold calculateBusinessDays.
  rewrite (businessDaysRun_spec LocalTZA start end_ holidays Hs He Hrs Hre Hwf).
  pose proof (filter_length_le (isBusinessDay LocalTZA holidays)
                (dayRange (localDay LocalTZA start)
                   (Z.to_nat (localDay LocalTZA end_
                              - localDay LocalTZA start + 1)))) as Hle.
  rewrite dayRange_length in Hle; lia.
Qed.

(** X8.  In a time zone of constant offset, counting over a period is
    counting over its two parts: for days [first <= middle < last], the
    business days of [first .. last] are those of [first .. middle] plus
    those of [middle + 1 .. last]. *)
Theorem calculateBusinessDays_split :
  forall (first middle last : Z) (holidays : list Date),
    first <= middle -> middle < last ->
    representableDay LocalTZA first -> representableDay LocalTZA last ->
    Forall wfDate holidays ->
    calculateBusinessDays LocalTZA (midnight LocalTZA first)
      (midnight LocalTZA last) holidays =
    calculateBusinessDays LocalTZA (midnight LocalTZA first)
      (midnight LocalTZA middle) holidays +
    calculateBusinessDays LocalTZA (midnight LocalTZA (middle + 1))
      (midnight LocalTZA last) holidays.
Proof.
  intros first middle last holidays H1 H2 Hf Hl Hwf.
  assert (Hm1 : representableDay LocalTZA middle)
    by (apply (representableDay_between LocalTZA first last); auto; lia).
  assert (Hm2 : representableDay LocalTZA (middle + 1))
    by (apply (representableDay_between LocalTZA first last); auto; lia).
  rewrite !calculateBusinessDays_days by auto.
  unfold businessDaysIn.
  replace (Z.to_nat (last - first + 1))
    with (Z.to_nat (middle - first + 1)
          + Z.to_nat (last - (middle + 1) + 1))%nat by lia.
  rewrite dayRange_app, filter_app, length_app, Nat2Z.inj_add.
  rewrite Z2Nat.id by lia.
  replace (first + (middle - first + 1)) with (middle + 1) by lia.
  reflexivity.
Qed.

End BusinessDayFurther.

Lemma dayRange_existsb (x first last : Z) :
  existsb (Z.eqb x) (dayRange first (Z.to_nat (last - first + 1))) =
  (first <=? x) && (x <=? last).
Proof.
  destruct ((first <=? x) && (x <=? last)) eqn:Hin.
  - apply andb_true_iff in Hin as [H1 H2].
    apply existsb_exists; exists x; split; [|apply Z.eqb_refl].
    apply dayRange_In; lia.
  - apply not_true_iff_false; intros Hex.
    apply existsb_exists in Hex as [y [Hy Hxy]].
    apply Z.eqb_eq in Hxy; subst y.
    apply dayRange_In in Hy.
    apply andb_false_iff in Hin as [H|H]; lia.
Qed.

Section HolidayProperties.

Variable LocalTZA : Z.

(** X9.  In a time zone of constant offset and without holidays, a period
    of whole weeks holds five business days per week, on whatever day of the
    week it starts. *)
Theorem calculateBusinessDays_whole_weeks :
  forall (first : Z) (weeks : nat),
    representableDay LocalTZA first ->
    representableDay LocalTZA (first + 7 * Z.of_nat weeks - 1) ->
    calculateBusinessDays LocalTZA (midnight LocalTZA first)
      (midnight LocalTZA (first + 7 * Z.of_nat weeks - 1)) [] =
    5 * Z.of_nat weeks.
Proof.
  intros first weeks Hf Hl.
  rewrite calculateBusinessDays_days by (auto; constructor).
  unfold businessDaysIn.
  replace (Z.to_nat (first + 7 * Z.of_nat weeks - 1 - first + 1))
    with (7 * weeks)%nat by lia.
  rewrite (filter_ext (isBusinessDay LocalTZA [])
             (fun d => negb (isWeekend d))).
  - rewrite weeks_have_five_weekdays; lia.
  - intros d; unfold isBusinessDay; cbn [holidayDays flat_map existsb negb].
    apply andb_true_r.
Qed.

(** X10.  In a time zone of constant offset, one more holiday takes exactly
    one day off the count when it falls within the period on a day that was
    a business day, and nothing otherwise (a weekend, a day outside the
    period, a day that is a holiday already); a holiday that is an invalid
    date never counts. *)
Theorem calculateBusinessDays_one_more_holiday :
  forall (first last h : Z) (holidays : list Date),
    representableDay LocalTZA first -> representableDay LocalTZA last ->
    Z.abs h <= maxTime -> Forall wfDate holidays ->
    let day := localDay LocalTZA h in
    calculateBusinessDays LocalTZA (midnight LocalTZA first)
      (midnight LocalTZA last) (TimeValue h :: holidays) =
    calculateBusinessDays LocalTZA (midnight LocalTZA first)
      (midnight LocalTZA last) holidays -
    (if (first <=? day) && (day <=? last) &&
        isBusinessDay LocalTZA holidays day then 1 else 0) /\
    calculateBusinessDays LocalTZA (midnight LocalTZA first)
      (midnight LocalTZA last) (InvalidDate :: holidays) =
    calculateBusinessDays LocalTZA (midnight LocalTZA first)
      (midnight LocalTZA last) holidays.
Proof.
  intros first last h holidays Hf Hl Hh Hwf day.
  assert (Hwf1 : Forall wfDate (TimeValue h :: holidays))
    by (constructor; [exact Hh | exact Hwf]).
  assert (Hwf2 : Forall wfDate (InvalidDate :: holidays))
    by (constructor; [exact I | exact Hwf]).
  rewrite !calculateBusinessDays_days by assumption.
  unfold businessDaysIn; split; [|reflexivity].
  rewrite <- dayRange_existsb.
  rewrite <- (filter_without (isBusinessDay LocalTZA holidays) day)
    by apply dayRange_NoDup.
  do 2 f_equal; apply filter_ext; intros d.
  unfold isBusinessDay; cbn [holidayDays flat_map app existsb].
  fold (holidayDays LocalTZA holidays); subst day.
  destruct (isWeekend d), (d =? localDay LocalTZA h),
    (existsb (Z.eqb d) (holidayDays LocalTZA holidays)); reflexivity.
Qed.

(** X11.  The loop of [calculateBusinessDays] ends on every input: the run
    stops on a date that is past the normalised end date (or is no date),
    within the iterations allotted, at most two more than the days from
    start to end.  Given the invalid date as start or as end it stops at
    once, and no day is counted. *)
Theorem calculateBusinessDays_terminates :
  forall (start end_ : Date) (holidays : list Date),
    dateLe (snd (businessDaysRun LocalTZA start end_ holidays))
           (setHoursZero LocalTZA (copyDate end_)) = false /\
    (start = InvalidDate \/ end_ = InvalidDate ->
     calculateBusinessDays LocalTZA start end_ holidays = 0).
Proof.
  intros start end_ holidays; split.
  - apply businessDaysRun_leaves_on_condition.
  - intros [->| ->]; apply calculateBusinessDays_invalid.
Qed.

End HolidayProperties.

Lemma representable_2024 (d : Z) :
  0 <= d <= 30000 -> representableDay BRT d.
Proof.
  intros Hd; unfold representableDay, UTC, BRT, msPerDay, maxTime; lia.
Qed.

Lemma calculateBusinessDays_bounds_witness :
  0 <= calculateBusinessDays BRT (TimeValue 1709316000000)
         (TimeValue 1709899200000) [TimeValue 1709521200000] <= 8.
Proof.
  assert (Hwf : forall t, Z.abs t <= 2000000000000 ->
                 Z.abs t <= maxTime /\
                 representableDay BRT (localDay BRT t)).
  { intros t Ht; unfold representableDay, localDay, UTC, LocalTime, Day, BRT.
    split; [unfold maxTime; lia|].
    assert (H := Z.mul_div_le (t + -10800000) msPerDay eq_refl).
    assert (H' := Z.mul_succ_div_gt (t + -10800000) msPerDay eq_refl).
    unfold msPerDay, maxTime in *; lia. }
  destruct (Hwf 1709316000000 ltac:(lia)) as [Ha Hra].
  destruct (Hwf 1709899200000 ltac:(lia)) as [Hb Hrb].
  apply (calculateBusinessDays_bounds BRT 1709316000000 1709899200000
           [TimeValue 1709521200000] Ha Hb Hra Hrb).
  repeat constructor; cbn; unfold maxTime; lia.
Defined.

(** March 2024 split after the 15th: 11 business days and 10. *)
Lemma calculateBusinessDays_split_witness :
  calculateBusinessDays BRT (midnight BRT 19783) (midnight BRT 19813) [] =
  calculateBusinessDays BRT (midnight BRT 19783) (midnight BRT 19797) [] +
  calculateBusinessDays BRT (midnight BRT 19798) (midnight BRT 19813) [].
Proof.
  apply (calculateBusinessDays_split BRT 19783 19797 19813 []);
    [lia | lia | apply representable_2024; lia
    | apply representable_2024; lia | constructor].
Defined.

(** Four weeks from Friday 1 March 2024. *)
Lemma calculateBusinessDays_whole_weeks_witness :
  calculateBusinessDays BRT (midnight BRT 19783) (midnight BRT 19810) [] = 20.
Proof.
  apply (calculateBusinessDays_whole_weeks BRT 19783 4);
    apply representable_2024; cbn; lia.
Defined.

(** Good Friday, 29 March 2024, taken out of March. *)
Lemma calculateBusinessDays_one_more_holiday_witness :
  calculateBusinessDays BRT (midnight BRT 19783) (midnight BRT 19813)
    [TimeValue 1711681200000] =
  calculateBusinessDays BRT (midnight BRT 19783) (midnight BRT 19813) [] - 1.
Proof.
  apply (calculateBusinessDays_one_more_holiday BRT 19783 19813
           1711681200000 []);
    [apply representable_2024; lia | apply representable_2024; lia
    | unfold maxTime; lia | constructor].
Defined.

(** ** The projection, further *)

Section ProjectionFurther.

Variable LocalTZA : Z.

(** X12.  A filter whose start or end is not in three parts separated by
    [-] is ignored: the projection is the one without a filter. *)
Theorem calculateProjection_unparsed_filter :
  forall (currentSales : number) (config : DatasConfig)
         (filterStart filterEnd : string),
    parseInputDate LocalTZA filterStart = None \/
    parseInputDate LocalTZA filterEnd = None ->
    calculateProjection LocalTZA currentSales config
      (Some filterStart) (Some filterEnd) =
    calculateProjection LocalTZA currentSales config None None.
Proof.
  intros sales config fs fe H.
  unfold calculateProjection.
  destruct (parseDate LocalTZA (dataInicial config)) as [s|]; [|reflexivity].
  destruct (parseDate LocalTZA (dataFinal config)) as [e|]; [|reflexivity].
  destruct (parseDate LocalTZA (dataAtual config)) as [c|]; [|reflexivity].
  replace (accumulationPeriod LocalTZA s c (Some fs) (Some fe))
    with (accumulationPeriod LocalTZA s c None None); [reflexivity|].
  unfold accumulationPeriod, given.
  destruct (String.eqb fs ""), (String.eqb fe ""); try reflexivity.
  destruct H as [H|H]; rewrite H; [reflexivity|].
  destruct (parseInputDate LocalTZA fs); reflexivity.
Qed.

(** X13.  A filter start in three parts that are not numbers (an invalid
    date) with a filter end in three parts makes the projection zero,
    whatever the sales and the configuration. *)
Theorem calculateProjection_invalid_filter_start :
  forall (currentSales : number) (config : DatasConfig)
         (filterStart filterEnd : string) (fEnd : Date),
    parseInputDate LocalTZA filterStart = Some InvalidDate ->
    parseInputDate LocalTZA filterEnd = Some fEnd ->
    calculateProjection LocalTZA currentSales config
      (Some filterStart) (Some filterEnd) = zero.
Proof.
  intros sales config fs fe fEnd Hs He.
  unfold calculateProjection.
  destruct (parseDate LocalTZA (dataInicial config)) as [s|]; [|reflexivity].
  destruct (parseDate LocalTZA (dataFinal config)) as [e|]; [|reflexivity].
  destruct (parseDate LocalTZA (dataAtual config)) as [c|]; [|reflexivity].
  assert (Hfs : fs <> "")
    by (intros ->; unfold parseInputDate in Hs; discriminate Hs).
  assert (Hfe : fe <> "")
    by (intros ->; unfold parseInputDate in He; discriminate He).
  apply String.eqb_neq in Hfs, Hfe.
  unfold accumulationPeriod, given; rewrite Hfs, Hfe, Hs, He.
  cbv zeta.
  rewrite (proj1 (calculateBusinessDays_invalid LocalTZA _ _)).
  reflexivity.
Qed.

(** X14.  A filter end in three parts that are not numbers (an invalid
    date) leaves the reference date as the end of the accumulation period,
    which starts on the filter start. *)
Theorem calculateProjection_invalid_filter_end :
  forall (currentSales : number) (config : DatasConfig)
         (filterStart filterEnd : string)
         (startMonth endMonth current fStart : Date),
    parseDate LocalTZA (dataInicial config) = Some startMonth ->
    parseDate LocalTZA (dataFinal config) = Some endMonth ->
    parseDate LocalTZA (dataAtual config) = Some current ->
    parseInputDate LocalTZA filterStart = Some fStart ->
    parseInputDate LocalTZA filterEnd = Some InvalidDate ->
    let holidays := parseHolidays LocalTZA (feriados config) in
    calculateProjection LocalTZA currentSales config
      (Some filterStart) (Some filterEnd) =
    projectionOver currentSales
      (calculateBusinessDays LocalTZA fStart current holidays)
      (calculateBusinessDays LocalTZA startMonth endMonth holidays).
Proof.
  intros sales config fs fe s e c fStart Hps Hpe Hpc Hs He holidays.
  rewrite (calculateProjection_from_counts LocalTZA sales config
             (Some fs) (Some fe) s e c Hps Hpe Hpc).
  assert (Hfs : fs <> "")
    by (intros ->; unfold parseInputDate in Hs; discriminate Hs).
  assert (Hfe : fe <> "")
    by (intros ->; unfold parseInputDate in He; discriminate He).
  apply String.eqb_neq in Hfs, Hfe.
  unfold accumulationPeriod, given; rewrite Hfs, Hfe, Hs, He.
  cbn [dateLt fst snd].
  reflexivity.
Qed.

End ProjectionFurther.

(** A filter typed with slashes is not in three parts separated by [-]. *)
Lemma calculateProjection_unparsed_filter_witness :
  calculateProjection BRT (ofZ 300) march2024
    (Some "01/03/2024") (Some "2024-03-15") =
  calculateProjection BRT (ofZ 300) march2024 None None.
Proof.
  apply (calculateProjection_unparsed_filter BRT (ofZ 300) march2024
           "01/03/2024" "2024-03-15").
  left; reflexivity.
Defined.

Lemma calculateProjection_invalid_filter_start_witness :
  calculateProjection BRT (ofZ 300) march2024
    (Some "a-b-c") (Some "2024-03-15") = zero.
Proof.
  apply (calculateProjection_invalid_filter_start BRT (ofZ 300) march2024
           "a-b-c" "2024-03-15" (TimeValue 1710471600000));
    reflexivity.
Defined.

Lemma calculateProjection_invalid_filter_end_witness :
  calculateProjection BRT (ofZ 300) march2024
    (Some "2024-02-26") (Some "a-b-c") =
  projectionOver (ofZ 300)
    (calculateBusinessDays BRT (TimeValue 1708916400000)
       (TimeValue 1709348400000) [])
    (calculateBusinessDays BRT (TimeValue 1709262000000)
       (TimeValue 1711854000000) []).
Proof.
  apply (calculateProjection_invalid_filter_end BRT (ofZ 300) march2024
           "2024-02-26" "a-b-c" (TimeValue 1709262000000)
           (TimeValue 1711854000000) (TimeValue 1709348400000)
           (TimeValue 1708916400000)); reflexivity.
Defined.

(** ** The aggregation, further *)

Lemma SFdiv_core_nonneg (m1 e1 m2 e2 : Z) :
  0 <= m1 -> 0 < m2 ->
  0 <= fst (fst (SFdiv_core_binary prec emax m1 e1 m2 e2)).
Proof.
  intros H1 H2; unfold SFdiv_core_binary.
  set (e' := Z.min _ _).
  set (s := (e1 - e2 - e')%Z).
  set (m' := match s with Z0 => m1 | Zpos _ => Z.shiftl m1 s | Zneg _ => 0 end).
  assert (Hm' : 0 <= m').
  { unfold m'; destruct s; try lia. apply Z.shiftl_nonneg; exact H1. }
  pose proof (Z.div_eucl_eq m' m2 ltac:(lia)) as Heq.
  pose proof (Z.mod_pos_bound m' m2 H2) as Hmod.
  unfold Z.modulo in Hmod.
  destruct (Z.div_eucl m' m2) as [q r]; cbn [fst].
  nia.
Qed.

Lemma div_not_NaN (x y : number) :
  isNaN x = false -> (exists m e, y = S754_finite false m e) ->
  isNaN (div x y) = false.
Proof.
  intros Hx [m [e ->]]; unfold div, SFdiv.
  destruct x as [sx|sx| |sx mx ex]; try reflexivity; try discriminate.
  pose proof (SFdiv_core_nonneg (Zpos mx) ex (Zpos m) e ltac:(lia) ltac:(lia))
    as Hq.
  destruct (SFdiv_core_binary prec emax (Zpos mx) ex (Zpos m) e)
    as [[mz ez] lz]; cbn [fst] in Hq.
  apply binary_round_aux_not_NaN; exact Hq.
Qed.

Lemma mul_not_NaN (x y : number) :
  isNaN x = false -> (exists s m e, y = S754_finite s m e) ->
  isNaN (mul x y) = false.
Proof.
  intros Hx [s [m [e ->]]]; unfold mul, SFmul.
  destruct x as [sx|sx| |sx mx ex]; try reflexivity; try discriminate.
  apply binary_round_aux_not_NaN; lia.
Qed.

Lemma ofZ_not_NaN (z : Z) : 0 <= z < 2 ^ 53 -> isNaN (ofZ z) = false.
Proof.
  intros Hz; destruct (Z.eq_dec z 0) as [->|Hne]; [reflexivity|].
  destruct (ofZ_positive z ltac:(lia)) as [m [e ->]]; reflexivity.
Qed.

(** A percentage of counts is a number. *)
Lemma pct_not_NaN (n total : Z) :
  0 <= n < 2 ^ 53 -> total < 2 ^ 53 -> isNaN (pct n total) = false.
Proof.
  intros Hn Ht; unfold pct.
  destruct (Z.ltb_spec 0 total) as [Hpos|Hle]; [|reflexivity].
  apply mul_not_NaN.
  - apply div_not_NaN; [apply ofZ_not_NaN, Hn | apply ofZ_positive; lia].
  - exists false; apply ofZ_positive; lia.
Qed.

(** The groups of the units of a duplicate-free list, by any unit column,
    share the records whose unit is listed. *)
Lemma groups_partition (key : CteData -> string) (data : list CteData)
    (units : list string) :
  NoDup units ->
  Permutation
    (flat_map (fun u => filter (fun d => String.eqb (key d) u) data) units)
    (filter (fun d => existsb (String.eqb (key d)) units) data).
Proof.
  induction 1 as [|u units Hnotin Hnd IH]; cbn [flat_map existsb].
  - induction data; [constructor | assumption].
  - eapply Permutation_trans;
      [apply Permutation_app_head, IH | apply filter_disjoint_app].
    intros d _ Hu Hex.
    apply String.eqb_eq in Hu.
    apply existsb_exists in Hex as [y [Hin Hy]].
    apply String.eqb_eq in Hy; subst; contradiction.
Qed.

Lemma flat_map_length_sum {A B : Type} (f : A -> list B) (l : list A) :
  Z.of_nat (List.length (flat_map f l)) =
  sumZ (map (fun x => Z.of_nat (List.length (f x))) l).
Proof.
  induction l as [|x l IH]; [reflexivity|].
  cbn [flat_map map]; rewrite length_app, Nat2Z.inj_add, IH.
  unfold sumZ; cbn [fold_right]; reflexivity.
Qed.

(** The records with a unit in the column [key] are those of the groups of
    the unit universe. *)
Lemma universe_covers (key : CteData -> string) (data : list CteData) :
  (forall d, In d data -> key d = coleta d \/ key d = entrega d) ->
  forall d, In d data ->
    existsb (String.eqb (key d)) (unitUniverse data) =
    negb (String.eqb (key d) "").
Proof.
  intros Hkey d Hd.
  destruct (String.eqb_spec (key d) "") as [He|Hne]; cbn [negb].
  - apply not_true_iff_false; intros Hex.
    apply existsb_exists in Hex as [u [Hin Hu]].
    apply String.eqb_eq in Hu; subst u.
    apply unitUniverse_In in Hin as [Hnon _]; contradiction.
  - apply existsb_exists; exists (key d).
    split; [|apply String.eqb_refl].
    apply unitUniverse_In; split; [exact Hne|]; exists d.
    destruct (Hkey d Hd) as [H|H]; rewrite H; auto.
Qed.

(** Three filters on different values of one column take no more than the
    whole list. *)
Lemma three_statuses_le (status : CteData -> string) (a b c : string)
    (l : list CteData) :
  a <> b -> a <> c -> b <> c ->
  count (fun d => String.eqb (status d) a) l +
  count (fun d => String.eqb (status d) b) l +
  count (fun d => String.eqb (status d) c) l <= Z.of_nat (List.length l).
Proof.
  intros Hab Hac Hbc; unfold count.
  induction l as [|d l IH]; [cbn; lia|].
  cbn [filter List.length].
  destruct (String.eqb_spec (status d) a) as [Ha|Ha];
    destruct (String.eqb_spec (status d) b) as [Hb|Hb];
    destruct (String.eqb_spec (status d) c) as [Hc|Hc];
    try congruence; cbn [List.length]; lia.
Qed.

Section AggregationFurther.

Variable LocalTZA : Z.

(** X15.  The table has one row per unit and no unit twice; a unit has a row
    exactly when it is the non-empty pickup or delivery unit of a record, so
    a unit that only has a target has none. *)
Theorem unitStats_rows :
  forall (data : list CteData) (meta : list MetaData) (datas : DatasConfig)
         (startDate endDate : option string),
    let units := map unit (unitStats LocalTZA data meta datas startDate endDate) in
    NoDup units /\
    forall u, In u units <->
              u <> "" /\
              exists d, In d data /\ (coleta d = u \/ entrega d = u).
Proof.
  intros data meta datas sd ed units.
  assert (Hunits : units = unitUniverse data).
  { unfold units, unitStats; rewrite map_map; cbn [unit unitStat].
    apply map_id. }
  rewrite Hunits; split;
    [apply unitUniverse_NoDup | intros u; apply unitUniverse_In].
Qed.

(** X16.  In every row the counts are consistent: the manifests without
    MDF-e are among the unit's manifests, the three deadline counts are
    among the unit's deliveries and never count a record twice, and the unit
    has at least one manifest or delivery. *)
Theorem unitStats_row_counts :
  forall (data : list CteData) (meta : list MetaData) (datas : DatasConfig)
         (startDate endDate : option string) (s : UnitStat),
    In s (unitStats LocalTZA data meta datas startDate endDate) ->
    0 <= semMdfe s <= totalManifestos s /\
    0 <= noPrazo s /\ 0 <= foraPrazo s /\ 0 <= semBaixa s /\
    noPrazo s + foraPrazo s + semBaixa s <= totalBaixas s /\
    1 <= totalManifestos s + totalBaixas s.
Proof.
  intros data meta datas sd ed s Hs.
  unfold unitStats in Hs; apply in_map_iff in Hs as [u [<- Hu]].
  cbn [unitStat semMdfe totalManifestos noPrazo foraPrazo semBaixa
       totalBaixas].
  split; [|split; [|split; [|split; [|split]]]].
  - unfold count; split; [lia|].
    apply inj_le, filter_length_le.
  - unfold count; lia.
  - unfold count; lia.
  - unfold count; lia.
  - pose proof (three_statuses_le statusPrazo "NO PRAZO" "FORA DO PRAZO"
                  "SEM BAIXA"
                  (filter (fun d => String.eqb (entrega d) u) data)
                  ltac:(discriminate) ltac:(discriminate)
                  ltac:(discriminate)); lia.
  - apply unitUniverse_In in Hu as [_ [d [Hd Hcase]]].
    assert (Hin : In d (vendasDocs data u) \/
                  In d (filter (fun d => String.eqb (entrega d) u) data)).
    { destruct Hcase as [H|H]; [left|right]; apply filter_In;
        (split; [exact Hd | apply String.eqb_eq, H]). }
    destruct Hin as [Hin|Hin];
      [destruct (vendasDocs data u) |
       destruct (filter (fun d => String.eqb (entrega d) u) data)];
      try contradiction; cbn [List.length]; lia.
Qed.

(** X17.  Over the rows, the manifests add up to the records with a pickup
    unit and the deliveries to the records with a delivery unit: every such
    record is counted in exactly one row of each column. *)
Theorem unitStats_count_totals :
  forall (data : list CteData) (meta : list MetaData) (datas : DatasConfig)
         (startDate endDate : option string),
    let stats := unitStats LocalTZA data meta datas startDate endDate in
    sumZ (map totalManifestos stats) = count hasPickup data /\
    sumZ (map totalBaixas stats) = count hasDelivery data.
Proof.
  intros data meta datas sd ed stats.
  unfold stats, unitStats; rewrite !map_map.
  cbn [unitStat totalManifestos totalBaixas]; unfold count, vendasDocs.
  split.
  - rewrite <- (flat_map_length_sum
                  (fun u => filter (fun d => String.eqb (coleta d) u) data)).
    rewrite (Permutation_length
               (groups_partition coleta data _ (unitUniverse_NoDup data))).
    do 2 f_equal; apply filter_ext_in; intros d Hd.
    apply (universe_covers coleta data); auto.
  - rewrite <- (flat_map_length_sum
                  (fun u => filter (fun d => String.eqb (entrega d) u) data)).
    rewrite (Permutation_length
               (groups_partition entrega data _ (unitUniverse_NoDup data))).
    do 2 f_equal; apply filter_ext_in; intros d Hd.
    apply (universe_covers entrega data); auto.
Qed.

(** X18.  The percentages of counts of a row are numbers, never NaN (an
    array holds fewer than 2^53 records). *)
Theorem unitStats_percentages_not_NaN :
  forall (data : list CteData) (meta : list MetaData) (datas : DatasConfig)
         (startDate endDate : option string) (s : UnitStat),
    Z.of_nat (List.length data) < 2 ^ 53 ->
    In s (unitStats LocalTZA data meta datas startDate endDate) ->
    isNaN (semMdfePct s) = false /\ isNaN (noPrazoPct s) = false /\
    isNaN (foraPrazoPct s) = false /\ isNaN (semBaixaPct s) = false.
Proof.
  intros data meta datas sd ed s Hlen Hs.
  unfold unitStats in Hs; apply in_map_iff in Hs as [u [<- Hu]].
  cbn [unitStat semMdfePct noPrazoPct foraPrazoPct semBaixaPct].
  assert (Hf : forall (p : CteData -> bool) l,
             Z.of_nat (List.length (filter p l)) <= Z.of_nat (List.length l))
    by (intros; apply inj_le, filter_length_le).
  pose proof (Hf (fun d => String.eqb (coleta d) u) data) as Hv.
  pose proof (Hf (fun d => String.eqb (entrega d) u) data) as Hb.
  unfold vendasDocs, count.
  repeat split; apply pct_not_NaN;
    match goal with
    | |- context [filter ?p (filter ?q data)] =>
        pose proof (Hf p (filter q data))
    | _ => idtac
    end; lia.
Qed.

End AggregationFurther.

Lemma unitStats_row_counts_witness :
  let s := unitStat BRT fourShipments [] march2024 None None "ACAILANDIA" in
  0 <= semMdfe s <= totalManifestos s /\
  0 <= noPrazo s /\ 0 <= foraPrazo s /\ 0 <= semBaixa s /\
  noPrazo s + foraPrazo s + semBaixa s <= totalBaixas s /\
  1 <= totalManifestos s + totalBaixas s.
Proof.
  apply (unitStats_row_counts BRT fourShipments [] march2024 None None).
  apply in_map; vm_compute; auto.
Defined.

Lemma unitStats_percentages_not_NaN_witness :
  let s := unitStat BRT fourShipments [] march2024 None None "BACABAL" in
  isNaN (semMdfePct s) = false /\ isNaN (noPrazoPct s) = false /\
  isNaN (foraPrazoPct s) = false /\ isNaN (semBaixaPct s) = false.
Proof.
  apply (unitStats_percentages_not_NaN BRT fourShipments [] march2024
           None None).
  - vm_compute; reflexivity.
  - apply in_map; vm_compute; auto.
Defined.

(** ** The record-level table, further *)

Section ArraySortStable.

Variable A : Type.
Variable comparefn : A -> A -> option Z.
Variable p : A -> bool.
Hypothesis same_class :
  forall x y, p x = true -> p y = true -> sortCompare comparefn x y <= 0.

Lemma sortInsert_stable (x : A) (l : list A) :
  filter p (sortInsert comparefn x l) =
  if p x then x :: filter p l else filter p l.
Proof.
  induction l as [|y l IH]; cbn [sortInsert filter].
  - destruct (p x); reflexivity.
  - destruct (Z.leb_spec (sortCompare comparefn x y) 0) as [Hle|Hgt];
      cbn [filter].
    + destruct (p x); reflexivity.
    + rewrite IH.
      destruct (p x) eqn:Hx, (p y) eqn:Hy; try reflexivity.
      pose proof (same_class x y Hx Hy); lia.
Qed.

(** The elements of one class keep the order they had. *)
Lemma arraySort_stable (l : list A) :
  filter p (arraySort comparefn l) = filter p l.
Proof.
  induction l as [|x l IH]; [reflexivity|].
  cbn [arraySort filter]; rewrite sortInsert_stable, IH; reflexivity.
Qed.

End ArraySortStable.

Lemma mdfePriority_rank (s : string) :
  isInherited s = false -> mdfePriority s = PNumber (mdfeRank s).
Proof.
  intros H; unfold mdfePriority, mdfeRank; cbn [lookupOr].
  rewrite (String.eqb_sym "SEM MDFE"), (String.eqb_sym "COM MDFE"), H.
  destruct (String.eqb s "SEM MDFE"); [reflexivity|].
  destruct (String.eqb s "COM MDFE"); reflexivity.
Qed.

Lemma isInherited_hasLower (s : string) :
  isInherited s = true -> hasLower s = true.
Proof.
  unfold isInherited; intros H.
  apply existsb_exists in H as [k [Hin Hk]].
  apply String.eqb_eq in Hk; subst k.
  cbn [objectPrototypeKeys In] in Hin.
  repeat (destruct Hin as [<-|Hin]; [reflexivity|]).
  contradiction.
Qed.

Lemma not_inherited_without_lower (s : string) :
  hasLower s = false -> isInherited s = false.
Proof.
  intros H; destruct (isInherited s) eqn:Hi; [|reflexivity].
  apply isInherited_hasLower in Hi; congruence.
Qed.

Section DetailTableFurther.

Variable LocalTZA : Z.

Lemma byPriority_byMdfeRank (a b : CteData) :
  isInherited (statusMdfe a) = false ->
  isInherited (statusMdfe b) = false ->
  byPriority LocalTZA mdfePriority statusMdfe a b = byMdfeRank LocalTZA a b.
Proof.
  intros Ha Hb; unfold byPriority, byMdfeRank, byEmission.
  rewrite (mdfePriority_rank _ Ha), (mdfePriority_rank _ Hb); reflexivity.
Qed.

Lemma byMdfeRank_le (a b : CteData) :
  sortCompare (byMdfeRank LocalTZA) a b <= 0 -> manifestOrder LocalTZA a b.
Proof.
  unfold sortCompare, byMdfeRank, manifestOrder.
  destruct (Z.eqb_spec (mdfeRank (statusMdfe a))
                       (mdfeRank (statusMdfe b))); cbn [negb]; lia.
Qed.

Lemma byMdfeRank_gt (a b : CteData) :
  0 < sortCompare (byMdfeRank LocalTZA) a b -> manifestOrder LocalTZA b a.
Proof.
  unfold sortCompare, byMdfeRank, manifestOrder.
  destruct (Z.eqb_spec (mdfeRank (statusMdfe a))
                       (mdfeRank (statusMdfe b))); cbn [negb]; lia.
Qed.

Lemma manifestOrder_trans (a b c : CteData) :
  manifestOrder LocalTZA a b -> manifestOrder LocalTZA b c ->
  manifestOrder LocalTZA a c.
Proof. unfold manifestOrder; lia. Qed.

(** The records with priorities, in the deadline view and in the manifest
    view, come out in the order of the view. *)
Lemma deadline_sorted (l : list CteData) :
  Forall (fun r => isInherited (statusPrazo r) = false) l ->
  StronglySorted (deadlineOrder LocalTZA)
    (arraySort (byPriority LocalTZA prazoPriority statusPrazo) l).
Proof.
  intros Hl; rewrite Forall_forall in Hl.
  rewrite (arraySort_ext _ (byRank LocalTZA))
    by (intros x y Hx Hy; apply byPriority_byRank; auto).
  apply arraySort_sorted;
    [exact (deadlineOrder_trans LocalTZA) | exact (byRank_le LocalTZA)
    | exact (byRank_gt LocalTZA)].
Qed.

Lemma manifest_sorted (l : list CteData) :
  Forall (fun r => isInherited (statusMdfe r) = false) l ->
  StronglySorted (manifestOrder LocalTZA)
    (arraySort (byPriority LocalTZA mdfePriority statusMdfe) l).
Proof.
  intros Hl; rewrite Forall_forall in Hl.
  rewrite (arraySort_ext _ (byMdfeRank LocalTZA))
    by (intros x y Hx Hy; apply byPriority_byMdfeRank; auto).
  apply arraySort_sorted;
    [exact manifestOrder_trans | exact byMdfeRank_le | exact byMdfeRank_gt].
Qed.

(** X19.  The sales view without a manual sort shows every record, whatever
    the status filter, by ascending emission date; a record whose date does
    not parse counts as the epoch; records of one date keep the order they
    had. *)
Theorem processedData_sales_order :
  forall (data : list CteData) (statusFilter : string),
    let rows := processedData LocalTZA data VENDAS statusFilter in
    Permutation rows data /\
    StronglySorted (emissionOrder LocalTZA) rows /\
    forall t : Z,
      filter (fun r => emissionTime LocalTZA r =? t) rows =
      filter (fun r => emissionTime LocalTZA r =? t) data.
Proof.
  intros data statusFilter rows; unfold rows, processedData.
  split; [apply arraySort_Permutation|split].
  - apply arraySort_sorted; unfold emissionOrder, sortCompare, byEmission;
      intros; lia.
  - intros t; apply arraySort_stable.
    intros x y Hx Hy; unfold sortCompare, byEmission.
    apply Z.eqb_eq in Hx, Hy; lia.
Qed.

(** X20.  The manifest view without a manual sort shows the records (all of
    them, or those whose manifest status is the selected filter) by
    ascending priority, "SEM MDFE" before "COM MDFE" before any other
    status, then by ascending emission date; records alike in both keep the
    order they had. *)
Theorem processedData_manifest_order :
  forall (data : list CteData) (statusFilter : string),
    Forall (fun r => isInherited (statusMdfe r) = false) data ->
    let shown :=
      if String.eqb statusFilter "TODOS" then data
      else filter (fun d => String.eqb (statusMdfe d) statusFilter) data in
    let rows := processedData LocalTZA data MANIFESTOS statusFilter in
    Permutation rows shown /\
    StronglySorted (manifestOrder LocalTZA) rows /\
    forall (k t : Z),
      let alike := fun r => (mdfeRank (statusMdfe r) =? k) &&
                            (emissionTime LocalTZA r =? t) in
      filter alike rows = filter alike shown.
Proof.
  intros data statusFilter Hdata shown rows.
  assert (Hshown : Forall (fun r => isInherited (statusMdfe r) = false) shown).
  { unfold shown; destruct (String.eqb statusFilter "TODOS"); [exact Hdata|].
    apply Forall_forall; intros r Hr; apply filter_In in Hr as [Hr _].
    exact (proj1 (Forall_forall _ _) Hdata r Hr). }
  assert (Hrows : rows = arraySort (byPriority LocalTZA mdfePriority statusMdfe)
                           shown).
  { unfold rows, processedData, shown.
    destruct (String.eqb statusFilter "TODOS"); reflexivity. }
  rewrite Hrows; split; [apply arraySort_Permutation|split].
  - apply manifest_sorted, Hshown.
  - intros k t alike.
    rewrite Forall_forall in Hshown.
    rewrite (arraySort_ext _ (byMdfeRank LocalTZA))
      by (intros x y Hx Hy; apply byPriority_byMdfeRank; auto).
    apply arraySort_stable.
    intros x y Hx Hy; unfold alike in Hx, Hy.
    apply andb_true_iff in Hx as [Hx1 Hx2], Hy as [Hy1 Hy2].
    apply Z.eqb_eq in Hx1, Hx2, Hy1, Hy2.
    unfold sortCompare, byMdfeRank.
    destruct (Z.eqb_spec (mdfeRank (statusMdfe x)) (mdfeRank (statusMdfe y)));
      cbn [negb]; lia.
Qed.

(** X21.  The records the data service builds always have the priorities
    the views expect: the normaliser upper-cases the statuses, so none names
    a member of [Object.prototype], and the deadline view and the manifest
    view of fetched records are in their order. *)
Theorem processedData_of_fetched_rows :
  forall (normalizeString : string -> string) (fields : list string)
         (rows : list RawRow) (statusFilter : string),
    (forall s, hasLower (normalizeString s) = false) ->
    let data := fetchBaseDataRows normalizeString fields rows in
    StronglySorted (deadlineOrder LocalTZA)
      (processedData LocalTZA data BAIXAS statusFilter) /\
    StronglySorted (manifestOrder LocalTZA)
      (processedData LocalTZA data MANIFESTOS statusFilter).
Proof.
  intros normalizeString fields rows statusFilter Hupper data.
  assert (Hdata : forall r, In r data ->
            isInherited (statusPrazo r) = false /\
            isInherited (statusMdfe r) = false).
  { intros r Hr; unfold data, fetchBaseDataRows in Hr.
    apply in_map_iff in Hr as [row [<- _]].
    cbn [toCteData statusPrazo statusMdfe].
    split; apply not_inherited_without_lower, Hupper. }
  unfold processedData; split.
  - apply deadline_sorted, Forall_forall; intros r Hr.
    apply Hdata.
    destruct (negb (String.eqb statusFilter "TODOS")); [|exact Hr].
    apply filter_In in Hr as [Hr _]; exact Hr.
  - apply manifest_sorted, Forall_forall; intros r Hr.
    apply Hdata.
    destruct (negb (String.eqb statusFilter "TODOS")); [|exact Hr].
    apply filter_In in Hr as [Hr _]; exact Hr.
Qed.

End DetailTableFurther.

Lemma asciiUpper_not_lower (c : ascii) : isLower (asciiUpper c) = false.
Proof.
  destruct c as [[] [] [] [] [] [] [] []]; vm_compute; reflexivity.
Qed.

Lemma asciiNormalize_upper (s : string) : hasLower (asciiNormalize s) = false.
Proof.
  unfold asciiNormalize.
  induction (trim (collapseSpaces false s)) as [|c r IH]; [reflexivity|].
  cbn [mapString hasLower]; rewrite asciiUpper_not_lower, IH; reflexivity.
Qed.

Lemma processedData_manifest_order_witness :
  StronglySorted (manifestOrder BRT)
    (processedData BRT deadlineSample MANIFESTOS "TODOS") /\
  map cte (processedData BRT deadlineSample MANIFESTOS "TODOS") =
    ["1"; "2"; "3"; "5"; "4"].
Proof.
  split; [|vm_compute; reflexivity].
  apply (processedData_manifest_order BRT deadlineSample "TODOS").
  repeat constructor.
Defined.

Lemma processedData_of_fetched_rows_witness :
  StronglySorted (deadlineOrder BRT)
    (processedData BRT
       (fetchBaseDataRows asciiNormalize baseFields
          [creditNoteRow; creditNoteRow])
       BAIXAS "TODOS").
Proof.
  apply (processedData_of_fetched_rows BRT asciiNormalize baseFields
           [creditNoteRow; creditNoteRow] "TODOS").
  exact asciiNormalize_upper.
Defined.

(** ** The dashboard *)

Lemma two_statuses_le (status : CteData -> string) (a b : string)
    (l : list CteData) :
  a <> b ->
  count (fun d => String.eqb (status d) a) l +
  count (fun d => String.eqb (status d) b) l <= Z.of_nat (List.length l).
Proof.
  intros Hab; unfold count.
  induction l as [|d l IH]; [cbn; lia|].
  cbn [filter List.length].
  destruct (String.eqb_spec (status d) a) as [Ha|Ha];
    destruct (String.eqb_spec (status d) b) as [Hb|Hb];
    try congruence; cbn [List.length]; lia.
Qed.

Section DashboardProperties.

Variable LocalTZA : Z.

Lemma parseInputDate_midnight (s : string) (t : Z) :
  parseInputDate LocalTZA s = Some (TimeValue t) ->
  exists day, t = UTC LocalTZA (day * msPerDay) /\
              representableDay LocalTZA day.
Proof.
  unfold parseInputDate.
  destruct (String.eqb s ""); [discriminate|].
  destruct (negb _); [discriminate|].
  intros H; injection H as H.
  exact (newDate_midnight _ _ _ _ _ H).
Qed.

Lemma parseInputDate_given (s : string) (d : Date) :
  parseInputDate LocalTZA s = Some d -> String.eqb s "" = false.
Proof.
  unfold parseInputDate; destruct (String.eqb s ""); [discriminate|reflexivity].
Qed.

(** X22.  With both filter dates set and valid, [filteredData] keeps, in
    their order, exactly the records emitted on a day from the start day to
    the end day, both included; a record whose emission date does not parse
    or is invalid is left out. *)
Theorem filteredData_window :
  forall (base : list CteData) (startDate endDate : string) (s e : Z),
    parseInputDate LocalTZA startDate = Some (TimeValue s) ->
    parseInputDate LocalTZA endDate = Some (TimeValue e) ->
    representableDay LocalTZA (localDay LocalTZA e + 1) ->
    filteredData LocalTZA base startDate endDate =
    filter (emittedWithin LocalTZA (localDay LocalTZA s)
              (localDay LocalTZA e)) base.
Proof.
  intros base sd ed s e Hs He Hrep.
  unfold filteredData.
  rewrite (parseInputDate_given _ _ Hs), (parseInputDate_given _ _ He), Hs, He.
  cbn [negb andb].
  apply parseInputDate_midnight in Hs as [ds [-> Hds]].
  apply parseInputDate_midnight in He as [de [-> Hde]].
  rewrite !localDay_midnight in *.
  cbn [setHoursEndOfDay]; rewrite midnight_local, Day_midnight.
  rewrite TimeClip_in_range
    by (unfold representableDay, UTC, msPerDay, maxTime in *; lia).
  apply filter_ext; intros d; unfold emittedWithin.
  destruct (parseDate LocalTZA (data d)) as [[|t]|] eqn:Hd; try reflexivity.
  apply parseDate_midnight in Hd as [dt [-> _]].
  rewrite localDay_midnight; cbn [dateLe].
  unfold UTC, msPerDay.
  destruct (Z.leb_spec ds dt), (Z.leb_spec dt de); cbn [andb];
    repeat match goal with
           | |- context [?a <=? ?b] => destruct (Z.leb_spec a b)
           end; cbn [andb]; try reflexivity; lia.
Qed.

(** X23.  A filter date in three parts that are not numbers is an invalid
    date, and with it as start or end no record is shown; a filter date not
    in three parts, or an empty one, leaves the records unfiltered. *)
Theorem filteredData_without_window :
  forall (base : list CteData) (startDate endDate : string),
    (parseInputDate LocalTZA startDate = None \/
     parseInputDate LocalTZA endDate = None ->
     filteredData LocalTZA base startDate endDate = base) /\
    (forall other : Date,
       (parseInputDate LocalTZA startDate = Some InvalidDate /\
        parseInputDate LocalTZA endDate = Some other) \/
       (parseInputDate LocalTZA startDate = Some other /\
        parseInputDate LocalTZA endDate = Some InvalidDate) ->
       filteredData LocalTZA base startDate endDate = []).
Proof.
  intros base sd ed; unfold filteredData; split.
  - intros [H|H]; rewrite H;
      destruct (negb (String.eqb sd "") && negb (String.eqb ed ""));
      try reflexivity.
    destruct (parseInputDate LocalTZA sd); reflexivity.
  - intros other [[Hs He]|[Hs He]];
      rewrite (parseInputDate_given _ _ Hs), (parseInputDate_given _ _ He),
        Hs, He; cbn [negb andb].
    + induction base as [|d base IH]; [reflexivity|].
      cbn [filter]; destruct (parseDate LocalTZA (data d)); exact IH.
    + cbn [setHoursEndOfDay].
      induction base as [|d base IH]; [reflexivity|].
      cbn [filter].
      destruct (parseDate LocalTZA (data d)) as [dd|]; [|exact IH].
      replace (dateLe other dd && dateLe dd InvalidDate) with false;
        [exact IH|].
      destruct (dateLe other dd), dd; reflexivity.
Qed.

Lemma lastEmission_invariant (base : list CteData) :
  forall (seen : list CteData) (acc : Z * string),
    ((fst acc = 0 /\ snd acc = "") \/
     (0 < fst acc /\
      parseDate LocalTZA (snd acc) = Some (TimeValue (fst acc)) /\
      exists d, In d seen /\ data d = snd acc)) ->
    (forall d t, In d seen ->
                 parseDate LocalTZA (data d) = Some (TimeValue t) ->
                 t <= fst acc) ->
    let final := fold_left (lastEmissionStep LocalTZA) base acc in
    ((fst final = 0 /\ snd final = "") \/
     (0 < fst final /\
      parseDate LocalTZA (snd final) = Some (TimeValue (fst final)) /\
      exists d, In d (seen ++ base) /\ data d = snd final)) /\
    (forall d t, In d (seen ++ base) ->
                 parseDate LocalTZA (data d) = Some (TimeValue t) ->
                 t <= fst final).
Proof.
  induction base as [|x base IH]; intros seen acc Hacc Hmax; cbv zeta.
  - cbn [fold_left]; rewrite app_nil_r; split; assumption.
  - cbn [fold_left].
    replace (seen ++ x :: base) with ((seen ++ [x]) ++ base)
      by (rewrite <- app_assoc; reflexivity).
    apply IH.
    + unfold lastEmissionStep.
      destruct (parseDate LocalTZA (data x)) as [[|ts]|] eqn:Hx.
      * destruct Hacc as [H|[H1 [H2 [d [Hd Hdd]]]]]; [left; exact H|].
        right; repeat split; auto.
        exists d; split; [apply in_or_app; left; exact Hd | exact Hdd].
      * destruct (Z.ltb_spec (fst acc) ts) as [Hlt|Hge]; cbn [fst snd].
        -- right; split; [destruct Hacc as [[H _]|[H _]]; lia|].
           split; [exact Hx|].
           exists x; split; [apply in_or_app; right; left|]; reflexivity.
        -- destruct Hacc as [H|[H1 [H2 [d [Hd Hdd]]]]]; [left; exact H|].
           right; repeat split; auto.
           exists d; split; [apply in_or_app; left; exact Hd | exact Hdd].
      * destruct Hacc as [H|[H1 [H2 [d [Hd Hdd]]]]]; [left; exact H|].
        right; repeat split; auto.
        exists d; split; [apply in_or_app; left; exact Hd | exact Hdd].
    + intros d t Hd Ht.
      assert (Hstep : fst acc <= fst (lastEmissionStep LocalTZA acc x)).
      { unfold lastEmissionStep.
        destruct (parseDate LocalTZA (data x)) as [[|ts]|]; try lia.
        destruct (Z.ltb_spec (fst acc) ts); cbn [fst]; lia. }
      apply in_app_or in Hd as [Hd|[<-|[]]].
      * pose proof (Hmax d t Hd Ht); lia.
      * unfold lastEmissionStep; rewrite Ht.
        destruct (Z.ltb_spec (fst acc) t); cbn [fst]; lia.
Qed.

(** X24.  [lastEmissionDate] is null exactly without records.  Otherwise it
    is the emission text of a record with the latest emission date, when a
    record has a date after the epoch, and the empty text when none has:
    dates that do not parse and dates up to the epoch are passed over. *)
Theorem lastEmissionDate_latest :
  forall base : list CteData,
    (lastEmissionDate LocalTZA base = None <-> base = []) /\
    forall text : string,
      lastEmissionDate LocalTZA base = Some text ->
      (text = "" /\
       forall d t, In d base ->
                   parseDate LocalTZA (data d) = Some (TimeValue t) ->
                   t <= 0) \/
      (exists ts, 0 < ts /\
         parseDate LocalTZA text = Some (TimeValue ts) /\
         (exists d, In d base /\ data d = text) /\
         forall d t, In d base ->
                     parseDate LocalTZA (data d) = Some (TimeValue t) ->
                     t <= ts).
Proof.
  intros base; split.
  - unfold lastEmissionDate; destruct base; split; intros H;
      try reflexivity; discriminate.
  - intros text Htext.
    assert (Hfold : text = snd (fold_left (lastEmissionStep LocalTZA) base
                                  (0, ""))).
    { unfold lastEmissionDate in Htext.
      destruct base; [discriminate|]; injection Htext as <-; reflexivity. }
    destruct (lastEmission_invariant base [] (0, ""))
      as [[[H0 He]|[Hpos [Hparse Hex]]] Hmax].
    + left; split; reflexivity.
    + intros d t [].
    + left; split; [rewrite Hfold; exact He|].
      intros d t Hd Ht; rewrite <- H0; exact (Hmax d t Hd Ht).
    + right; exists (fst (fold_left (lastEmissionStep LocalTZA) base (0, ""))).
      rewrite Hfold; repeat split; auto.
Qed.

(** X25.  For a unit, the cards of the dashboard and the unit's row of the
    managerial table show the same figures: sales, projection, target,
    deliveries and their three deadline counts, manifests without MDF-e.
    Only the manifest total may differ: the card adds the manifests with
    and without MDF-e, the row counts every record picked up at the unit. *)
Theorem metrics_agree_with_unitStat :
  forall (filtered : list CteData) (meta : list MetaData)
         (datas : DatasConfig) (startDate endDate : string)
         (selectedUnit : string),
    selectedUnit <> "" ->
    let m := metrics LocalTZA filtered meta datas startDate endDate
               selectedUnit in
    let s := unitStat LocalTZA filtered meta datas (Some startDate)
               (Some endDate) selectedUnit in
    metricsVendasTotal m = vendasTotal s /\
    metricsProjectedTotal m = projected s /\
    metricsMetaValue m = metaVal s /\
    statsTotal (metricsBaixasStats m) = totalBaixas s /\
    statsNoPrazo (metricsBaixasStats m) = noPrazo s /\
    statsForaPrazo (metricsBaixasStats m) = foraPrazo s /\
    statsSemBaixa (metricsBaixasStats m) = semBaixa s /\
    metricsManifestosSem m = semMdfe s /\
    metricsManifestosTotal m <= totalManifestos s.
Proof.
  intros filtered meta datas sd ed u Hu m s.
  apply String.eqb_neq in Hu.
  unfold m, s, metrics, unitStat, vendasDocs; rewrite Hu; cbn [orb].
  cbn [metricsVendasTotal metricsProjectedTotal metricsMetaValue
       metricsBaixasStats statsTotal statsNoPrazo statsForaPrazo
       statsSemBaixa metricsManifestosSem metricsManifestosTotal
       vendasTotal projected metaVal totalBaixas noPrazo foraPrazo semBaixa
       semMdfe totalManifestos].
  repeat split.
  apply two_statuses_le; discriminate.
Qed.

End DashboardProperties.

(** The first four days of March 2024 keep four of the five records. *)
Lemma filteredData_window_witness :
  filteredData BRT deadlineSample "2024-03-01" "2024-03-04" =
  filter (emittedWithin BRT (localDay BRT 1709262000000)
            (localDay BRT 1709521200000)) deadlineSample /\
  map cte (filteredData BRT deadlineSample "2024-03-01" "2024-03-04") =
  ["1"; "2"; "3"; "5"].
Proof.
  split; [|vm_compute; reflexivity].
  apply (filteredData_window BRT deadlineSample "2024-03-01" "2024-03-04"
           1709262000000 1709521200000); [reflexivity | reflexivity |].
  vm_compute; discriminate.
Defined.

Lemma filteredData_without_window_witness :
  filteredData BRT deadlineSample "01/03/2024" "2024-03-04" = deadlineSample /\
  filteredData BRT deadlineSample "a-b-c" "2024-03-04" = [].
Proof.
  split.
  - apply (proj1 (filteredData_without_window BRT deadlineSample
                    "01/03/2024" "2024-03-04")).
    left; reflexivity.
  - apply (proj2 (filteredData_without_window BRT deadlineSample
                    "a-b-c" "2024-03-04") (TimeValue 1709521200000)).
    left; split; reflexivity.
Defined.

Lemma lastEmissionDate_latest_witness :
  exists ts, 0 < ts /\
    parseDate BRT "05/03/2024" = Some (TimeValue ts) /\
    (exists d, In d deadlineSample /\ data d = "05/03/2024") /\
    forall d t, In d deadlineSample ->
                parseDate BRT (data d) = Some (TimeValue t) -> t <= ts.
Proof.
  destruct (proj2 (lastEmissionDate_latest BRT deadlineSample)
              "05/03/2024" eq_refl) as [[H _]|H];
    [discriminate H | exact H].
Defined.

Lemma metrics_agree_with_unitStat_witness :
  let m := metrics BRT fourShipments [] march2024 "" "" "BACABAL" in
  let s := unitStat BRT fourShipments [] march2024 (Some "") (Some "")
             "BACABAL" in
  metricsVendasTotal m = vendasTotal s /\
  metricsProjectedTotal m = projected s /\
  metricsMetaValue m = metaVal s /\
  statsTotal (metricsBaixasStats m) = totalBaixas s /\
  statsNoPrazo (metricsBaixasStats m) = noPrazo s /\
  statsForaPrazo (metricsBaixasStats m) = foraPrazo s /\
  statsSemBaixa (metricsBaixasStats m) = semBaixa s /\
  metricsManifestosSem m = semMdfe s /\
  metricsManifestosTotal m <= totalManifestos s.
Proof.
  apply (metrics_agree_with_unitStat BRT fourShipments [] march2024 "" ""
           "BACABAL").
  discriminate.
Defined.

(** ** The data service: users and calendar *)

Lemma trimStart_clean (s : string) :
  match s with
  | String a _ => isWhiteSpace a = false
  | EmptyString => True
  end -> trimStart s = s.
Proof.
  destruct s as [|a rest]; [reflexivity|].
  intros H; cbn [trimStart]; rewrite H; reflexivity.
Qed.

Lemma trimStart_starts_clean (s : string) :
  match trimStart s with
  | String a _ => isWhiteSpace a = false
  | EmptyString => True
  end.
Proof.
  induction s as [|a rest IH]; [exact I|].
  cbn [trimStart]; destruct (isWhiteSpace a) eqn:Ha; [exact IH | exact Ha].
Qed.

Lemma trimEnd_starts_clean (s : string) :
  match s with
  | String a _ => isWhiteSpace a = false
  | EmptyString => True
  end ->
  match trimEnd s with
  | String a _ => isWhiteSpace a = false
  | EmptyString => True
  end.
Proof.
  destruct s as [|a rest]; [intros; exact I|].
  intros Ha; cbn [trimEnd].
  destruct (trimEnd rest); [rewrite Ha|]; exact Ha.
Qed.

Lemma trimEnd_trimEnd (s : string) : trimEnd (trimEnd s) = trimEnd s.
Proof.
  induction s as [|a rest IH]; [reflexivity|].
  cbn [trimEnd].
  destruct (trimEnd rest) as [|b r] eqn:Hr.
  - destruct (isWhiteSpace a) eqn:Ha; [reflexivity|].
    cbn [trimEnd]; rewrite Ha; reflexivity.
  - change (trimEnd (String a (String b r))) with
      (match trimEnd (String b r) with
       | EmptyString => if isWhiteSpace a then EmptyString
                        else String a EmptyString
       | r' => String a r'
       end).
    rewrite IH; reflexivity.
Qed.

(** Trimming a trimmed text changes nothing. *)
Lemma trim_trim (s : string) : trim (trim s) = trim s.
Proof.
  unfold trim.
  rewrite (trimStart_clean (trimEnd (trimStart s)))
    by apply trimEnd_starts_clean, trimStart_starts_clean.
  apply trimEnd_trimEnd.
Qed.

Lemma truthyText_orEmpty (v : option string) :
  truthyText v = false -> orEmpty v = "".
Proof.
  destruct v as [t|]; [|reflexivity]; cbn [truthyText orEmpty].
  destruct (String.eqb_spec t ""); [auto | discriminate].
Qed.

Section DataServiceProperties.

Variable normalizeString : string -> string.

(** X26.  Every user that [fetchUsers] returns comes from a row of the
    sheet and has a name and a password that are not empty and carry no
    white space at either end: a row whose name or password is missing or
    blank gives no user. *)
Theorem fetchUsers_credentials :
  forall (data : list RawRow) (u : Usuario),
    In u (fetchUsersRows normalizeString data) ->
    (exists row, In row data /\ u = toUsuario normalizeString row) /\
    usuario u <> "" /\ senha u <> "" /\
    trim (usuario u) = usuario u /\ trim (senha u) = senha u.
Proof.
  intros data u Hu; unfold fetchUsersRows in Hu.
  apply filter_In in Hu as [Hin Hkeep].
  apply in_map_iff in Hin as [row [Hrow Hin]].
  apply andb_true_iff in Hkeep as [H1 H2].
  apply negb_true_iff, String.eqb_neq in H1, H2.
  split; [exists row; auto|].
  split; [exact H1|split; [exact H2|]].
  subst u; cbn [toUsuario usuario senha]; split; apply trim_trim.
Qed.

(** X27.  When the first row of the calendar sheet has no first day or no
    last day of the period, or none of the three reference-date columns
    (the column is missing or its cell is empty), every projection computed
    with that calendar is zero. *)
Theorem calculateProjection_without_calendar_dates :
  forall (fallback : DatasConfig) (firstRow : RawRow) (rest : list RawRow),
    truthyText (getKey normalizeString firstRow "DATA INICIAL") = false \/
    truthyText (getKey normalizeString firstRow "DATA FINAL") = false \/
    (truthyText (getKey normalizeString firstRow "DATA ONTEM") = false /\
     truthyText (getKey normalizeString firstRow "DATA ATUAL") = false /\
     truthyText (getKey normalizeString firstRow "DATAATUAL") = false) ->
    forall (LocalTZA : Z) (currentSales : number)
           (filterStartDate filterEndDate : option string),
      calculateProjection LocalTZA currentSales
        (fetchDatasConfigRows normalizeString fallback (firstRow :: rest))
        filterStartDate filterEndDate = zero.
Proof.
  intros fallback firstRow rest H tz sales fs fe.
  unfold calculateProjection, fetchDatasConfigRows.
  cbn [dataInicial dataFinal dataAtual].
  destruct H as [H|[H|[H1 [H2 H3]]]].
  - rewrite (truthyText_orEmpty _ H); reflexivity.
  - rewrite (truthyText_orEmpty _ H).
    destruct (parseDate tz _); reflexivity.
  - unfold firstOf3; rewrite H1, H2, (truthyText_orEmpty _ H3).
    destruct (parseDate tz _); [|reflexivity].
    destruct (parseDate tz _); reflexivity.
Qed.

End DataServiceProperties.

Lemma fetchUsers_credentials_witness :
  map usuario (fetchUsersRows asciiNormalize userRows) = ["ana"; "gil"] /\
  map senha (fetchUsersRows asciiNormalize userRows) = ["s3nha"; "42"] /\
  trim "ana" = "ana".
Proof.
  split; [vm_compute; reflexivity|].
  split; [vm_compute; reflexivity|].
  apply (fetchUsers_credentials asciiNormalize userRows
           {| usuario := "ana"; senha := "s3nha"; unidade := "SAO LUIS" |}).
  vm_compute; auto.
Defined.

Lemma calculateProjection_without_calendar_dates_witness :
  calculateProjection BRT (ofZ 300)
    (fetchDatasConfigRows asciiNormalize march2024 calendarRows)
    None None = zero.
Proof.
  apply (calculateProjection_without_calendar_dates asciiNormalize march2024
           [("DATA INICIAL", ""); ("DATA FINAL", "31/03/2024");
            ("DATA ONTEM", "02/03/2024"); ("FERIADOS", "29/03/2024")] []).
  left; reflexivity.
Defined.

(** ** The date inputs: a round trip *)

(** The first day of a year is never far from the mean calendar. *)
Lemma DayFromYear_mean (y : Z) :
  -506 <= 400 * DayFromYear y - 146097 * (y - 1970) <= 589.
Proof. unfold DayFromYear; Z.div_mod_to_equations; lia. Qed.

Lemma DayFromYear_next (y : Z) :
  DayFromYear (y + 1) =
  DayFromYear y + 365 + (if InLeapYear y then 1 else 0).
Proof.
  unfold DayFromYear, InLeapYear.
  destruct (Z.eqb_spec (y mod 4) 0), (Z.eqb_spec (y mod 100) 0),
    (Z.eqb_spec (y mod 400) 0); cbn [negb andb orb];
    Z.div_mod_to_equations; lia.
Qed.

(** [YearFromDay] is YearFromTime: the day lies in the year it names. *)
Lemma YearFromDay_spec (day : Z) :
  DayFromYear (YearFromDay day) <= day < DayFromYear (YearFromDay day + 1).
Proof.
  unfold YearFromDay.
  set (a := 400 * day / 146097).
  assert (Ha : 146097 * a <= 400 * day < 146097 * (a + 1))
    by (unfold a; Z.div_mod_to_equations; lia).
  pose proof (DayFromYear_mean (1970 + a - 1)).
  pose proof (DayFromYear_mean (1970 + a)).
  pose proof (DayFromYear_mean (1970 + a + 1)).
  pose proof (DayFromYear_mean (1970 + a + 1 + 1)).
  destruct (Z.ltb_spec day (DayFromYear (1970 + a))).
  - replace (1970 + a - 1 + 1) with (1970 + a) by lia; lia.
  - destruct (Z.leb_spec (DayFromYear (1970 + a + 1)) day); lia.
Qed.

Lemma DayWithinYear_range (day : Z) :
  0 <= DayWithinYear day <
  365 + (if InLeapYear (YearFromDay day) then 1 else 0).
Proof.
  unfold DayWithinYear.
  pose proof (YearFromDay_spec day) as H.
  rewrite DayFromYear_next in H; lia.
Qed.

Lemma MonthFromDay_range (day : Z) : 0 <= MonthFromDay day <= 11.
Proof.
  unfold MonthFromDay.
  repeat match goal with
         | |- context [if ?a <? ?b then _ else _] => destruct (a <? b)
         end; lia.
Qed.

Lemma DateFromDay_range (day : Z) : 1 <= DateFromDay day <= 31.
Proof.
  pose proof (DayWithinYear_range day) as Hd.
  unfold DateFromDay, MonthFromDay.
  destruct (InLeapYear (YearFromDay day));
    repeat match goal with
           | |- context [if ?a <? ?b then _ else _] =>
               destruct (Z.ltb_spec a b)
           end; cbn [daysBeforeMonth]; lia.
Qed.

(** The year, month and day of a day number make that day. *)
Lemma MakeDay_of_day (day : Z) :
  MakeDay (YearFromDay day) (MonthFromDay day) (DateFromDay day) = day.
Proof.
  pose proof (MonthFromDay_range day) as Hm.
  unfold MakeDay, DateFromDay, DayWithinYear.
  rewrite Z.div_small, Z.mod_small, Z.add_0_r by lia.
  lia.
Qed.

Lemma YearFromDay_bound (day : Z) :
  Z.abs day <= 200000000 -> Z.abs (YearFromDay day) < 1000000.
Proof.
  intros Hd.
  pose proof (YearFromDay_spec day) as H.
  pose proof (DayFromYear_mean (YearFromDay day)).
  pose proof (DayFromYear_mean (YearFromDay day + 1)).
  lia.
Qed.

Lemma digitChar_spec (d : Z) :
  0 <= d <= 9 ->
  isDigit (ascii_of_N (Z.to_N (48 + d))) = true /\
  digitValue (ascii_of_N (Z.to_N (48 + d))) = d.
Proof.
  intros Hd.
  assert (H : d = 0 \/ d = 1 \/ d = 2 \/ d = 3 \/ d = 4 \/ d = 5 \/ d = 6 \/
              d = 7 \/ d = 8 \/ d = 9) by lia.
  repeat (destruct H as [->|H]; [split; reflexivity|]).
  subst d; split; reflexivity.
Qed.

Lemma digitsOnly_app (a b : string) :
  digitsOnly (a ++ b)%string = digitsOnly a && digitsOnly b.
Proof.
  induction a as [|x a IH]; [reflexivity|].
  cbn [append digitsOnly]; rewrite IH, andb_assoc; reflexivity.
Qed.

Lemma digitsValue_cons (a : ascii) (r : string) :
  isDigit a = true -> digitsOnly r = true ->
  digitsValue (String a r) =
  digitValue a * 10 ^ Z.of_nat (String.length r) + digitsValue r.
Proof.
  intros Ha Hr; unfold digitsValue at 1; cbn [takeDigits]; rewrite Ha.
  rewrite (takeDigits_digitsOnly r _ _ Hr); cbn [fst]; f_equal; lia.
Qed.

Lemma length_append (a b : string) :
  String.length (a ++ b)%string = (String.length a + String.length b)%nat.
Proof.
  induction a as [|x a IH]; [reflexivity|].
  cbn [append String.length]; rewrite IH; reflexivity.
Qed.

Lemma digitsValue_snoc (ds : string) (c : ascii) :
  digitsOnly ds = true -> isDigit c = true ->
  digitsValue (ds ++ String c "") = 10 * digitsValue ds + digitValue c.
Proof.
  intros Hds Hc; induction ds as [|a r IH].
  - cbn [append]; rewrite digitsValue_cons by auto.
    cbn [String.length]; change (digitsValue "") with 0; cbn; lia.
  - cbn [digitsOnly] in Hds; apply andb_true_iff in Hds as [Ha Hr].
    cbn [append].
    rewrite !digitsValue_cons; auto;
      [|rewrite digitsOnly_app, Hr; cbn [digitsOnly]; rewrite Hc; reflexivity].
    rewrite (IH Hr), length_append; cbn [String.length].
    rewrite Nat2Z.inj_add, Z.pow_add_r by lia.
    change (10 ^ Z.of_nat 1) with 10; lia.
Qed.

Lemma append_cons_assoc (a : string) (c : ascii) (b : string) :
  ((a ++ String c "") ++ b = a ++ String c b)%string.
Proof.
  induction a as [|x a IH]; [reflexivity|].
  cbn [append]; rewrite IH; reflexivity.
Qed.

(** The digits written are digits, and read back as the number. *)
Lemma decimalDigits_spec (fuel : nat) : forall (n : Z) (tail : string),
  0 <= n < 10 ^ Z.of_nat (S fuel) ->
  exists ds, decimalDigits (S fuel) n tail = (ds ++ tail)%string /\
             digitsOnly ds = true /\ ds <> "" /\ digitsValue ds = n.
Proof.
  induction fuel as [|fuel IH]; intros n tail Hn;
    pose proof (Z.mod_pos_bound n 10 ltac:(lia)) as Hmod;
    destruct (digitChar_spec (n mod 10) ltac:(lia)) as [Hdig Hval];
    cbn [decimalDigits];
    set (c := ascii_of_N (Z.to_N (48 + n mod 10))) in *;
    (destruct (Z.ltb_spec n 10) as [Hlt|Hge];
     [exists (String c ""); split; [reflexivity|];
      split; [cbn [digitsOnly]; rewrite Hdig; reflexivity|];
      split; [discriminate|];
      rewrite digitsValue_cons by auto;
      change (digitsValue "") with 0; cbn [String.length];
      rewrite Hval, Z.mod_small by lia; cbn; lia|]).
  - cbn in Hn; lia.
  - assert (Hdiv : 0 <= n / 10 < 10 ^ Z.of_nat (S fuel)).
    { rewrite Nat2Z.inj_succ, Z.pow_succ_r in Hn by lia.
      Z.div_mod_to_equations; lia. }
    destruct (IH (n / 10) (String c tail) Hdiv) as [ds [Heq [Hds [Hne Hv]]]].
    exists (ds ++ String c "")%string; split;
      [rewrite <- append_cons_assoc in Heq; exact Heq|].
    split; [rewrite digitsOnly_app, Hds; cbn [digitsOnly]; rewrite Hdig;
            reflexivity|].
    split; [destruct ds; [contradiction | discriminate]|].
    rewrite digitsValue_snoc, Hv, Hval by auto.
    Z.div_mod_to_equations; lia.
Qed.

Lemma append_empty (s : string) : (s ++ "")%string = s.
Proof. induction s as [|a r IH]; [reflexivity|]; cbn; rewrite IH; reflexivity. Qed.

Lemma numberToString_natural (n : Z) :
  0 <= n ->
  digitsOnly (numberToString (Some n)) = true /\
  numberToString (Some n) <> "" /\
  digitsValue (numberToString (Some n)) = n.
Proof.
  intros Hn; unfold numberToString.
  destruct (Z.ltb_spec n 0); [lia|].
  assert (Hfuel : 0 <= n < 10 ^ Z.of_nat (S (Z.to_nat (Z.log2 n)))).
  { split; [exact Hn|].
    rewrite Nat2Z.inj_succ, Z2Nat.id by apply Z.log2_nonneg.
    destruct (Z.eq_dec n 0) as [->|Hne]; [cbn; lia|].
    pose proof (Z.log2_spec n ltac:(lia)) as [_ Hup].
    pose proof (Z.log2_nonneg n).
    assert (2 ^ Z.succ (Z.log2 n) <= 10 ^ Z.succ (Z.log2 n))
      by (apply Z.pow_le_mono_l; lia).
    lia. }
  destruct (decimalDigits_spec _ n "" Hfuel) as [ds [Heq [Hds [Hne Hv]]]].
  rewrite Heq, append_empty; auto.
Qed.

Lemma padStart_digits (ds : string) :
  digitsOnly ds = true -> ds <> "" ->
  digitsOnly (padStart 2 "0" ds) = true /\ padStart 2 "0" ds <> "" /\
  digitsValue (padStart 2 "0" ds) = digitsValue ds.
Proof.
  intros Hds Hne; unfold padStart.
  destruct ds as [|a [|b r]]; [contradiction| |].
  - cbn [String.length Nat.sub repeatChar append].
    split; [cbn [digitsOnly] in *; exact Hds|].
    split; [discriminate|].
    rewrite (digitsValue_cons "0") by auto.
    change (digitValue "0") with 0; lia.
  - cbn [String.length Nat.sub repeatChar append]; auto.
Qed.

Section DateInputProperties.

Variable LocalTZA : Z.

Lemma parseInputDate_ymd (dd mm yyyy : string) :
  includes "-" dd = false -> includes "-" mm = false ->
  includes "-" yyyy = false ->
  parseInputDate LocalTZA (yyyy ++ "-" ++ mm ++ "-" ++ dd) =
    Some (newDate LocalTZA (parseInt yyyy)
            (sub (parseInt mm) (ofZ 1)) (parseInt dd)).
Proof.
  intros Hd Hm Hy; unfold parseInputDate.
  assert (Hin : includes "-" (yyyy ++ "-" ++ mm ++ "-" ++ dd) = true).
  { rewrite includes_app; cbn [append includes Ascii.eqb Bool.eqb orb].
    apply orb_true_r. }
  rewrite (includes_nonempty _ _ Hin).
  cbn [append].
  rewrite (split_at_separator "-" yyyy _ Hy).
  rewrite (split_at_separator "-" mm _ Hm).
  rewrite (split_without_separator "-" dd Hd).
  reflexivity.
Qed.

(** X28.  The date inputs are filled with [formatDateForInput] of the
    calendar dates, and [parseInputDate] reads back from them the very date
    that [parseDate] read from the sheet, null and invalid dates included,
    for every date from the year 100 on (in a zone within a day of UTC). *)
Theorem formatDateForInput_round_trip :
  forall dateStr : string,
    Z.abs LocalTZA <= msPerDay ->
    (forall t, parseDate LocalTZA dateStr = Some (TimeValue t) ->
               100 <= YearFromDay (localDay LocalTZA t)) ->
    parseInputDate LocalTZA (formatDateForInput LocalTZA dateStr) =
    parseDate LocalTZA dateStr.
Proof.
  intros s Hzone Hyear; unfold formatDateForInput.
  destruct (parseDate LocalTZA s) as [[|t]|] eqn:Hs; [| |reflexivity].
  - cbn [getFullYear getMonth getDate option_map numberToString].
    reflexivity.
  - specialize (Hyear t eq_refl).
    destruct (parseDate_midnight LocalTZA s t Hs) as [day [-> Hrep]].
    rewrite localDay_midnight in Hyear.
    cbn [getFullYear getMonth getDate option_map].
    rewrite midnight_local, Day_midnight.
    pose proof (MonthFromDay_range day) as Hm.
    pose proof (DateFromDay_range day) as Hd.
    assert (Hday : Z.abs day <= 200000000)
      by (unfold representableDay, UTC, msPerDay, maxTime in *; lia).
    pose proof (YearFromDay_bound day Hday) as Hy.
    destruct (numberToString_natural (YearFromDay day) ltac:(lia))
      as [Hy1 [Hy2 Hy3]].
    destruct (numberToString_natural (MonthFromDay day + 1) ltac:(lia))
      as [Hm1 [Hm2 Hm3]].
    destruct (numberToString_natural (DateFromDay day) ltac:(lia))
      as [Hd1 [Hd2 Hd3]].
    destruct (padStart_digits _ Hm1 Hm2) as [Hm1' [Hm2' Hm3']].
    destruct (padStart_digits _ Hd1 Hd2) as [Hd1' [Hd2' Hd3']].
    rewrite parseInputDate_ymd
      by (apply digitsOnly_excludes; auto).
    rewrite !parseInt_digits by auto.
    rewrite Hm3', Hd3', Hy3, Hm3, Hd3.
    rewrite (newDate_integers LocalTZA _ _ _ (YearFromDay day)
               (MonthFromDay day) (DateFromDay day)).
    + replace ((0 <=? YearFromDay day) && (YearFromDay day <=? 99))
        with false by (symmetry; apply andb_false_iff; right;
                       apply Z.leb_gt; lia).
      rewrite MakeDay_of_day.
      rewrite TimeClip_in_range by exact Hrep.
      reflexivity.
    + apply toInteger_ofZ; lia.
    + rewrite month_index by lia; f_equal; lia.
    + apply toInteger_ofZ; lia.
Qed.

End DateInputProperties.

Lemma formatDateForInput_round_trip_witness :
  formatDateForInput BRT "01/03/2024" = "2024-03-01" /\
  parseInputDate BRT (formatDateForInput BRT "01/03/2024") =
  parseDate BRT "01/03/2024".
Proof.
  split; [vm_compute; reflexivity|].
  apply (formatDateForInput_round_trip BRT "01/03/2024");
    [vm_compute; discriminate|].
  intros t Ht; vm_compute in Ht.
  injection Ht as <-; vm_compute; discriminate.
Defined.

(** Before the year 100 the round trip fails: month -11 of the year 100 is
    January of the year 99, which the date input reads back as 1999. *)
Lemma formatDateForInput_early_year :
  formatDateForInput BRT "01/-11/100" = "99-01-01" /\
  parseInputDate BRT "99-01-01" <> parseDate BRT "01/-11/100".
Proof. split; [vm_compute; reflexivity | vm_compute; discriminate]. Qed.

(** ** The units of the search box *)

Lemma ascii_compare_lt_le (a b c : ascii) :
  Ascii.compare a b = Lt -> Ascii.compare b c <> Gt ->
  Ascii.compare a c = Lt.
Proof.
  unfold Ascii.compare; rewrite N.compare_le_iff, !N.compare_lt_iff.
  intros H1 H2; exact (N.lt_le_trans _ _ _ H1 H2).
Qed.

Lemma string_leb_trans (a b c : string) :
  String.leb a b = true -> String.leb b c = true -> String.leb a c = true.
Proof.
  unfold String.leb.
  revert b c; induction a as [|x a IH]; intros [|y b] [|z c];
    cbn [String.compare]; try discriminate; try reflexivity.
  specialize (IH b c).
  destruct (Ascii.compare x y) eqn:Hxy; try discriminate;
    destruct (Ascii.compare y z) eqn:Hyz; try discriminate.
  - apply Ascii.compare_eq_iff in Hxy, Hyz; subst.
    replace (Ascii.compare z z) with Eq
      by (symmetry; unfold Ascii.compare; apply N.compare_refl).
    exact IH.
  - apply Ascii.compare_eq_iff in Hxy; subst; rewrite Hyz; reflexivity.
  - apply Ascii.compare_eq_iff in Hyz; subst; rewrite Hxy; reflexivity.
  - rewrite (ascii_compare_lt_le x y z Hxy) by (rewrite Hyz; discriminate).
    reflexivity.
Qed.

(** X29.  The units offered by the search box are the non-empty pickup and
    delivery units of the records, each once, in ascending order of their
    code units. *)
Theorem allUnits_sorted :
  forall base : list CteData,
    StronglySorted (fun a b => String.leb a b = true) (allUnits base) /\
    NoDup (allUnits base) /\
    forall u, In u (allUnits base) <->
              u <> "" /\
              exists d, In d base /\ (coleta d = u \/ entrega d = u).
Proof.
  intros base; unfold allUnits.
  pose proof (arraySort_Permutation _ defaultCompare (unitUniverse base))
    as Hperm.
  split; [|split].
  - apply arraySort_sorted.
    + exact string_leb_trans.
    + intros a b; unfold sortCompare, defaultCompare, String.leb.
      destruct (String.compare a b); [reflexivity | reflexivity | lia].
    + intros a b; unfold sortCompare, defaultCompare, String.leb.
      rewrite (String.compare_antisym a b).
      destruct (String.compare b a); cbn [CompOpp]; intros H;
        try lia; reflexivity.
  - apply (Permutation_NoDup (Permutation_sym Hperm)), unitUniverse_NoDup.
  - intros u; rewrite <- unitUniverse_In; split; intros H.
    + exact (Permutation_in _ Hperm H).
    + exact (Permutation_in _ (Permutation_sym Hperm) H).
Qed.

(** ** The projection: its sign *)

Lemma binary_round_aux_signClear (m e : Z) (l : location) :
  signClear (binary_round_aux prec emax false m e l) = true.
Proof.
  unfold binary_round_aux.
  destruct (shr_fexp prec emax m e l) as [mrs e'].
  destruct (shr_fexp prec emax _ e' loc_Exact) as [mrs' e''].
  destruct (shr_m mrs'); [reflexivity| |reflexivity].
  destruct (e'' <=? emax - prec); reflexivity.
Qed.

Lemma ofZ_signClear (z : Z) : 0 <= z -> signClear (ofZ z) = true.
Proof.
  intros Hz; unfold ofZ, binary_normalize.
  destruct z as [|p|p]; [reflexivity| |lia].
  unfold binary_round.
  destruct (shl_align p 0 _) as [mz ez].
  apply binary_round_aux_signClear.
Qed.

Lemma div_not_negative (x y : number) :
  isNegative x = false -> signClear y = true ->
  isNegative (div x y) = false.
Proof.
  intros Hx Hy; unfold div, SFdiv.
  destruct x as [sx|sx| |sx mx ex], y as [sy|sy| |sy my ey];
    try reflexivity;
    try (destruct sy; [discriminate Hy|]);
    try (destruct sx; try discriminate Hx; reflexivity).
  destruct sx; [discriminate Hx|]; cbn [xorb].
  destruct (SFdiv_core_binary prec emax (Zpos mx) ex (Zpos my) ey)
    as [[mz ez] lz].
  apply binary_round_aux_not_negative.
Qed.

Lemma mul_not_negative (x y : number) :
  isNegative x = false -> signClear y = true ->
  isNegative (mul x y) = false.
Proof.
  intros Hx Hy; unfold mul, SFmul.
  destruct x as [sx|sx| |sx mx ex], y as [sy|sy| |sy my ey];
    try reflexivity;
    try (destruct sy; [discriminate Hy|]);
    try (destruct sx; try discriminate Hx; reflexivity).
  destruct sx; [discriminate Hx|]; cbn [xorb].
  apply binary_round_aux_not_negative.
Qed.

Section ProjectionSign.

Variable LocalTZA : Z.

Lemma businessDaysLoop_count (fuel : nat) :
  forall (endDate : Date) (hs : list DateString) (cur : Date) (count : Z),
    count <= fst (businessDaysLoop LocalTZA fuel endDate hs cur count)
          <= count + Z.of_nat fuel.
Proof.
  induction fuel as [|fuel IH]; intros endDate hs cur count.
  - cbn [businessDaysLoop fst]; lia.
  - cbn [businessDaysLoop].
    destruct (dateLe cur endDate); [|cbn [fst]; lia].
    cbv zeta.
    match goal with
    | |- context [businessDaysLoop LocalTZA fuel endDate hs ?c ?n] =>
        pose proof (IH endDate hs c n) as H;
        assert (count <= n <= count + 1)
    end.
    { destruct (match getDay LocalTZA cur with
                | Some n => negb (n =? 0) && negb (n =? 6)
                | None => true
                end); [|lia].
      destruct (negb _); lia. }
    lia.
Qed.

(** The count is a natural number that a [number] holds exactly. *)
Lemma calculateBusinessDays_range (start end_ : Date) (holidays : list Date) :
  0 <= calculateBusinessDays LocalTZA start end_ holidays < 2 ^ 53.
Proof.
  unfold calculateBusinessDays, businessDaysRun.
  match goal with
  | |- context [businessDaysLoop LocalTZA ?f ?e ?hs ?c 0] =>
      pose proof (businessDaysLoop_count f e hs c 0) as H;
      assert (Hf : Z.of_nat f <= 200000002)
  end.
  { destruct (setHoursZero LocalTZA (copyDate start)) as [|a] eqn:Hs;
      [cbn; lia|].
    destruct (setHoursZero LocalTZA (copyDate end_)) as [|b] eqn:He;
      [cbn; lia|].
    apply setHoursZero_midnight in Hs as [sday [-> Hrs]].
    apply setHoursZero_midnight in He as [eday [-> Hre]].
    rewrite loopFuel_midnights.
    unfold representableDay, UTC, msPerDay, maxTime in Hrs, Hre; lia. }
  lia.
Qed.

(** X30.  Sales that are not negative never project to a negative figure,
    and no sales project to zero, whatever the calendar and the filter. *)
Theorem calculateProjection_sign :
  forall (config : DatasConfig) (filterStartDate filterEndDate : option string),
    (forall currentSales : number,
       isNegative currentSales = false ->
       isNegative (calculateProjection LocalTZA currentSales config
                     filterStartDate filterEndDate) = false) /\
    calculateProjection LocalTZA zero config filterStartDate filterEndDate =
    zero.
Proof.
  intros config fs fe; unfold calculateProjection.
  destruct (parseDate LocalTZA (dataInicial config)) as [s|];
    [|split; reflexivity].
  destruct (parseDate LocalTZA (dataFinal config)) as [e|];
    [|split; reflexivity].
  destruct (parseDate LocalTZA (dataAtual config)) as [c|];
    [|split; reflexivity].
  cbv zeta.
  destruct (accumulationPeriod LocalTZA s c fs fe) as [ps pe].
  set (holidays := parseHolidays LocalTZA (feriados config)).
  pose proof (calculateBusinessDays_range ps pe holidays) as Hpassed.
  pose proof (calculateBusinessDays_range s e holidays) as Htotal.
  destruct (Z.eqb_spec (calculateBusinessDays LocalTZA ps pe holidays) 0)
    as [H0|Hne]; [split; reflexivity|].
  split.
  - intros sales Hsales.
    apply mul_not_negative; [|apply ofZ_signClear; lia].
    apply div_not_negative; [exact Hsales | apply ofZ_signClear; lia].
  - destruct (ofZ_positive (calculateBusinessDays LocalTZA ps pe holidays)
                ltac:(lia)) as [m [ex ->]].
    cbn [div SFdiv zero xorb].
    destruct (Z.eq_dec (calculateBusinessDays LocalTZA s e holidays) 0)
      as [->|Hpos]; [reflexivity|].
    destruct (ofZ_positive (calculateBusinessDays LocalTZA s e holidays)
                ltac:(lia)) as [m' [ex' ->]].
    reflexivity.
Qed.

End ProjectionSign.

Lemma calculateProjection_sign_witness :
  isNegative (calculateProjection BRT (ofZ 300) march2024 None None) = false.
Proof.
  apply (proj1 (calculateProjection_sign BRT march2024 None None) (ofZ 300)).
  reflexivity.
Defined.

Lemma calculateBusinessDays_terminates_witness :
  calculateBusinessDays BRT InvalidDate (TimeValue 1709262000000) [] = 0.
Proof.
  apply (proj2 (calculateBusinessDays_terminates BRT InvalidDate
                  (TimeValue 1709262000000) [])).
  left; reflexivity.
Defined.

(** ** Whole amounts add without rounding *)

Lemma iter_pos_iter {A : Type} (f : A -> A) (n : positive) :
  forall x, iter_pos f n x = Pos.iter f x n.
Proof.
  induction n as [n IH|n IH|]; intros x; cbn [iter_pos Pos.iter].
  - rewrite !IH, <- !Pos.iter_swap; reflexivity.
  - rewrite !IH; reflexivity.
  - reflexivity.
Qed.

(** Shifting out bits that are zero loses nothing. *)
Lemma shr_trailing_zeros (n : positive) : forall r : positive,
  iter_pos shr_1 n
    {| shr_m := Zpos (Pos.iter xO r n); shr_r := false; shr_s := false |} =
  {| shr_m := Zpos r; shr_r := false; shr_s := false |}.
Proof.
  intros r; rewrite iter_pos_iter.
  induction n as [|n IH] using Pos.peano_ind.
  - reflexivity.
  - rewrite Pos.iter_succ_r, Pos.iter_succ.
    cbn [shr_1 orb]; exact IH.
Qed.

(** A mantissa of 53 digits followed by [n] zero bits rounds to itself. *)
Lemma binary_round_aux_full (s : bool) (r : positive) (e : Z) :
  Zpos (digits2_pos r) = 53 -> -1074 <= e <= 971 ->
  binary_round_aux prec emax s (Zpos r) e loc_Exact = S754_finite s r e.
Proof.
  intros Hd He.
  assert (Hshift : fexp prec emax (Zdigits2 (Zpos r) + e) - e = 0)
    by (cbn [Zdigits2]; unfold fexp, emin, prec, emax; lia).
  unfold binary_round_aux, shr_fexp.
  rewrite Hshift; cbn [shr shr_record_of_loc loc_of_shr_record shr_m
                       round_nearest_even].
  rewrite Hshift; cbn [shr shr_m].
  replace (e <=? emax - prec) with true
    by (symmetry; apply Z.leb_le; unfold emax, prec; lia).
  reflexivity.
Qed.

Lemma binary_round_aux_zeros (s : bool) (r n : positive) (e : Z) :
  Zpos (digits2_pos r) = 53 -> -1074 <= e + Zpos n <= 971 ->
  binary_round_aux prec emax s (Zpos (Pos.iter xO r n)) e loc_Exact =
  S754_finite s r (e + Zpos n).
Proof.
  intros Hd He.
  assert (Hshift : fexp prec emax (Zdigits2 (Zpos (Pos.iter xO r n)) + e) - e
                   = Zpos n).
  { cbn [Zdigits2]; rewrite digits2_pos_shift, Pos2Z.inj_add.
    unfold fexp, emin, prec, emax; lia. }
  assert (Hshift' : fexp prec emax (Zdigits2 (Zpos r) + (e + Zpos n))
                    - (e + Zpos n) = 0)
    by (cbn [Zdigits2]; unfold fexp, emin, prec, emax; lia).
  unfold binary_round_aux, shr_fexp.
  rewrite Hshift; cbn [shr shr_record_of_loc].
  rewrite shr_trailing_zeros.
  cbn [loc_of_shr_record shr_m round_nearest_even].
  rewrite Hshift'; cbn [shr shr_m].
  replace (e + Zpos n <=? emax - prec) with true
    by (symmetry; apply Z.leb_le; unfold emax, prec; lia).
  reflexivity.
Qed.

Lemma digits2_pos_upper (p : positive) :
  Zpos p < 2 ^ Zpos (digits2_pos p).
Proof.
  induction p as [p IH|p IH|]; cbn [digits2_pos]; [| |cbn; lia];
    rewrite Pos2Z.inj_succ, Z.pow_succ_r by lia; lia.
Qed.

Lemma digits2_small (p : positive) :
  Zpos p < 2 ^ 53 -> 1 <= Zpos (digits2_pos p) <= 53.
Proof.
  intros Hp; pose proof (digits2_pos_lower p) as Hlow.
  split; [lia|].
  destruct (Z_le_dec (Zpos (digits2_pos p)) 53); auto.
  assert (2 ^ 53 <= 2 ^ (Zpos (digits2_pos p) - 1))
    by (apply Z.pow_le_mono_r; lia).
  lia.
Qed.

Lemma fullMantissa_digits (p : positive) :
  Zpos p < 2 ^ 53 -> Zpos (digits2_pos (fullMantissa p)) = 53.
Proof.
  intros Hp; pose proof (digits2_small p Hp) as Hd; unfold fullMantissa.
  destruct (53 - Zpos (digits2_pos p)) as [|j|j] eqn:Hj; try lia.
  rewrite digits2_pos_shift, Pos2Z.inj_add; lia.
Qed.

(** An integer [p] below 2^53 written with [k] more zero bits and the
    exponent [-k] rounds to the one number that [p] is. *)
Lemma binary_round_scaled (s : bool) (p : positive) (k : Z) (q : positive) :
  Zpos p < 2 ^ 53 -> 0 <= k -> Zpos q = Zpos p * 2 ^ k ->
  binary_round prec emax s q (- k) =
  S754_finite s (fullMantissa p) (Zpos (digits2_pos p) - 53).
Proof.
  intros Hp Hk Hq.
  pose proof (digits2_small p Hp) as Hd.
  pose proof (fullMantissa_digits p Hp) as Hfull.
  set (d := Zpos (digits2_pos p)) in *.
  assert (Hqd : Zpos (digits2_pos q) = d + k).
  { destruct k as [|k'|k']; [| |lia].
    - rewrite Z.pow_0_r, Z.mul_1_r in Hq; injection Hq as ->; unfold d; lia.
    - rewrite <- Zpos_shift in Hq; injection Hq as ->.
      rewrite digits2_pos_shift, Pos2Z.inj_add; reflexivity. }
  unfold binary_round.
  replace (fexp prec emax (Zpos (digits2_pos q) + - k)) with (d - 53)
    by (rewrite Hqd; unfold fexp, emin, prec, emax; lia).
  unfold shl_align.
  destruct (d - 53 - - k) as [|n|j] eqn:Hn.
  - (* no shift: q has 53 digits *)
    assert (q = fullMantissa p) as ->.
    { unfold fullMantissa; fold d.
      destruct k as [|k'|k']; [| |lia].
      - replace (53 - d) with 0 by lia.
        rewrite Z.pow_0_r, Z.mul_1_r in Hq; injection Hq as ->; reflexivity.
      - replace (53 - d) with (Zpos k') by lia.
        rewrite <- Zpos_shift in Hq; injection Hq as ->; reflexivity. }
    rewrite binary_round_aux_full by (auto; lia).
    f_equal; lia.
  - (* q is the full mantissa followed by n zero bits *)
    assert (q = Pos.iter xO (fullMantissa p) n) as ->.
    { apply Pos2Z.inj; rewrite Zpos_shift, Hq.
      unfold fullMantissa; fold d.
      destruct (53 - d) as [|j|j] eqn:Hj; try lia.
      - replace k with (Zpos n) by lia; reflexivity.
      - rewrite Zpos_shift, <- Z.mul_assoc, <- Z.pow_add_r by lia.
        f_equal; f_equal; lia. }
    rewrite binary_round_aux_zeros by (auto; lia).
    f_equal; lia.
  - (* q is shifted left to 53 digits *)
    assert (Pos.iter xO q j = fullMantissa p) as ->.
    { apply Pos2Z.inj; rewrite Zpos_shift, Hq.
      unfold fullMantissa; fold d.
      destruct (53 - d) as [|i|i] eqn:Hi; try lia.
      rewrite Zpos_shift, <- Z.mul_assoc, <- Z.pow_add_r by lia.
      f_equal; f_equal; lia. }
    apply binary_round_aux_full; [exact Hfull | lia].
Qed.

Lemma ofZ_canonical (p : positive) :
  Zpos p < 2 ^ 53 ->
  ofZ (Zpos p) =
  S754_finite false (fullMantissa p) (Zpos (digits2_pos p) - 53).
Proof.
  intros Hp; unfold ofZ, binary_normalize.
  apply (binary_round_scaled false p 0 p Hp); lia.
Qed.

Lemma fullMantissa_value (p : positive) :
  Zpos p < 2 ^ 53 ->
  Zpos (fullMantissa p) = Zpos p * 2 ^ (53 - Zpos (digits2_pos p)).
Proof.
  intros Hp; pose proof (digits2_small p Hp) as Hd; unfold fullMantissa.
  destruct (53 - Zpos (digits2_pos p)) as [|j|j] eqn:Hj;
    [rewrite Z.pow_0_r; lia | apply Zpos_shift | lia].
Qed.

Lemma shl_align_value (m : positive) (e e' : Z) :
  e' <= e ->
  Zpos (fst (shl_align m e e')) = Zpos m * 2 ^ (e - e') /\
  snd (shl_align m e e') = e'.
Proof.
  intros He; unfold shl_align.
  destruct (e' - e) as [|d|d] eqn:Hd; cbn [fst snd]; try lia.
  - replace (e - e') with 0 by lia; split; lia.
  - rewrite Zpos_shift; split; [f_equal; f_equal; lia | reflexivity].
Qed.

(** Two natural numbers whose sum is below 2^53 add exactly. *)
Lemma add_ofZ (x y : Z) :
  0 <= x -> 0 <= y -> x + y < 2 ^ 53 ->
  add (ofZ x) (ofZ y) = ofZ (x + y).
Proof.
  intros Hx Hy Hsum.
  destruct x as [|px|px]; [|destruct y as [|py|py]|]; try lia.
  - rewrite Z.add_0_l; change (ofZ 0) with (S754_zero false).
    destruct y as [|py|py]; [reflexivity | | lia].
    rewrite ofZ_canonical by lia; reflexivity.
  - rewrite Z.add_0_r; change (ofZ 0) with (S754_zero false).
    rewrite ofZ_canonical by lia; reflexivity.
  - pose proof (digits2_small px ltac:(lia)) as Hdx.
    pose proof (digits2_small py ltac:(lia)) as Hdy.
    rewrite (ofZ_canonical px), (ofZ_canonical py) by lia.
    unfold add, SFadd.
    set (ex := Zpos (digits2_pos px) - 53) in *.
    set (ey := Zpos (digits2_pos py) - 53) in *.
    set (ez := Z.min ex ey).
    destruct (shl_align_value (fullMantissa px) ex ez ltac:(lia)) as [Hvx _].
    destruct (shl_align_value (fullMantissa py) ey ez ltac:(lia)) as [Hvy _].
    cbn [cond_Zopp].
    rewrite Hvx, Hvy, !fullMantissa_value by lia.
    fold ex ey.
    assert (Hm : Zpos px * 2 ^ (53 - Zpos (digits2_pos px)) * 2 ^ (ex - ez) +
                 Zpos py * 2 ^ (53 - Zpos (digits2_pos py)) * 2 ^ (ey - ez) =
                 Zpos (px + py) * 2 ^ (- ez)).
    { rewrite <- !Z.mul_assoc, <- !Z.pow_add_r by lia.
      replace (53 - Zpos (digits2_pos px) + (ex - ez)) with (- ez) by lia.
      replace (53 - Zpos (digits2_pos py) + (ey - ez)) with (- ez) by lia.
      lia. }
    rewrite Hm.
    assert (Hpos : 0 < Zpos (px + py) * 2 ^ (- ez))
      by (apply Z.mul_pos_pos; [lia | apply Z.pow_pos_nonneg; lia]).
    destruct (Zpos (px + py) * 2 ^ (- ez)) as [|q|q] eqn:Hq; try lia.
    unfold binary_normalize.
    replace ez with (- (- ez)) at 1 by lia.
    rewrite (binary_round_scaled false (px + py) (- ez) q) by lia.
    change (Zpos px + Zpos py) with (Zpos (px + py)).
    rewrite ofZ_canonical by lia; reflexivity.
Qed.

(** ** The per-unit aggregation: sales totals *)

Lemma sumZ_nonneg (l : list Z) :
  (forall z, In z l -> 0 <= z) -> 0 <= sumZ l.
Proof.
  unfold sumZ; induction l as [|x l IH]; intros H; cbn [fold_right]; [lia|].
  pose proof (H x (or_introl eq_refl)).
  pose proof (IH (fun z Hz => H z (or_intror Hz))); lia.
Qed.

Lemma sumZ_filter_le {A : Type} (amount : A -> Z) (f : A -> bool)
    (l : list A) :
  (forall d, In d l -> 0 <= amount d) ->
  0 <= sumZ (map amount (filter f l)) <= sumZ (map amount l).
Proof.
  unfold sumZ; induction l as [|x l IH]; intros H; [cbn; lia|].
  pose proof (H x (or_introl eq_refl)).
  pose proof (IH (fun z Hz => H z (or_intror Hz))).
  cbn [filter map fold_right].
  destruct (f x); cbn [map fold_right]; lia.
Qed.

(** The running sum of whole amounts is their sum, without rounding. *)
Lemma sum_of_whole_amounts (amount : CteData -> Z) (docs : list CteData) :
  forall acc : Z,
    (forall d, In d docs -> 0 <= amount d /\ valorCte d = ofZ (amount d)) ->
    0 <= acc -> acc + sumZ (map amount docs) < 2 ^ 53 ->
    fold_left (fun a d => add a (valorCte d)) docs (ofZ acc) =
    ofZ (acc + sumZ (map amount docs)).
Proof.
  induction docs as [|x docs IH]; intros acc Hdocs Hacc Hsum.
  - cbn [fold_left map]; f_equal; unfold sumZ; cbn; lia.
  - destruct (Hdocs x (or_introl eq_refl)) as [Hx Hval].
    assert (Hrest : 0 <= sumZ (map amount docs)).
    { apply sumZ_nonneg; intros z Hz.
      apply in_map_iff in Hz as [d [<- Hd]].
      apply (Hdocs d (or_intror Hd)). }
    cbn [map] in Hsum.
    change (sumZ (amount x :: map amount docs))
      with (amount x + sumZ (map amount docs)) in Hsum.
    cbn [fold_left]; rewrite Hval, add_ofZ by lia.
    rewrite IH; [|intros d Hd; apply Hdocs; right; exact Hd | lia | lia].
    cbn [map].
    change (sumZ (amount x :: map amount docs))
      with (amount x + sumZ (map amount docs)).
    f_equal; lia.
Qed.

Lemma sumNumbers_whole (zs : list Z) : forall acc : Z,
  (forall z, In z zs -> 0 <= z) -> 0 <= acc -> acc + sumZ zs < 2 ^ 53 ->
  fold_left add (map ofZ zs) (ofZ acc) = ofZ (acc + sumZ zs).
Proof.
  induction zs as [|z zs IH]; intros acc Hzs Hacc Hsum.
  - cbn [fold_left map]; f_equal; unfold sumZ; cbn; lia.
  - pose proof (Hzs z (or_introl eq_refl)) as Hz.
    pose proof (sumZ_nonneg zs (fun y Hy => Hzs y (or_intror Hy))) as Hrest.
    change (sumZ (z :: zs)) with (z + sumZ zs) in *.
    cbn [map fold_left]; rewrite add_ofZ by lia.
    rewrite IH; [|intros y Hy; apply Hzs; right; exact Hy | lia | lia].
    f_equal; lia.
Qed.

Section SalesTotals.

Variable LocalTZA : Z.

(** C3 (as the code has it).  The rows of [unitStats] are the units of the
    unit universe; the sales total of a unit is the left-to-right binary64
    sum of [valorCte] over the records picked up at that unit; these groups
    share out the records with a non-empty pickup unit (none twice, none
    dropped).  When the values are whole numbers that are not negative and
    add up to less than 2^53, no addition rounds, and the per-unit totals
    add up to the sum of [valorCte] over the records with a pickup unit. *)
Theorem unitStats_sales_partition :
  forall (data : list CteData) (meta : list MetaData) (datas : DatasConfig)
         (startDate endDate : option string),
    let stats := unitStats LocalTZA data meta datas startDate endDate in
    map unit stats = unitUniverse data /\
    (forall s, In s stats ->
               vendasTotal s =
               fold_left (fun acc d => add acc (valorCte d))
                 (filter (fun d => String.eqb (coleta d) (unit s)) data)
                 zero) /\
    Permutation (flat_map (vendasDocs data) (unitUniverse data))
                (filter hasPickup data) /\
    (forall amount : CteData -> Z,
        (forall d, In d data ->
                   0 <= amount d /\ valorCte d = ofZ (amount d)) ->
        sumZ (map amount data) < 2 ^ 53 ->
        (forall s, In s stats ->
                   vendasTotal s =
                   ofZ (sumZ (map amount (vendasDocs data (unit s))))) /\
        sumNumbers (map vendasTotal stats) =
        ofZ (sumZ (map amount (filter hasPickup data))) /\
        sumNumbers (map vendasTotal stats) =
        fold_left (fun acc d => add acc (valorCte d))
          (filter hasPickup data) zero).
Proof.
  intros data meta datas sd ed stats.
  assert (Hperm : Permutation (flat_map (vendasDocs data) (unitUniverse data))
                              (filter hasPickup data)).
  { eapply Permutation_trans;
      [apply vendasDocs_partition, unitUniverse_NoDup|].
    erewrite filter_ext_in; [apply Permutation_refl|].
    intros d Hd; cbv beta; unfold hasPickup.
    destruct (String.eqb_spec (coleta d) "") as [He|Hne]; cbn [negb].
    - apply not_true_iff_false; intros Hex.
      apply existsb_exists in Hex as [u [Hin Hu]].
      apply String.eqb_eq in Hu; subst u.
      apply unitUniverse_In in Hin as [Hnon _]; contradiction.
    - apply existsb_exists; exists (coleta d).
      split; [|apply String.eqb_refl].
      apply unitUniverse_In; split; [exact Hne|]; exists d; auto. }
  split; [|split; [|split]].
  - unfold stats, unitStats; rewrite map_map; cbn [unit unitStat].
    apply map_id.
  - intros s Hs; unfold stats, unitStats in Hs.
    apply in_map_iff in Hs as [u [<- _]]; reflexivity.
  - exact Hperm.
  - intros amount Hwhole Htotal.
    assert (Hnonneg : forall d, In d data -> 0 <= amount d)
      by (intros d Hd; apply (Hwhole d Hd)).
    assert (Hgroup : forall (f : CteData -> bool),
              fold_left (fun acc d => add acc (valorCte d)) (filter f data)
                zero = ofZ (sumZ (map amount (filter f data)))).
    { intros f.
      pose proof (sumZ_filter_le amount f data Hnonneg) as Hle.
      change zero with (ofZ 0).
      rewrite (sum_of_whole_amounts amount (filter f data) 0); try lia.
      - f_equal.
      - intros d Hd; apply filter_In in Hd as [Hd _]; exact (Hwhole d Hd). }
    assert (Hrows : forall s, In s stats ->
              vendasTotal s =
              ofZ (sumZ (map amount (vendasDocs data (unit s))))).
    { intros s Hs; unfold stats, unitStats in Hs.
      apply in_map_iff in Hs as [u [<- _]].
      cbn [unitStat vendasTotal unit]; unfold sumValorCte, vendasDocs.
      apply Hgroup. }
    assert (Hflat : forall us,
              sumZ (map (fun u => sumZ (map amount (vendasDocs data u))) us) =
              sumZ (map amount (flat_map (vendasDocs data) us))).
    { induction us as [|u us IHus]; [reflexivity|].
      cbn [map flat_map]; rewrite map_app, sumZ_app, <- IHus; reflexivity. }
    assert (Hsum : sumNumbers (map vendasTotal stats) =
                   ofZ (sumZ (map amount (filter hasPickup data)))).
    { unfold stats, unitStats; rewrite map_map.
      cbn [unitStat vendasTotal]; unfold sumValorCte, vendasDocs.
      erewrite map_ext by (intros u; apply Hgroup).
      rewrite <- (map_map (fun u => sumZ (map amount
                             (filter (fun d => String.eqb (coleta d) u) data)))
                          ofZ).
      unfold sumNumbers; change zero with (ofZ 0).
      pose proof (Hflat (unitUniverse data)) as Hf.
      unfold vendasDocs in Hf.
      pose proof (sumZ_Permutation _ _ (Permutation_map amount Hperm)) as Hp.
      unfold vendasDocs in Hp.
      pose proof (sumZ_filter_le amount hasPickup data Hnonneg) as Hle.
      rewrite sumNumbers_whole; try lia.
      - f_equal; lia.
      - intros z Hz; apply in_map_iff in Hz as [u [<- _]].
        apply (sumZ_filter_le amount _ data Hnonneg). }
    split; [exact Hrows|split; [exact Hsum|]].
    rewrite Hsum; symmetry; apply Hgroup.
Qed.

End SalesTotals.

Lemma unitStats_sales_partition_witness :
  map vendasTotal (unitStats BRT wholeShipments [] march2024 None None) =
    [ofZ 400; ofZ 250] /\
  sumNumbers (map vendasTotal
                (unitStats BRT wholeShipments [] march2024 None None)) =
  fold_left (fun acc d => add acc (valorCte d))
    (filter hasPickup wholeShipments) zero.
Proof.
  split; [vm_compute; reflexivity|].
  apply (unitStats_sales_partition BRT wholeShipments [] march2024 None None)
    with (amount := wholeAmount).
  - intros d Hd.
    repeat (destruct Hd as [<-|Hd]; [split; [vm_compute; discriminate
                                            | vm_compute; reflexivity]|]).
    contradiction.
  - vm_compute; reflexivity.
Defined.

(** ** Zones: a constant offset, and a change of offset *)

Lemma fixedZone_LocalTZA (offset t : Z) (isUTC : bool) :
  Zoned.LocalTZA (fixedZone offset) t isUTC = offset.
Proof.
  unfold Zoned.LocalTZA, fixedZone;
    cbn [Zoned.offsetBefore Zoned.offsetAfter Zoned.transition].
  destruct isUTC; [destruct (t <? 0) | destruct (t <? _)]; reflexivity.
Qed.

Lemma fixedZone_LocalTime (offset t : Z) :
  Zoned.LocalTime (fixedZone offset) t = LocalTime offset t.
Proof.
  unfold Zoned.LocalTime, LocalTime; rewrite fixedZone_LocalTZA; reflexivity.
Qed.

Lemma fixedZone_UTC (offset t : Z) :
  Zoned.UTC (fixedZone offset) t = UTC offset t.
Proof. unfold Zoned.UTC, UTC; rewrite fixedZone_LocalTZA; reflexivity. Qed.

Lemma fixedZone_setHoursZero (offset : Z) (d : Date) :
  Zoned.setHoursZero (fixedZone offset) d = setHoursZero offset d.
Proof.
  destruct d; cbn [Zoned.setHoursZero setHoursZero]; [reflexivity|].
  rewrite fixedZone_UTC, fixedZone_LocalTime; reflexivity.
Qed.

Lemma fixedZone_setDateNext (offset : Z) (d : Date) :
  Zoned.setDateNext (fixedZone offset) d = setDateNext offset d.
Proof.
  destruct d; cbn [Zoned.setDateNext setDateNext]; [reflexivity|].
  cbv zeta; rewrite fixedZone_UTC, fixedZone_LocalTime; reflexivity.
Qed.

Lemma fixedZone_getDay (offset : Z) (d : Date) :
  Zoned.getDay (fixedZone offset) d = getDay offset d.
Proof.
  destruct d; cbn [Zoned.getDay getDay]; [reflexivity|].
  rewrite fixedZone_LocalTime; reflexivity.
Qed.

Lemma fixedZone_toDateString (offset : Z) (d : Date) :
  Zoned.toDateString (fixedZone offset) d = toDateString offset d.
Proof.
  destruct d; cbn [Zoned.toDateString toDateString]; [reflexivity|].
  rewrite fixedZone_LocalTime; reflexivity.
Qed.

Lemma fixedZone_businessDaysLoop (offset : Z) (fuel : nat) :
  forall (endDate : Date) (hs : list DateString) (cur : Date) (count : Z),
    Zoned.businessDaysLoop (fixedZone offset) fuel endDate hs cur count =
    businessDaysLoop offset fuel endDate hs cur count.
Proof.
  induction fuel as [|fuel IH]; intros endDate hs cur count; [reflexivity|].
  cbn [Zoned.businessDaysLoop businessDaysLoop].
  rewrite fixedZone_getDay, fixedZone_toDateString, fixedZone_setDateNext.
  destruct (dateLe cur endDate); [apply IH | reflexivity].
Qed.

(** With one constant offset, the date operations of a zone are those of
    the constant offset: [calculateBusinessDays] and [parseDate] are the
    functions of the same name above. *)
Lemma fixedZone_calculateBusinessDays (offset : Z) (start end_ : Date)
    (holidays : list Date) :
  Zoned.calculateBusinessDays (fixedZone offset) start end_ holidays =
  calculateBusinessDays offset start end_ holidays.
Proof.
  unfold Zoned.calculateBusinessDays, calculateBusinessDays,
    Zoned.businessDaysRun, businessDaysRun.
  rewrite !fixedZone_setHoursZero, fixedZone_businessDaysLoop.
  rewrite (map_ext _ (fun h => toDateString offset
                                 (setHoursZero offset (copyDate h))));
    [reflexivity|].
  intros h; rewrite fixedZone_setHoursZero, fixedZone_toDateString.
  reflexivity.
Qed.

Lemma fixedZone_newDate (offset : Z) (year month date : number) :
  Zoned.newDate (fixedZone offset) year month date =
  newDate offset year month date.
Proof.
  unfold Zoned.newDate, newDate.
  destruct (toInteger year), (toInteger month), (toInteger date);
    try reflexivity.
  rewrite fixedZone_UTC; reflexivity.
Qed.

Lemma fixedZone_parseDate (offset : Z) (dateStr : string) :
  Zoned.parseDate (fixedZone offset) dateStr = parseDate offset dateStr.
Proof.
  unfold Zoned.parseDate, parseDate; rewrite !fixedZone_newDate; reflexivity.
Qed.

(** Where the clocks skip local midnight, [new Date(y, m, d)] and
    [setHours(0,0,0,0)] give 01:00 of that day, and the loop of
    [calculateBusinessDays] stays at 01:00 from then on: the last day of the
    period, which ends at 00:00, is passed over.  In Sao Paulo, from
    Saturday 3 to Monday 5 November 2018 no day is counted, though Monday
    alone counts 1; Tuesday 30 October to Monday 5 November counts 4. *)
Lemma calculateBusinessDays_skipped_midnight :
  let zone := saoPaulo2018 in
  let date := fun y m d => Zoned.newDate zone (ofZ y) (ofZ m) (ofZ d) in
  Zoned.parseDate zone "04/11/2018" = Some (date 2018 10 4) /\
  date 2018 10 4 = TimeValue 1541300400000 /\
  TimeWithinDay (Zoned.LocalTime zone 1541300400000) = 3600000 /\
  Zoned.calculateBusinessDays zone (date 2018 10 3) (date 2018 10 5) [] = 0 /\
  dateLe (snd (Zoned.businessDaysRun zone (date 2018 10 3) (date 2018 10 5)
                 []))
         (Zoned.setHoursZero zone (copyDate (date 2018 10 5))) = false /\
  Zoned.calculateBusinessDays zone (date 2018 10 5) (date 2018 10 5) [] = 1 /\
  Zoned.calculateBusinessDays zone (date 2018 10 3) (date 2018 10 4) [] = 0 /\
  Zoned.calculateBusinessDays zone (date 2018 9 30) (date 2018 10 5) [] = 4 /\
  Zoned.calculateBusinessDays zone (date 2018 10 3) (date 2018 10 5)
    [date 2018 10 5] = 0.
Proof. cbv zeta; repeat split; vm_compute; reflexivity. Qed.

(** Two pairs of dates on which the count is not what the spec says.  The
    count is by calendar days, not by the order of the two dates: with the
    start at 10:00 and the end at 08:00 of Friday 1 March 2024 (UTC-3), the
    start is after the end and the day is counted.  And where the clocks
    skip midnight the last day is passed over: in Sao Paulo, from Saturday
    3 to Monday 5 November 2018, Monday is a business day of the period and
    no day is counted. *)
Lemma calculateBusinessDays_every_pair_counterexample :
  (let start := TimeValue (1709262000000 + 10 * 3600000) in
   let end_ := TimeValue (1709262000000 + 8 * 3600000) in
   dateLt end_ start = true /\
   localDay BRT (1709262000000 + 10 * 3600000) = 19783 /\
   localDay BRT (1709262000000 + 8 * 3600000) = 19783 /\
   isWeekend 19783 = false /\
   calculateBusinessDays BRT start end_ [] = 1 /\
   calculateBusinessDays BRT start end_ [] <> 0) /\
  (let zone := saoPaulo2018 in
   let start := Zoned.newDate zone (ofZ 2018) (ofZ 10) (ofZ 3) in
   let end_ := Zoned.newDate zone (ofZ 2018) (ofZ 10) (ofZ 5) in
   Zoned.toDateString zone start = DayString 17838 /\
   Zoned.toDateString zone end_ = DayString 17840 /\
   filter (fun d => negb (isWeekend d)) (dayRange 17838 3) = [17840] /\
   Zoned.calculateBusinessDays zone start end_ [] = 0 /\
   Zoned.calculateBusinessDays zone start end_ [] <> 1).
Proof.
  cbv zeta; repeat split; try (vm_compute; reflexivity);
    vm_compute; discriminate.
Qed.
